(** * lcpng interface synchronisation (lcpng_if_sync.c)

    A shallow embedding of the state-synchronisation engine of the lcpng
    plugin and of the netlink request/response code it carries, followed
    by the properties of the engine that the specification states.

    Conventions.
    - C integers are [Z] with the wrap-around of their width written out.
    - A vppinfra vector of [u8] and the receive buffer are [list byte].
    - Pools and hash tables of the dataplane are [gmap]s keyed by index.
    - A dereference of a NULL pointer is the outcome [Fault].
    - What the operating system, the kernel's netlink side and the other
      compilation units of the plugin do is held in the [world]; every
      externally visible operation is also appended to its [trace]. *)

From Stdlib Require Import ZArith Lia.
From Stdlib.Strings Require Import Byte.
From stdpp Require Import base option list gmap strings pretty.

Local Open Scope Z_scope.

(** ** Machine integers and bytes *)

Definition u8 (z : Z) : Z := z mod 2 ^ 8.
Definition u16 (z : Z) : Z := z mod 2 ^ 16.
Definition u32 (z : Z) : Z := z mod 2 ^ 32.

(** Conversion of an unsigned 32-bit pattern to C's [int]. *)
Definition int32 (z : Z) : Z :=
  let r := u32 z in if r <? 2 ^ 31 then r else r - 2 ^ 32.

Definition byte_of_Z (z : Z) : byte :=
  default x00 (Byte.of_N (Z.to_N (u8 z))).

Definition Z_of_byte (b : byte) : Z := Z.of_N (Byte.to_N b).

(** Host byte order of netlink: little endian. *)
Fixpoint le_encode (n : nat) (z : Z) : list byte :=
  match n with
  | O => []
  | S n' => byte_of_Z z :: le_encode n' (Z.shiftr z 8)
  end.

Fixpoint le_decode (bs : list byte) : Z :=
  match bs with
  | [] => 0
  | b :: bs' => Z_of_byte b + 2 ^ 8 * le_decode bs'
  end.

(** ** Memory: vectors of bytes *)

(** [vec_add2 (V, P, N)]: grow [V] by [N] zeroed elements; [P] is the offset
    of the first new element. *)
Definition vec_add2 (v : list byte) (n : Z) : list byte * nat :=
  (v ++ replicate (Z.to_nat n) x00, length v).

(** Writing [src] at offset [off], one byte at a time. *)
Fixpoint store (v : list byte) (off : nat) (src : list byte) : list byte :=
  match src with
  | [] => v
  | b :: src' => store (<[off:=b]> v) (S off) src'
  end.

(** Reading [n] bytes at offset [off]; a byte outside the list reads as zero. *)
Definition load (v : list byte) (off n : nat) : list byte :=
  (λ i, default x00 (v !! (off + i)%nat)) <$> seq 0 n.

Definition load_u16 (v : list byte) (off : nat) : Z := le_decode (load v off 2).
Definition load_u32 (v : list byte) (off : nat) : Z := le_decode (load v off 4).
Definition load_i32 (v : list byte) (off : nat) : Z := int32 (load_u32 v off).

(** ** The netlink transaction protocol *)

Module Netlink.

(** *** Constants and macros of linux/netlink.h, linux/rtnetlink.h,
    linux/if_addr.h and sys/socket.h *)

Definition NLMSG_DONE : Z := 3.
Definition NLMSG_ERROR : Z := 2.
Definition NLM_F_REQUEST : Z := 1.
Definition NLM_F_ACK : Z := 4.
Definition RTM_DELADDR : Z := 21.
Definition IFA_ADDRESS : Z := 1.
Definition IFA_LOCAL : Z := 2.
Definition AF_INET : Z := 2.
Definition AF_INET6 : Z := 10.

(** [sizeof (struct nlmsghdr)]: nlmsg_len (u32), nlmsg_type (u16),
    nlmsg_flags (u16), nlmsg_seq (u32), nlmsg_pid (u32). *)
Definition sizeof_nlmsghdr : Z := 16.
Definition off_nlmsg_len : nat := 0.
Definition off_nlmsg_type : nat := 4.
Definition off_nlmsg_flags : nat := 6.
(** [sizeof (struct rtattr)]: rta_len (u16), rta_type (u16). *)
Definition sizeof_rtattr : Z := 4.
(** [sizeof (struct ifaddrmsg)]: ifa_family, ifa_prefixlen, ifa_flags,
    ifa_scope (u8 each), ifa_index (u32). *)
Definition sizeof_ifaddrmsg : Z := 8.

Definition NLMSG_ALIGNTO : Z := 4.
Definition NLMSG_ALIGN (len : Z) : Z :=
  Z.land (u32 (len + NLMSG_ALIGNTO - 1)) (u32 (Z.lnot (NLMSG_ALIGNTO - 1))).
Definition NLMSG_HDRLEN : Z := NLMSG_ALIGN sizeof_nlmsghdr.
Definition NLMSG_LENGTH (len : Z) : Z := len + NLMSG_HDRLEN.
Definition NLMSG_SPACE (len : Z) : Z := NLMSG_ALIGN (NLMSG_LENGTH len).

Definition RTA_ALIGNTO : Z := 4.
Definition RTA_ALIGN (len : Z) : Z :=
  Z.land (u32 (len + RTA_ALIGNTO - 1)) (u32 (Z.lnot (RTA_ALIGNTO - 1))).
Definition RTA_LENGTH (len : Z) : Z := RTA_ALIGN sizeof_rtattr + len.
Definition RTA_SPACE (len : Z) : Z := RTA_ALIGN (RTA_LENGTH len).

(** *** Message construction *)

(** [vnet_netlink_msg_t]: the vector [data]. *)
Record vnet_netlink_msg_t := { data : list byte }.

(** [vnet_netlink_msg_init]: [msg_data] is the memory the request payload
    pointer refers to, of which [msg_len] bytes are copied. *)
Definition vnet_netlink_msg_init (type flags : Z) (msg_data : list byte)
    (msg_len : Z) : vnet_netlink_msg_t :=
  let '(d, p) := vec_add2 [] (NLMSG_SPACE msg_len) in
  let d := store d (p + off_nlmsg_flags) (le_encode 2 (Z.lor flags NLM_F_ACK)) in
  let d := store d (p + off_nlmsg_type) (le_encode 2 type) in
  let d := store d (Z.to_nat sizeof_nlmsghdr)
             (take (Z.to_nat msg_len) msg_data) in
  {| data := d |}.

(** [vnet_netlink_msg_add_rtattr]. *)
Definition vnet_netlink_msg_add_rtattr (m : vnet_netlink_msg_t)
    (rta_type : Z) (rta_data : list byte) (rta_data_len : Z)
    : vnet_netlink_msg_t :=
  let '(d, p) := vec_add2 (data m) (RTA_SPACE rta_data_len) in
  let d := store d (p + 2) (le_encode 2 rta_type) in
  let d := store d p (le_encode 2 (RTA_LENGTH rta_data_len)) in
  let d := store d (p + Z.to_nat (RTA_LENGTH 0))
             (take (Z.to_nat rta_data_len) rta_data) in
  {| data := d |}.

(** [struct ifaddrmsg] and its layout in memory. *)
Record ifaddrmsg := {
  ifa_family : Z;
  ifa_prefixlen : Z;
  ifa_flags : Z;
  ifa_scope : Z;
  ifa_index : Z
}.

Definition ifaddrmsg_bytes (ifa : ifaddrmsg) : list byte :=
  [byte_of_Z (ifa_family ifa); byte_of_Z (ifa_prefixlen ifa);
   byte_of_Z (ifa_flags ifa); byte_of_Z (ifa_scope ifa)]
  ++ le_encode 4 (ifa_index ifa).

(** The message [vnet_netlink_del_ip4_addr] hands to
    [vnet_netlink_msg_send]. *)
Definition del_ip4_addr_msg (ifindex : Z) (addr : list byte) (pfx_len : Z)
    : vnet_netlink_msg_t :=
  let ifa := {| ifa_family := AF_INET; ifa_prefixlen := u8 pfx_len;
                ifa_flags := 0; ifa_scope := 0;
                ifa_index := u32 ifindex |} in
  let m := vnet_netlink_msg_init RTM_DELADDR NLM_F_REQUEST
             (ifaddrmsg_bytes ifa) sizeof_ifaddrmsg in
  let m := vnet_netlink_msg_add_rtattr m IFA_LOCAL addr 4 in
  vnet_netlink_msg_add_rtattr m IFA_ADDRESS addr 4.

(** The message [vnet_netlink_del_ip6_addr] hands to
    [vnet_netlink_msg_send]. *)
Definition del_ip6_addr_msg (ifindex : Z) (addr : list byte) (pfx_len : Z)
    : vnet_netlink_msg_t :=
  let ifa := {| ifa_family := AF_INET6; ifa_prefixlen := u8 pfx_len;
                ifa_flags := 0; ifa_scope := 0;
                ifa_index := u32 ifindex |} in
  let m := vnet_netlink_msg_init RTM_DELADDR NLM_F_REQUEST
             (ifaddrmsg_bytes ifa) sizeof_ifaddrmsg in
  let m := vnet_netlink_msg_add_rtattr m IFA_LOCAL addr 16 in
  vnet_netlink_msg_add_rtattr m IFA_ADDRESS addr 16.

(** *** The transaction *)

(** [clib_error_t *]: NULL is [None]. The three ways this file makes an
    error: [clib_error_return_unix] around a failed system call,
    [clib_error_return] for the error code of an NLMSG_ERROR reply, and
    [clib_error_return] wrapping the error of a failed operation. *)
Inductive clib_error_t :=
| ErrUnix (what : string) (errno : Z)
| ErrNetlink (code : Z)
| ErrWrap (what : string) (inner : clib_error_t).

Inductive sysres (A : Type) :=
| SysOk (a : A)
| SysErr (errno : Z).
Arguments SysOk {A} a.
Arguments SysErr {A} errno.

(** What the system calls of one transaction answer: the descriptor of
    socket(2), bind(2), send(2), the bytes recv(2) delivers, and the
    content of the stack where [buf] is placed. *)
Record nl_syscalls := {
  sys_socket : sysres Z;
  sys_bind : sysres unit;
  sys_send : sysres Z;
  sys_recv : sysres (list byte);
  sys_stack : list byte
}.

(** [sizeof (buf)] in [vnet_netlink_msg_send]. *)
Definition sizeof_buf : nat := 4096.

Definition nlmsg_len (buf : list byte) (nh : nat) : Z :=
  load_u32 buf (nh + off_nlmsg_len).
Definition nlmsg_type (buf : list byte) (nh : nat) : Z :=
  load_u16 buf (nh + off_nlmsg_type).
(** The [error] field, an [int], of the [struct nlmsgerr] at
    [NLMSG_DATA (nh)]. *)
Definition nlmsgerr_error (buf : list byte) (nh : nat) : Z :=
  load_i32 buf (nh + Z.to_nat NLMSG_HDRLEN).

(** [NLMSG_OK (nh, len)] with [len] an [int]; the last comparison is
    between an unsigned and an [int], hence unsigned. *)
Definition NLMSG_OK (buf : list byte) (nh : nat) (len : Z) : bool :=
  (sizeof_nlmsghdr <=? len)
  && (sizeof_nlmsghdr <=? nlmsg_len buf nh)
  && (nlmsg_len buf nh <=? u32 len).

(** [NLMSG_NEXT (nh, len)]: the next header and the updated [len]. *)
Definition NLMSG_NEXT (buf : list byte) (nh : nat) (len : Z) : nat * Z :=
  let a := NLMSG_ALIGN (nlmsg_len buf nh) in
  ((nh + Z.to_nat a)%nat, int32 (u32 len - a)).

(** The [for] loop over the received messages. Every round consumes at
    least a header of [len], so that a [fuel] above [len / 16] is never
    used up: the last branch is then the loop's own exit. *)
Fixpoint recv_walk (fuel : nat) (buf : list byte) (nh : nat) (len : Z)
    (err : option clib_error_t) (replies : option (list vnet_netlink_msg_t))
    : option clib_error_t * option (list vnet_netlink_msg_t) :=
  match fuel with
  | O => (err, replies)
  | S fuel' =>
      if NLMSG_OK buf nh len then
        if nlmsg_type buf nh =? NLMSG_DONE then (err, replies)
        else if nlmsg_type buf nh =? NLMSG_ERROR then
          let e := nlmsgerr_error buf nh in
          (if e =? 0 then err else Some (ErrNetlink e), replies)
        else
          let msg := {| data := load buf nh (Z.to_nat (nlmsg_len buf nh)) |} in
          let replies' := (λ rs, rs ++ [msg]) <$> replies in
          let '(nh', len') := NLMSG_NEXT buf nh len in
          recv_walk fuel' buf nh' len' err replies'
      else (err, replies)
  end.

(** What a transaction leaves behind: the error returned, the reply
    collector, and the bytes handed to send(2), if it got that far. *)
Record send_result := {
  sr_err : option clib_error_t;
  sr_replies : option (list vnet_netlink_msg_t);
  sr_wire : option (list byte)
}.

(** The buffer after recv(2) wrote [rd] at its start. *)
Definition recv_into (stack rd : list byte) : list byte :=
  rd ++ drop (length rd) stack.

(** A buffer of [sizeof_buf] bytes holds at most 256 headers; one more
    round sees the loop condition fail. *)
Definition walk_fuel : nat := 257.

(** [vnet_netlink_msg_send]. *)
Definition vnet_netlink_msg_send (sys : nl_syscalls) (m : vnet_netlink_msg_t)
    (replies : option (list vnet_netlink_msg_t)) : send_result :=
  let d := store (data m) off_nlmsg_len
             (le_encode 4 (Z.of_nat (length (data m)))) in
  match sys_socket sys with
  | SysErr e =>
      {| sr_err := Some (ErrUnix "socket(AF_NETLINK)" e);
         sr_replies := replies; sr_wire := None |}
  | SysOk sock =>
      match sys_bind sys with
      | SysErr e =>
          {| sr_err := Some (ErrUnix "bind" e);
             sr_replies := replies; sr_wire := None |}
      | SysOk _ =>
          let err :=
            match sys_send sys with
            | SysErr e => Some (ErrUnix "send" e)
            | SysOk _ => None
            end in
          let '(err, len, buf) :=
            match sys_recv sys with
            | SysErr e => (Some (ErrUnix "recv" e), -1, sys_stack sys)
            | SysOk rd =>
                let rd := take sizeof_buf rd in
                (err, Z.of_nat (length rd), recv_into (sys_stack sys) rd)
            end in
          let '(err, replies) := recv_walk walk_fuel buf 0 len err replies in
          {| sr_err := err; sr_replies := replies; sr_wire := Some d |}
      end
  end.

(** [vnet_netlink_del_ip4_addr]. *)
Definition vnet_netlink_del_ip4_addr (sys : nl_syscalls) (ifindex : Z)
    (addr : list byte) (pfx_len : Z) : send_result :=
  let r := vnet_netlink_msg_send sys (del_ip4_addr_msg ifindex addr pfx_len)
             None in
  {| sr_err := ErrWrap "del ip4 addr" <$> sr_err r;
     sr_replies := sr_replies r; sr_wire := sr_wire r |}.

(** [vnet_netlink_del_ip6_addr]. *)
Definition vnet_netlink_del_ip6_addr (sys : nl_syscalls) (ifindex : Z)
    (addr : list byte) (pfx_len : Z) : send_result :=
  let r := vnet_netlink_msg_send sys (del_ip6_addr_msg ifindex addr pfx_len)
             None in
  {| sr_err := ErrWrap "del ip6 addr" <$> sr_err r;
     sr_replies := sr_replies r; sr_wire := sr_wire r |}.

(** The headers of a reply buffer, as NLMSG_OK and NLMSG_NEXT step
    through them: their offsets, in order. *)
Fixpoint nlmsg_offsets (fuel : nat) (buf : list byte) (nh : nat) (len : Z)
    : list nat :=
  match fuel with
  | O => []
  | S fuel' =>
      if NLMSG_OK buf nh len then
        nh :: (let '(nh', len') := NLMSG_NEXT buf nh len in
               nlmsg_offsets fuel' buf nh' len')
      else []
  end.

Definition is_terminator (buf : list byte) (nh : nat) : bool :=
  (nlmsg_type buf nh =? NLMSG_DONE) || (nlmsg_type buf nh =? NLMSG_ERROR).

(** The first DONE or ERROR message of a reply buffer, if it has one. *)
Definition reply_terminator (buf : list byte) (len : Z) : option nat :=
  List.find (is_terminator buf) (nlmsg_offsets walk_fuel buf 0 len).

(** The error the loop leaves, as decided by the first DONE or ERROR
    message among those it steps through: [term] is that message, [err]
    the error before the loop. *)
Definition walk_verdict (buf : list byte) (err : option clib_error_t)
    (term : option nat) : option clib_error_t :=
  match term with
  | None => err
  | Some nh =>
      if nlmsg_type buf nh =? NLMSG_DONE then err
      else if nlmsgerr_error buf nh =? 0 then err
      else Some (ErrNetlink (nlmsgerr_error buf nh))
  end.

(** *** The wire format of an address delete *)

Definition nlmsghdr_bytes (len type flags seq pid : Z) : list byte :=
  le_encode 4 len ++ le_encode 2 type ++ le_encode 2 flags
  ++ le_encode 4 seq ++ le_encode 4 pid.

(** An attribute whose value needs no padding. *)
Definition rtattr_bytes (type : Z) (value : list byte) : list byte :=
  le_encode 2 (sizeof_rtattr + Z.of_nat (length value))
  ++ le_encode 2 type ++ value.

Definition del_addr_wire (family ifindex pfx_len : Z) (addr : list byte)
    : list byte :=
  let body :=
    ifaddrmsg_bytes {| ifa_family := family; ifa_prefixlen := pfx_len;
                       ifa_flags := 0; ifa_scope := 0;
                       ifa_index := ifindex |}
    ++ rtattr_bytes IFA_LOCAL addr ++ rtattr_bytes IFA_ADDRESS addr in
  nlmsghdr_bytes (sizeof_nlmsghdr + Z.of_nat (length body)) RTM_DELADDR
    (Z.lor NLM_F_REQUEST NLM_F_ACK) 0 0
  ++ body.

(** The elements of a list before the first one that satisfies [p]. *)
Fixpoint take_until {A} (p : A → bool) (l : list A) : list A :=
  match l with
  | [] => []
  | x :: l' => if p x then [] else x :: take_until p l'
  end.

(** The copy of the message at [nh] that the loop appends to the reply
    collector: [nlmsg_len] bytes from the header on. *)
Definition reply_copy (buf : list byte) (nh : nat) : vnet_netlink_msg_t :=
  {| data := load buf nh (Z.to_nat (nlmsg_len buf nh)) |}.

(** The copies the loop makes of a reply buffer: of every message before
    the first DONE or ERROR message. *)
Definition collected (buf : list byte) (len : Z) : list vnet_netlink_msg_t :=
  reply_copy buf
  <$> take_until (is_terminator buf) (nlmsg_offsets walk_fuel buf 0 len).

(** The same system calls with another content of the stack. *)
Definition with_stack (stack : list byte) (sys : nl_syscalls) : nl_syscalls :=
  {| sys_socket := sys_socket sys; sys_bind := sys_bind sys;
     sys_send := sys_send sys; sys_recv := sys_recv sys;
     sys_stack := stack |}.

(** *** Attributes, as their reader steps through them *)

(** The arguments of one call of [vnet_netlink_msg_add_rtattr]. *)
Record rtattr_arg := {
  ra_type : Z;
  ra_data : list byte;
  ra_len : Z
}.

(** A message after a sequence of calls of [vnet_netlink_msg_add_rtattr]. *)
Definition add_rtattrs (m : vnet_netlink_msg_t) (attrs : list rtattr_arg)
    : vnet_netlink_msg_t :=
  fold_left (λ m a, vnet_netlink_msg_add_rtattr m (ra_type a) (ra_data a)
                      (ra_len a)) attrs m.

(** The bytes one attribute takes in a message: header, value, padding. *)
Definition rtattr_space_bytes (a : rtattr_arg) : list byte :=
  le_encode 2 (sizeof_rtattr + ra_len a)
  ++ le_encode 2 (ra_type a)
  ++ take (Z.to_nat (ra_len a)) (ra_data a)
  ++ replicate (Z.to_nat (RTA_SPACE (ra_len a) - RTA_LENGTH (ra_len a))) x00.

Definition attrs_space (attrs : list rtattr_arg) : Z :=
  foldr (λ a s, RTA_SPACE (ra_len a) + s) 0 attrs.

(** The fields [rta_len] and [rta_type] of the [struct rtattr] a pointer
    refers to; the pointer is the memory from it on. *)
Definition rta_len (rta : list byte) : Z := load_u16 rta 0.
Definition rta_type (rta : list byte) : Z := load_u16 rta 2.

(** [RTA_OK (rta, len)] of linux/rtnetlink.h, with [len] an [int]. *)
Definition RTA_OK (rta : list byte) (len : Z) : bool :=
  (sizeof_rtattr <=? len)
  && (sizeof_rtattr <=? rta_len rta)
  && (rta_len rta <=? len).

(** The iteration [for (; RTA_OK (rta, len); rta = RTA_NEXT (rta, len))]
    of linux/rtnetlink.h, by which the receiver of a message reads its
    attributes: the [rta_type] and the RTA_PAYLOAD bytes at RTA_DATA of
    each. *)
Fixpoint rta_walk (fuel : nat) (rta : list byte) (len : Z)
    : list (Z * list byte) :=
  match fuel with
  | O => []
  | S fuel' =>
      if RTA_OK rta len then
        (rta_type rta,
         take (Z.to_nat (rta_len rta - RTA_LENGTH 0))
           (drop (Z.to_nat (RTA_LENGTH 0)) rta))
        :: rta_walk fuel' (drop (Z.to_nat (RTA_ALIGN (rta_len rta))) rta)
             (int32 (u32 len - RTA_ALIGN (rta_len rta)))
      else []
  end.

(** An attribute [vnet_netlink_msg_add_rtattr] can be called with: the
    value has [ra_len] bytes to copy, and the length fits the 16 bits of
    [rta_len]. *)
Definition rtattr_arg_ok (a : rtattr_arg) : Prop :=
  0 ≤ ra_len a ∧ sizeof_rtattr + ra_len a < 2 ^ 16
  ∧ (Z.to_nat (ra_len a) ≤ length (ra_data a))%nat.

End Netlink.

(** ** The synchronisation engine and the event handlers *)

Module Sync.

(** *** Data of the dataplane and of the pair registry *)

(** Bit 0 of [vnet_sw_interface_t.flags], as in vnet/interface.h. *)
Definition VNET_SW_INTERFACE_FLAG_ADMIN_UP : Z := 1.
(** [~0], the invalid pool index. *)
Definition INDEX_INVALID : Z := 2 ^ 32 - 1.

(** The fields of [vnet_sw_interface_t] this file reads; [mtu_l3] is
    [mtu[VNET_MTU_L3]] and [sub_id] is [sub.id]. *)
Record vnet_sw_interface_t := {
  sw_if_index : Z;
  sup_sw_if_index : Z;
  hw_if_index : Z;
  flags : Z;
  mtu_l3 : Z;
  sub_id : Z
}.

(** The fields of [vnet_hw_interface_t] this file reads, and the software
    interfaces [vnet_hw_interface_walk_sw] visits for it, in order. *)
Record vnet_hw_interface_t := {
  hi_hw_if_index : Z;
  hi_sw_if_index : Z;
  hi_walk_sw : list Z
}.

(** [lcp_itf_pair_t]; a NULL [lip_namespace] is [None]. *)
Record lcp_itf_pair_t := {
  lip_phy_sw_if_index : Z;
  lip_host_sw_if_index : Z;
  lip_vif_index : Z;
  lip_namespace : option string;
  lip_host_name : string
}.

Inductive fib_protocol_t := FIB_PROTOCOL_IP4 | FIB_PROTOCOL_IP6.

#[export] Instance fib_protocol_eq_dec : EqDecision fib_protocol_t.
Proof. solve_decision. Defined.

(** [lcp_nl_table_t]: the host-side record of a forwarding table. *)
Record lcp_nl_table_t := {
  nlt_id : Z;
  nlt_proto : fib_protocol_t;
  nlt_if_index : Z
}.

(** An address configured on a dataplane interface. *)
Record if_address := {
  ia_ip6 : bool;
  ia_addr : list byte;
  ia_pfx_len : Z
}.

(** *** The kernel side and the operating system *)

(** A link of the kernel's stack, in one network namespace. *)
Record kernel_link := {
  kl_name : string;
  kl_mtu : Z
}.

(** The process's view of network namespaces: the namespace it is in,
    its open namespace descriptors, the number of the next descriptor
    it is given, whether its own namespace file can be opened, the named
    namespaces, and whether it may switch. *)
Record os_state := {
  active_ns : Z;
  ns_fds : gmap Z Z;
  next_fd : nat;
  self_ns_openable : bool;
  netns_by_name : gmap string Z;
  setns_permitted : bool
}.

(** *** Operations visible outside this file

    One event per call that leaves this file: the push of the admin
    state to a mirror, the setting of an interface MTU, the netlink
    transactions (by the namespace they are made in), and the requests
    to the pair registry. *)

Inductive event :=
| EvSetLinkState (host_sw_if_index state : Z)
| EvSetMtu (sw_if_index mtu : Z)
| EvNetlinkGetLinkMtu (ns ifindex : Z)
| EvNetlinkSetLinkMtu (ns ifindex mtu : Z)
| EvNetlinkAddAddr (ns : Z) (ip6 : bool) (ifindex : Z) (addr : list byte)
    (pfx_len : Z)
| EvNetlinkSend (ns : Z) (wire : list byte)
| EvNetlinkSetLinkMaster (ns ifindex : Z) (master : string)
| EvPairCreate (phy_sw_if_index : Z) (host_if_name : string)
    (ns : option string)
| EvPairDelete (phy_sw_if_index : Z).

Definition is_set_link_mtu (e : event) : bool :=
  match e with
  | EvNetlinkSetLinkMtu _ _ _ => true
  | _ => false
  end.

Definition is_set_link_state (e : event) : bool :=
  match e with
  | EvSetLinkState _ _ => true
  | _ => false
  end.

Definition is_set_mtu (e : event) : bool :=
  match e with
  | EvSetMtu _ _ => true
  | _ => false
  end.

(** *** The world *)

Record world := {
  lcp_sync_on : bool;
  lcp_auto_subint_on : bool;
  sw_interfaces : gmap Z vnet_sw_interface_t;
  hw_interfaces : gmap Z vnet_hw_interface_t;
  ip_addrs : gmap Z (list if_address);
  lip_pool : gmap Z lcp_itf_pair_t;
  lip_db_by_phy : gmap Z Z;
  fib_table_id : fib_protocol_t → Z → Z;
  nl_tables : list lcp_nl_table_t;
  kernel_links : gmap (Z * Z) kernel_link;
  os : os_state;
  nl_sys : Netlink.nl_syscalls;
  trace : list event
}.

Definition set_sw_interfaces (x : gmap Z vnet_sw_interface_t) (w : world)
    : world :=
  {| lcp_sync_on := lcp_sync_on w; lcp_auto_subint_on := lcp_auto_subint_on w;
     sw_interfaces := x; hw_interfaces := hw_interfaces w;
     ip_addrs := ip_addrs w; lip_pool := lip_pool w;
     lip_db_by_phy := lip_db_by_phy w; fib_table_id := fib_table_id w;
     nl_tables := nl_tables w; kernel_links := kernel_links w; os := os w;
     nl_sys := nl_sys w; trace := trace w |}.

Definition set_pairs (p : gmap Z lcp_itf_pair_t) (db : gmap Z Z) (w : world)
    : world :=
  {| lcp_sync_on := lcp_sync_on w; lcp_auto_subint_on := lcp_auto_subint_on w;
     sw_interfaces := sw_interfaces w; hw_interfaces := hw_interfaces w;
     ip_addrs := ip_addrs w; lip_pool := p;
     lip_db_by_phy := db; fib_table_id := fib_table_id w;
     nl_tables := nl_tables w; kernel_links := kernel_links w; os := os w;
     nl_sys := nl_sys w; trace := trace w |}.

Definition set_kernel_links (x : gmap (Z * Z) kernel_link) (w : world)
    : world :=
  {| lcp_sync_on := lcp_sync_on w; lcp_auto_subint_on := lcp_auto_subint_on w;
     sw_interfaces := sw_interfaces w; hw_interfaces := hw_interfaces w;
     ip_addrs := ip_addrs w; lip_pool := lip_pool w;
     lip_db_by_phy := lip_db_by_phy w; fib_table_id := fib_table_id w;
     nl_tables := nl_tables w; kernel_links := x; os := os w;
     nl_sys := nl_sys w; trace := trace w |}.

Definition set_os (x : os_state) (w : world) : world :=
  {| lcp_sync_on := lcp_sync_on w; lcp_auto_subint_on := lcp_auto_subint_on w;
     sw_interfaces := sw_interfaces w; hw_interfaces := hw_interfaces w;
     ip_addrs := ip_addrs w; lip_pool := lip_pool w;
     lip_db_by_phy := lip_db_by_phy w; fib_table_id := fib_table_id w;
     nl_tables := nl_tables w; kernel_links := kernel_links w; os := x;
     nl_sys := nl_sys w; trace := trace w |}.

Definition set_trace (x : list event) (w : world) : world :=
  {| lcp_sync_on := lcp_sync_on w; lcp_auto_subint_on := lcp_auto_subint_on w;
     sw_interfaces := sw_interfaces w; hw_interfaces := hw_interfaces w;
     ip_addrs := ip_addrs w; lip_pool := lip_pool w;
     lip_db_by_phy := lip_db_by_phy w; fib_table_id := fib_table_id w;
     nl_tables := nl_tables w; kernel_links := kernel_links w; os := os w;
     nl_sys := nl_sys w; trace := x |}.

(** *** Computations: a state monad over the world, with faults *)

(** [Ok]: the code went on with a value; [Fault]: it read through a NULL
    pointer, in the world reached by then. *)
Inductive result (A : Type) :=
| Ok (a : A) (w : world)
| Fault (w : world).
Arguments Ok {A} a w.
Arguments Fault {A} w.

Definition M (A : Type) : Type := world → result A.

#[export] Instance M_ret : MRet M := λ A a w, Ok a w.
#[export] Instance M_bind : MBind M := λ A B f m w,
  match m w with
  | Ok a w' => f a w'
  | Fault w' => Fault w'
  end.

Definition get {A} (f : world → A) : M A := λ w, Ok (f w) w.
Definition modify (f : world → world) : M unit := λ w, Ok () (f w).
Definition emit (e : event) : M unit :=
  modify (λ w, set_trace (trace w ++ [e]) w).
Definition when (b : bool) (m : M unit) : M unit :=
  if b then m else mret ().

(** The world a computation ends in, whichever way it ends. *)
Definition final {A} (r : result A) : world :=
  match r with
  | Ok _ w => w
  | Fault w => w
  end.

(** *** Collaborators of this file *)

(** Pointers into the interface pools: NULL or the index of an element. *)
Definition sw_ptr := option Z.
Definition hw_ptr := option Z.

(** [vnet_get_sw_interface_or_null]. *)
Definition vnet_get_sw_interface_or_null (sw_if_index : Z) : M sw_ptr :=
  get (λ w, match sw_interfaces w !! sw_if_index with
            | Some _ => Some sw_if_index
            | None => None
            end).

(** [vnet_get_hw_interface_or_null]. *)
Definition vnet_get_hw_interface_or_null (hw_if_index : Z) : M hw_ptr :=
  get (λ w, match hw_interfaces w !! hw_if_index with
            | Some _ => Some hw_if_index
            | None => None
            end).

(** [p->f] for a pointer to a software interface. *)
Definition sw_field {A} (p : sw_ptr) (f : vnet_sw_interface_t → A) : M A :=
  λ w, match p ≫= (λ i, sw_interfaces w !! i) with
       | Some s => Ok (f s) w
       | None => Fault w
       end.

(** [p->f] for a pointer to a hardware interface. *)
Definition hw_field {A} (p : hw_ptr) (f : vnet_hw_interface_t → A) : M A :=
  λ w, match p ≫= (λ i, hw_interfaces w !! i) with
       | Some h => Ok (f h) w
       | None => Fault w
       end.

(** Modelled from the spec: vnet_sw_interface_is_sub is not under src/
    ("determine whether an interface is a sub-interface"): an interface
    whose superior is another interface. *)
Definition vnet_sw_interface_is_sub (sw_if_index : Z) : M bool :=
  get (λ w, match sw_interfaces w !! sw_if_index with
            | Some s => negb (sw_if_index =? sup_sw_if_index s)
            | None => false
            end).

Definition with_mtu (mtu : Z) (s : vnet_sw_interface_t) : vnet_sw_interface_t :=
  {| sw_if_index := sw_if_index s; sup_sw_if_index := sup_sw_if_index s;
     hw_if_index := hw_if_index s; flags := flags s; mtu_l3 := mtu;
     sub_id := sub_id s |}.

Definition with_flags (fl : Z) (s : vnet_sw_interface_t) : vnet_sw_interface_t :=
  {| sw_if_index := sw_if_index s; sup_sw_if_index := sup_sw_if_index s;
     hw_if_index := hw_if_index s; flags := fl; mtu_l3 := mtu_l3 s;
     sub_id := sub_id s |}.

(** The interface with its admin-up flag cleared ([state] zero) or set. *)
Definition set_admin (state : Z) (s : vnet_sw_interface_t)
    : vnet_sw_interface_t :=
  with_flags (if state =? 0
              then Z.land (flags s) (Z.lnot VNET_SW_INTERFACE_FLAG_ADMIN_UP)
              else Z.lor (flags s) VNET_SW_INTERFACE_FLAG_ADMIN_UP) s.

Definition with_kl_mtu (mtu : Z) (l : kernel_link) : kernel_link :=
  {| kl_name := kl_name l; kl_mtu := mtu |}.

(** Modelled from the spec: vnet_sw_interface_set_mtu is not under src/
    ("query/set layer-3 MTU"): the interface's layer-3 MTU becomes [mtu]. *)
Definition vnet_sw_interface_set_mtu (sw_if_index mtu : Z) : M unit :=
  emit (EvSetMtu sw_if_index mtu);;
  modify (λ w, set_sw_interfaces
                 (alter (with_mtu mtu) sw_if_index (sw_interfaces w)) w).

(** Modelled from the spec: lcp_itf_set_link_state is not under src/
    ("push the computed admin state to the host-side mirror interface (an
    external-registry operation, not a netlink call)"): the admin-up flag
    of the mirror interface becomes [state]. *)
Definition lcp_itf_set_link_state (lip : lcp_itf_pair_t) (state : Z) : M unit :=
  emit (EvSetLinkState (lip_host_sw_if_index lip) state);;
  modify (λ w, set_sw_interfaces
                 (alter (set_admin state) (lip_host_sw_if_index lip)
                    (sw_interfaces w)) w).

(** Modelled from the spec: vnet_netlink_get_link_mtu is not under src/
    ("the value currently reported by a netlink MTU query"): the MTU of
    the link with that index in the active namespace; [None] stands for
    a returned error. *)
Definition vnet_netlink_get_link_mtu (ifindex : Z) : M (option Z) :=
  ns ← get (λ w, active_ns (os w));
  emit (EvNetlinkGetLinkMtu ns ifindex);;
  get (λ w, kl_mtu <$> kernel_links w !! (ns, ifindex)).

(** Modelled from the spec: vnet_netlink_set_link_mtu is not under src/
    ("set_link_mtu(if_index, mtu)"): one transaction, after which the link
    with that index in the active namespace, if there is one, has that
    MTU. *)
Definition vnet_netlink_set_link_mtu (ifindex mtu : Z) : M unit :=
  ns ← get (λ w, active_ns (os w));
  emit (EvNetlinkSetLinkMtu ns ifindex mtu);;
  modify (λ w, set_kernel_links
                 (alter (with_kl_mtu mtu) (ns, ifindex) (kernel_links w)) w).

(** Modelled from the spec: vnet_netlink_add_ip4_addr ([ip6] false) and
    vnet_netlink_add_ip6_addr ([ip6] true) are not under src/
    ("add_addr(if_index, family, address, prefix_len)"): one transaction
    in the active namespace. *)
Definition vnet_netlink_add_ip_addr (ip6 : bool) (ifindex : Z)
    (addr : list byte) (pfx_len : Z) : M unit :=
  ns ← get (λ w, active_ns (os w));
  emit (EvNetlinkAddAddr ns ip6 ifindex addr pfx_len).

(** Modelled from the spec: vnet_netlink_set_link_master is not under src/
    ("set_link_master(if_index, master_name_or_empty)"): one transaction
    in the active namespace. *)
Definition vnet_netlink_set_link_master (ifindex : Z) (master : string)
    : M unit :=
  ns ← get (λ w, active_ns (os w));
  emit (EvNetlinkSetLinkMaster ns ifindex master).

(** Modelled from the spec: lcp_itf_set_interface_addr is not under src/
    ("re-push all configured IPv4/IPv6 addresses for the pair to the host
    side"): one add-address transaction per address configured on the
    pair's physical interface. *)
Definition lcp_itf_set_interface_addr (lip : lcp_itf_pair_t) : M unit :=
  addrs ← get (λ w, default [] (ip_addrs w !! lip_phy_sw_if_index lip));
  foldr (λ a k, vnet_netlink_add_ip_addr (ia_ip6 a) (lip_vif_index lip)
                  (ia_addr a) (ia_pfx_len a);; k)
    (mret ()) addrs.

(** Modelled from the spec: lcp_itf_pair_find_by_phy is not under src/
    ("resolve a pair by physical interface id"). *)
Definition lcp_itf_pair_find_by_phy (phy_sw_if_index : Z) : M Z :=
  get (λ w, default INDEX_INVALID (lip_db_by_phy w !! phy_sw_if_index)).

(** Modelled from the spec: lcp_itf_pair_get is not under src/ ("fetch a
    pair by opaque handle"). *)
Definition lcp_itf_pair_get (lipi : Z) : M (option lcp_itf_pair_t) :=
  get (λ w, if lipi =? INDEX_INVALID then None else lip_pool w !! lipi).

(** Modelled from the spec: lcp_itf_pair_create is not under src/ ("create
    a pair"); the making of the host interface is the registry's, here
    the request is recorded. *)
Definition lcp_itf_pair_create (phy_sw_if_index : Z) (host_if_name : string)
    (ns : option string) : M unit :=
  emit (EvPairCreate phy_sw_if_index host_if_name ns).

(** Modelled from the spec: lcp_itf_pair_delete is not under src/ ("delete
    the sub-interface's pair if one exists"). *)
Definition lcp_itf_pair_delete (phy_sw_if_index : Z) : M unit :=
  lipi ← lcp_itf_pair_find_by_phy phy_sw_if_index;
  lip ← lcp_itf_pair_get lipi;
  match lip with
  | None => mret ()
  | Some _ =>
      emit (EvPairDelete phy_sw_if_index);;
      modify (λ w, set_pairs (delete lipi (lip_pool w))
                     (delete phy_sw_if_index (lip_db_by_phy w)) w)
  end.

(** Modelled from the spec: lcp_nl_table_find is not under src/ ("look up
    a table by numeric id and protocol family"). *)
Definition lcp_nl_table_find (table_id : Z) (proto : fib_protocol_t)
    : M (option lcp_nl_table_t) :=
  get (λ w, List.find (λ t, (nlt_id t =? table_id)
                            && bool_decide (nlt_proto t = proto))
              (nl_tables w)).

(** Modelled from the spec: fib_table_get_table_id is not under src/
    ("resolve a table's numeric id from an internal table handle"). *)
Definition fib_table_get_table_id (fib_index : Z) (proto : fib_protocol_t)
    : M Z :=
  get (λ w, fib_table_id w proto fib_index).

(** if_indextoname(3): the name of the link with that index in the active
    namespace, or NULL. *)
Definition if_indextoname (ifindex : Z) : M (option string) :=
  get (λ w, kl_name <$> kernel_links w !! (active_ns (os w), ifindex)).

(** Modelled from the spec: clib_netns_open is not under src/ ("open a
    namespace handle by name or current process"): a new descriptor, or
    -1. *)
Definition clib_netns_open (name : option string) : M Z :=
  λ w,
    let o := os w in
    let target :=
      match name with
      | None => if self_ns_openable o then Some (active_ns o) else None
      | Some n => netns_by_name o !! n
      end in
    match target with
    | None => Ok (-1) w
    | Some ns =>
        Ok (Z.of_nat (next_fd o))
          (set_os {| active_ns := active_ns o;
                     ns_fds := <[Z.of_nat (next_fd o) := ns]> (ns_fds o);
                     next_fd := S (next_fd o);
                     self_ns_openable := self_ns_openable o;
                     netns_by_name := netns_by_name o;
                     setns_permitted := setns_permitted o |} w)
    end.

(** Modelled from the spec: clib_setns is not under src/ ("switch the
    active namespace"): the process enters the namespace of an open
    descriptor, if it is allowed to. *)
Definition clib_setns (fd : Z) : M unit :=
  modify (λ w,
    let o := os w in
    match ns_fds o !! fd with
    | Some ns =>
        if setns_permitted o then
          set_os {| active_ns := ns; ns_fds := ns_fds o;
                    next_fd := next_fd o;
                    self_ns_openable := self_ns_openable o;
                    netns_by_name := netns_by_name o;
                    setns_permitted := setns_permitted o |} w
        else w
    | None => w
    end).

(** close(2) on a namespace descriptor. *)
Definition close (fd : Z) : M unit :=
  modify (λ w,
    let o := os w in
    set_os {| active_ns := active_ns o; ns_fds := delete fd (ns_fds o);
              next_fd := next_fd o;
              self_ns_openable := self_ns_openable o;
              netns_by_name := netns_by_name o;
              setns_permitted := setns_permitted o |} w).

(** A transaction of this file, run against the kernel's answers held
    in the world; what was handed to send(2) is recorded. *)
Definition run_transaction (r : Netlink.send_result)
    : M (option Netlink.clib_error_t) :=
  ns ← get (λ w, active_ns (os w));
  match Netlink.sr_wire r with
  | Some wire => emit (EvNetlinkSend ns wire)
  | None => mret ()
  end;;
  mret (Netlink.sr_err r).

(** [vnet_netlink_del_ip4_addr] of this file, in the world. *)
Definition vnet_netlink_del_ip4_addr (ifindex : Z) (addr : list byte)
    (pfx_len : Z) : M (option Netlink.clib_error_t) :=
  sys ← get nl_sys;
  run_transaction (Netlink.vnet_netlink_del_ip4_addr sys ifindex addr pfx_len).

(** [vnet_netlink_del_ip6_addr] of this file, in the world. *)
Definition vnet_netlink_del_ip6_addr (ifindex : Z) (addr : list byte)
    (pfx_len : Z) : M (option Netlink.clib_error_t) :=
  sys ← get nl_sys;
  run_transaction (Netlink.vnet_netlink_del_ip6_addr sys ifindex addr pfx_len).

(** *** lcpng_if_sync.c *)

(** The block that enters the pair's namespace, as it stands in
    [lcp_itf_pair_sync_state] and in the two address handlers: the
    values of [curr_ns_fd] and [vif_ns_fd] after it. *)
Definition netns_enter (lip : lcp_itf_pair_t) : M (Z * Z) :=
  match lip_namespace lip with
  | Some ns =>
      curr_ns_fd ← clib_netns_open None;
      vif_ns_fd ← clib_netns_open (Some ns);
      when (negb (vif_ns_fd =? -1)) (clib_setns vif_ns_fd);;
      mret (curr_ns_fd, vif_ns_fd)
  | None => mret (-1, -1)
  end.

(** The block at the end of the same three functions. *)
Definition netns_leave (curr_ns_fd vif_ns_fd : Z) : M unit :=
  when (negb (vif_ns_fd =? -1)) (close vif_ns_fd);;
  when (negb (curr_ns_fd =? -1)) (clib_setns curr_ns_fd;; close curr_ns_fd).

(** The logging macros are calls, whose arguments are evaluated. These
    are the arguments of the LCP_IF_INFO call and of the first
    LCP_IF_WARN call of [lcp_itf_pair_sync_state]: both pointers are
    read through. *)
Definition log_sync_state (sw sup_sw : sw_ptr) : M unit :=
  _ ← sw_field sw flags;
  _ ← sw_field sup_sw flags;
  _ ← sw_field sw mtu_l3;
  _ ← sw_field sup_sw mtu_l3;
  mret ().

(** The arguments of its second LCP_IF_WARN call. *)
Definition log_sync_state_clamp (sw sup_sw : sw_ptr) : M unit :=
  _ ← sw_field sw flags;
  _ ← sw_field sw mtu_l3;
  _ ← sw_field sup_sw mtu_l3;
  mret ().

(** [lcp_itf_pair_sync_state]. *)
Definition lcp_itf_pair_sync_state (lip : lcp_itf_pair_t) : M unit :=
  sync ← get lcp_sync_on;
  if negb sync then mret () else
  sw ← vnet_get_sw_interface_or_null (lip_phy_sw_if_index lip);
  match sw with
  | None => mret ()
  | Some _ =>
      sup ← sw_field sw sup_sw_if_index;
      sup_sw ← vnet_get_sw_interface_or_null sup;
      '(curr_ns_fd, vif_ns_fd) ← netns_enter lip;
      log_sync_state sw sup_sw;;
      fl ← sw_field sw flags;
      let state := Z.land fl VNET_SW_INTERFACE_FLAG_ADMIN_UP in
      state ← (if negb (state =? 0) then
                 sfl ← sw_field sup_sw flags;
                 if Z.land sfl VNET_SW_INTERFACE_FLAG_ADMIN_UP =? 0 then
                   log_sync_state sw sup_sw;;
                   mret 0
                 else mret state
               else mret state);
      lcp_itf_set_link_state lip state;;
      mtu ← sw_field sw mtu_l3;
      mtu ← (if mtu =? 0 then sw_field sup_sw mtu_l3 else mret mtu);
      sup_mtu ← sw_field sup_sw mtu_l3;
      sw_mtu ← sw_field sw mtu_l3;
      mtu ← (if sup_mtu <? sw_mtu then
               log_sync_state_clamp sw sup_sw;;
               sw_field sup_sw mtu_l3
             else mret mtu);
      vnet_sw_interface_set_mtu (lip_phy_sw_if_index lip) mtu;;
      vnet_sw_interface_set_mtu (lip_host_sw_if_index lip) mtu;;
      netlink_mtu ← vnet_netlink_get_link_mtu (lip_vif_index lip);
      match netlink_mtu with
      | Some netlink_mtu =>
          when (negb (netlink_mtu =? mtu))
            (vnet_netlink_set_link_mtu (lip_vif_index lip) mtu)
      | None => mret ()
      end;;
      lcp_itf_set_interface_addr lip;;
      netns_leave curr_ns_fd vif_ns_fd
  end.

Inductive walk_rc_t := WALK_STOP | WALK_CONTINUE.

(** A walk: the callback on each element in turn, until it asks to stop. *)
Fixpoint walk {A} (cb : A → M walk_rc_t) (l : list A) : M unit :=
  match l with
  | [] => mret ()
  | x :: l' =>
      rc ← cb x;
      match rc with
      | WALK_STOP => mret ()
      | WALK_CONTINUE => walk cb l'
      end
  end.

(** Modelled from the spec: lcp_itf_pair_walk is not under src/ ("walk all
    pairs"; "order is whatever the registry's walk yields"). *)
Definition lcp_itf_pair_walk (cb : Z → M walk_rc_t) : M unit :=
  lipis ← get (λ w, (map_to_list (lip_pool w)).*1);
  walk cb lipis.

(** Modelled from the spec: vnet_hw_interface_walk_sw is not under src/
    ("walk sub-interfaces of a hardware interface"). *)
Definition vnet_hw_interface_walk_sw (hw_if_index : Z)
    (cb : Z → M walk_rc_t) : M unit :=
  l ← get (λ w, match hw_interfaces w !! hw_if_index with
                | Some h => hi_walk_sw h
                | None => []
                end);
  walk cb l.

(** [lcp_itf_pair_walk_sync_state_all_cb]. *)
Definition lcp_itf_pair_walk_sync_state_all_cb (lipi : Z) : M walk_rc_t :=
  lip ← lcp_itf_pair_get lipi;
  match lip with
  | None => mret WALK_CONTINUE
  | Some lip => lcp_itf_pair_sync_state lip;; mret WALK_CONTINUE
  end.

(** [lcp_itf_pair_walk_sync_state_hw_cb]. *)
Definition lcp_itf_pair_walk_sync_state_hw_cb (sw_if_index : Z)
    : M walk_rc_t :=
  lipi ← lcp_itf_pair_find_by_phy sw_if_index;
  lip ← lcp_itf_pair_get lipi;
  match lip with
  | None => mret WALK_CONTINUE
  | Some lip => lcp_itf_pair_sync_state lip;; mret WALK_CONTINUE
  end.

(** [lcp_itf_pair_sync_state_all]. *)
Definition lcp_itf_pair_sync_state_all : M unit :=
  lcp_itf_pair_walk lcp_itf_pair_walk_sync_state_all_cb.

(** [lcp_itf_pair_sync_state_hw]. *)
Definition lcp_itf_pair_sync_state_hw (hi : hw_ptr) : M unit :=
  match hi with
  | None => mret ()
  | Some _ =>
      _ ← hw_field hi hi_hw_if_index;
      hw_if_index ← hw_field hi hi_hw_if_index;
      vnet_hw_interface_walk_sw hw_if_index lcp_itf_pair_walk_sync_state_hw_cb
  end.

(** [lcp_itf_admin_state_change]; it returns NULL on every path. *)
Definition lcp_itf_admin_state_change (sw_if_idx new_flags : Z) : M unit :=
  sync ← get lcp_sync_on;
  if negb sync then mret () else
  lipi ← lcp_itf_pair_find_by_phy sw_if_idx;
  lip ← lcp_itf_pair_get lipi;
  match lip with
  | None => mret ()
  | Some lip =>
      is_sub ← vnet_sw_interface_is_sub sw_if_idx;
      if (is_sub : bool) then lcp_itf_pair_sync_state lip else
      si ← vnet_get_sw_interface_or_null sw_if_idx;
      match si with
      | None => mret ()
      | Some _ =>
          hw ← sw_field si hw_if_index;
          hi ← vnet_get_hw_interface_or_null hw;
          match hi with
          | None => mret ()
          | Some _ =>
              _ ← sw_field si sw_if_index;
              _ ← hw_field hi hi_sw_if_index;
              lcp_itf_pair_sync_state_hw hi
          end
      end
  end.

(** [lcp_itf_mtu_change]; it returns NULL on every path. *)
Definition lcp_itf_mtu_change (sw_if_idx new_flags : Z) : M unit :=
  sync ← get lcp_sync_on;
  if negb sync then mret () else
  is_sub ← vnet_sw_interface_is_sub sw_if_idx;
  if (is_sub : bool) then
    lipi ← lcp_itf_pair_find_by_phy sw_if_idx;
    lip ← lcp_itf_pair_get lipi;
    match lip with
    | Some lip => lcp_itf_pair_sync_state lip
    | None => mret ()
    end
  else
    si ← vnet_get_sw_interface_or_null sw_if_idx;
    match si with
    | None => mret ()
    | Some _ =>
        hw ← sw_field si hw_if_index;
        hi ← vnet_get_hw_interface_or_null hw;
        match hi with
        | None => mret ()
        | Some _ =>
            _ ← sw_field si sw_if_index;
            _ ← hw_field hi hi_sw_if_index;
            lcp_itf_pair_sync_state_hw hi
        end
    end.

(** [lcp_itf_ip4_add_del_interface_addr]. *)
Definition lcp_itf_ip4_add_del_interface_addr (sw_if_idx : Z)
    (address : list byte) (address_length is_del : Z) : M unit :=
  sync ← get lcp_sync_on;
  if negb sync then mret () else
  lipi ← lcp_itf_pair_find_by_phy sw_if_idx;
  lip ← lcp_itf_pair_get lipi;
  match lip with
  | None => mret ()
  | Some lip =>
      '(curr_ns_fd, vif_ns_fd) ← netns_enter lip;
      (if negb (is_del =? 0) then
         _ ← vnet_netlink_del_ip4_addr (lip_vif_index lip) address
               address_length;
         mret ()
       else
         vnet_netlink_add_ip_addr false (lip_vif_index lip) address
           address_length);;
      netns_leave curr_ns_fd vif_ns_fd
  end.

(** [lcp_itf_ip6_add_del_interface_addr]. *)
Definition lcp_itf_ip6_add_del_interface_addr (sw_if_idx : Z)
    (address : list byte) (address_length is_del : Z) : M unit :=
  sync ← get lcp_sync_on;
  if negb sync then mret () else
  lipi ← lcp_itf_pair_find_by_phy sw_if_idx;
  lip ← lcp_itf_pair_get lipi;
  match lip with
  | None => mret ()
  | Some lip =>
      '(curr_ns_fd, vif_ns_fd) ← netns_enter lip;
      (if negb (is_del =? 0) then
         _ ← vnet_netlink_del_ip6_addr (lip_vif_index lip) address
               address_length;
         mret ()
       else
         vnet_netlink_add_ip_addr true (lip_vif_index lip) address
           address_length);;
      netns_leave curr_ns_fd vif_ns_fd
  end.

(** [lcp_itf_ipX_table_bind] (under LCP_HAVE_VRF_SYNC). *)
Definition lcp_itf_ipX_table_bind (proto : fib_protocol_t)
    (sw_if_index new_fib_index old_fib_index : Z) : M unit :=
  sync ← get lcp_sync_on;
  if negb sync then mret () else
  new_table_id ← fib_table_get_table_id new_fib_index proto;
  lipi ← lcp_itf_pair_find_by_phy sw_if_index;
  lip ← lcp_itf_pair_get lipi;
  match lip with
  | None => mret ()
  | Some lip =>
      if negb (new_table_id =? 0) then
        nlt ← lcp_nl_table_find new_table_id FIB_PROTOCOL_IP4;
        match nlt with
        | None => mret ()
        | Some nlt =>
            if nlt_if_index nlt =? INDEX_INVALID then mret () else
            if_name ← if_indextoname (nlt_if_index nlt);
            match if_name with
            | None => mret ()
            | Some if_name =>
                vnet_netlink_set_link_master (lip_vif_index lip) if_name
            end
        end
      else vnet_netlink_set_link_master (lip_vif_index lip) EmptyString
  end.

(** [lcp_itf_ip4_table_bind] and [lcp_itf_ip6_table_bind]. *)
Definition lcp_itf_ip4_table_bind :=
  lcp_itf_ipX_table_bind FIB_PROTOCOL_IP4.
Definition lcp_itf_ip6_table_bind :=
  lcp_itf_ipX_table_bind FIB_PROTOCOL_IP6.

(** The two calls [lcp_itf_ip_table_add_del] makes into the netlink code
    of the plugin: lcp_netlink_add_link_vrf and lcp_netlink_del_link. *)
Inductive vrf_call :=
| CallAddLinkVrf (table_id : Z) (if_name : string)
| CallDelLink (if_name : string).

(** [snprintf (if_name, sizeof (if_name), "vpp-vrf%u", table_id)] into
    [char if_name[32]]: at most 31 characters are kept. *)
Definition vrf_if_name (table_id : Z) : string :=
  String.substring 0 31 ("vpp-vrf" +:+ pretty (u32 table_id)).

(** [lcp_itf_ip_table_add_del] (under LCP_HAVE_VRF_SYNC): the call it
    makes, whose error it returns, if it makes one. [fib_table_find] is
    the lookup of the forwarding tables. *)
Definition lcp_itf_ip_table_add_del
    (fib_table_find : fib_protocol_t → Z → Z) (table_id flags : Z)
    : option vrf_call :=
  let if_name := vrf_if_name table_id in
  if negb (flags =? 0) then Some (CallAddLinkVrf table_id if_name)
  else if (fib_table_find FIB_PROTOCOL_IP4 table_id =? INDEX_INVALID)
          || (fib_table_find FIB_PROTOCOL_IP6 table_id =? INDEX_INVALID)
       then Some (CallDelLink if_name)
       else None.

(** [lcp_itf_interface_add_del]; it returns NULL on every path. The
    name is made by ["%s.%d"] from the parent's host name and the
    sub-interface id. *)
Definition lcp_itf_interface_add_del (sw_if_idx is_create : Z) : M unit :=
  auto ← get lcp_auto_subint_on;
  if negb auto then mret () else
  sw ← vnet_get_sw_interface_or_null sw_if_idx;
  match sw with
  | None => mret ()
  | Some _ =>
      is_sub ← vnet_sw_interface_is_sub sw_if_idx;
      if negb is_sub then mret () else
      _ ← sw_field sw sw_if_index;
      _ ← sw_field sw sup_sw_if_index;
      if negb (is_create =? 0) then
        sup ← sw_field sw sup_sw_if_index;
        lipi ← lcp_itf_pair_find_by_phy sup;
        sup_lip ← lcp_itf_pair_get lipi;
        match sup_lip with
        | None => mret ()
        | Some sup_lip =>
            id ← sw_field sw sub_id;
            let name :=
              lip_host_name sup_lip +:+ "." +:+ pretty (int32 id) in
            phy ← sw_field sw sw_if_index;
            lcp_itf_pair_create phy name (lip_namespace sup_lip)
        end
      else lcp_itf_pair_delete sw_if_idx
  end.

(** *** Vocabulary of the properties *)

(** The state [lcp_itf_pair_sync_state] hands to
    [lcp_itf_set_link_state], from the two interfaces it read. *)
Definition pushed_state (sw sup : vnet_sw_interface_t) : Z :=
  let state := Z.land (flags sw) VNET_SW_INTERFACE_FLAG_ADMIN_UP in
  if negb (state =? 0)
     && (Z.land (flags sup) VNET_SW_INTERFACE_FLAG_ADMIN_UP =? 0)
  then 0 else state.

(** The MTU [lcp_itf_pair_sync_state] applies. *)
Definition effective_mtu (sw sup : vnet_sw_interface_t) : Z :=
  let mtu := if mtu_l3 sw =? 0 then mtu_l3 sup else mtu_l3 sw in
  if mtu_l3 sup <? mtu_l3 sw then mtu_l3 sup else mtu.

(** An interface "is admin-up". *)
Definition admin_up (s : vnet_sw_interface_t) : bool :=
  Z.testbit (flags s) 0.

(** The admin state of the specification: "the physical interface's
    admin-up flag, forced to down when the parent's admin-up flag is
    clear". *)
Definition state_by_spec (sw sup : vnet_sw_interface_t) : bool :=
  if admin_up sup then admin_up sw else false.

(** The effective MTU of the specification: "the physical interface's L3
    MTU; the parent's when the physical MTU is zero; and the parent's
    when the parent's is smaller than the physical's". *)
Definition mtu_by_spec (sw sup : vnet_sw_interface_t) : Z :=
  if mtu_l3 sw =? 0 then mtu_l3 sup
  else if mtu_l3 sup <? mtu_l3 sw then mtu_l3 sup
  else mtu_l3 sw.

(** The namespace a guarded region switches to, if it switches. *)
Definition switch_target (lip : lcp_itf_pair_t) (o : os_state) : option Z :=
  ns ← lip_namespace lip;
  t ← netns_by_name o !! ns;
  if setns_permitted o then Some t else None.

(** The namespace the body of a guarded region runs in. *)
Definition body_ns (lip : lcp_itf_pair_t) (o : os_state) : Z :=
  default (active_ns o) (switch_target lip o).

(** The add-address transactions of [lcp_itf_set_interface_addr]. *)
Definition addr_events (ns : Z) (lip : lcp_itf_pair_t) (w : world)
    : list event :=
  (λ a, EvNetlinkAddAddr ns (ia_ip6 a) (lip_vif_index lip) (ia_addr a)
          (ia_pfx_len a))
  <$> default [] (ip_addrs w !! lip_phy_sw_if_index lip).

(** The set-MTU transaction of a run of [lcp_itf_pair_sync_state] in
    namespace [ns] that applies [mtu]. *)
Definition mtu_push (ns : Z) (lip : lcp_itf_pair_t) (mtu : Z) (w : world)
    : list event :=
  match kl_mtu <$> kernel_links w !! (ns, lip_vif_index lip) with
  | Some netlink_mtu =>
      if netlink_mtu =? mtu then []
      else [EvNetlinkSetLinkMtu ns (lip_vif_index lip) mtu]
  | None => []
  end.

(** What a run of [lcp_itf_pair_sync_state] that reaches its end does,
    in order. *)
Definition sync_events (lip : lcp_itf_pair_t) (state mtu : Z) (w : world)
    : list event :=
  let ns := body_ns lip (os w) in
  [EvSetLinkState (lip_host_sw_if_index lip) state;
   EvSetMtu (lip_phy_sw_if_index lip) mtu;
   EvSetMtu (lip_host_sw_if_index lip) mtu;
   EvNetlinkGetLinkMtu ns (lip_vif_index lip)]
  ++ mtu_push ns lip mtu w
  ++ addr_events ns lip w.

(** The namespace the process is in after a guarded region. *)
Definition final_ns (lip : lcp_itf_pair_t) (o : os_state) : Z :=
  if self_ns_openable o then active_ns o else body_ns lip o.

(** Two states of the operating system that differ at most in the
    active namespace and the descriptor table. *)
Definition os_same_setup (o o' : os_state) : Prop :=
  self_ns_openable o' = self_ns_openable o
  ∧ netns_by_name o' = netns_by_name o
  ∧ setns_permitted o' = setns_permitted o.

(** The interface pool after a run that pushes [state] and [mtu]. *)
Definition synced_interfaces (lip : lcp_itf_pair_t) (state mtu : Z)
    (m : gmap Z vnet_sw_interface_t) : gmap Z vnet_sw_interface_t :=
  alter (with_mtu mtu) (lip_host_sw_if_index lip)
    (alter (with_mtu mtu) (lip_phy_sw_if_index lip)
       (alter (set_admin state) (lip_host_sw_if_index lip) m)).

(** The kernel's links after that run, which began in [w]. *)
Definition synced_links (lip : lcp_itf_pair_t) (mtu : Z) (w : world)
    : gmap (Z * Z) kernel_link :=
  match mtu_push (body_ns lip (os w)) lip mtu w with
  | [] => kernel_links w
  | _ =>
      alter (with_kl_mtu mtu) (body_ns lip (os w), lip_vif_index lip)
        (kernel_links w)
  end.

(** The events a computation added to the trace of [w]. *)
Definition events_since {A} (w : world) (r : result A) : list event :=
  drop (length (trace w)) (trace (final r)).

(** The pair registered for a physical interface, as the handlers look
    it up. *)
Definition pair_of (w : world) (sw_if_idx : Z) : option lcp_itf_pair_t :=
  let lipi := default INDEX_INVALID (lip_db_by_phy w !! sw_if_idx) in
  if lipi =? INDEX_INVALID then None else lip_pool w !! lipi.

(** [lcp_itf_pair_sync_state] on each pair of a list, in order. *)
Definition sync_each (lips : list lcp_itf_pair_t) : M unit :=
  foldr (λ lip k, lcp_itf_pair_sync_state lip;; k) (mret ()) lips.

Definition set_nl_tables (x : list lcp_nl_table_t) (w : world) : world :=
  {| lcp_sync_on := lcp_sync_on w; lcp_auto_subint_on := lcp_auto_subint_on w;
     sw_interfaces := sw_interfaces w; hw_interfaces := hw_interfaces w;
     ip_addrs := ip_addrs w; lip_pool := lip_pool w;
     lip_db_by_phy := lip_db_by_phy w; fib_table_id := fib_table_id w;
     nl_tables := x; kernel_links := kernel_links w; os := os w;
     nl_sys := nl_sys w; trace := trace w |}.

(** Moving a result to a world with another table store. *)
Definition with_nl_tables {A} (x : list lcp_nl_table_t) (r : result A)
    : result A :=
  match r with
  | Ok a w => Ok a (set_nl_tables x w)
  | Fault w => Fault (set_nl_tables x w)
  end.

Definition is_ip4_table (t : lcp_nl_table_t) : bool :=
  bool_decide (nlt_proto t = FIB_PROTOCOL_IP4).

(** The transaction of a table-bind event, if it makes one. *)
Definition table_bind_events (proto : fib_protocol_t)
    (sw_if_idx new_fib_index : Z) (w : world) : list event :=
  if lcp_sync_on w then
    match pair_of w sw_if_idx with
    | None => []
    | Some lip =>
        let ns := active_ns (os w) in
        let new_table_id := fib_table_id w proto new_fib_index in
        if new_table_id =? 0
        then [EvNetlinkSetLinkMaster ns (lip_vif_index lip) EmptyString]
        else
          match List.find (λ t, (nlt_id t =? new_table_id) && is_ip4_table t)
                  (nl_tables w) with
          | None => []
          | Some nlt =>
              if nlt_if_index nlt =? INDEX_INVALID then []
              else
                match kl_name <$> kernel_links w !! (ns, nlt_if_index nlt) with
                | Some if_name =>
                    [EvNetlinkSetLinkMaster ns (lip_vif_index lip) if_name]
                | None => []
                end
          end
    end
  else [].

(** The four ways a run can go. *)
Inductive sync_state_case (w : world) (lip : lcp_itf_pair_t)
    : result unit → Prop :=
| SyncDisabled :
    lcp_sync_on w = false → sync_state_case w lip (Ok () w)
| SyncNoPhy :
    lcp_sync_on w = true →
    sw_interfaces w !! lip_phy_sw_if_index lip = None →
    sync_state_case w lip (Ok () w)
| SyncNoParent sw w1 :
    lcp_sync_on w = true →
    sw_interfaces w !! lip_phy_sw_if_index lip = Some sw →
    sw_interfaces w !! sup_sw_if_index sw = None →
    set_os (os w1) w = w1 →
    active_ns (os w1) = body_ns lip (os w) →
    (lip_namespace lip = None → w1 = w) →
    sync_state_case w lip (Fault w1)
| SyncRuns sw sup w' :
    lcp_sync_on w = true →
    sw_interfaces w !! lip_phy_sw_if_index lip = Some sw →
    sw_interfaces w !! sup_sw_if_index sw = Some sup →
    trace w' = trace w
               ++ sync_events lip (pushed_state sw sup) (effective_mtu sw sup) w →
    sw_interfaces w'
    = synced_interfaces lip (pushed_state sw sup) (effective_mtu sw sup)
        (sw_interfaces w) →
    kernel_links w' = synced_links lip (effective_mtu sw sup) w →
    active_ns (os w') = final_ns lip (os w) →
    os_same_setup (os w) (os w') →
    (lip_namespace lip = None → os w' = os w) →
    lcp_sync_on w' = true →
    lip_pool w' = lip_pool w →
    lip_db_by_phy w' = lip_db_by_phy w →
    sync_state_case w lip (Ok () w').

(** *** The namespace guard, on the state of the operating system *)

(** What [clib_netns_open], [clib_setns] and [close] do to the state of
    the operating system. *)
Definition os_netns_open (name : option string) (o : os_state)
    : Z * os_state :=
  let target :=
    match name with
    | None => if self_ns_openable o then Some (active_ns o) else None
    | Some n => netns_by_name o !! n
    end in
  match target with
  | None => (-1, o)
  | Some ns =>
      (Z.of_nat (next_fd o),
       {| active_ns := active_ns o;
          ns_fds := <[Z.of_nat (next_fd o) := ns]> (ns_fds o);
          next_fd := S (next_fd o);
          self_ns_openable := self_ns_openable o;
          netns_by_name := netns_by_name o;
          setns_permitted := setns_permitted o |})
  end.

Definition os_setns (fd : Z) (o : os_state) : os_state :=
  match ns_fds o !! fd with
  | Some ns =>
      if setns_permitted o then
        {| active_ns := ns; ns_fds := ns_fds o; next_fd := next_fd o;
           self_ns_openable := self_ns_openable o;
           netns_by_name := netns_by_name o;
           setns_permitted := setns_permitted o |}
      else o
  | None => o
  end.

Definition os_close (fd : Z) (o : os_state) : os_state :=
  {| active_ns := active_ns o; ns_fds := delete fd (ns_fds o);
     next_fd := next_fd o; self_ns_openable := self_ns_openable o;
     netns_by_name := netns_by_name o;
     setns_permitted := setns_permitted o |}.

(** [netns_enter] on the state of the operating system: the two
    descriptors and the state the body runs in. *)
Definition os_enter (lip : lcp_itf_pair_t) (o : os_state)
    : Z * Z * os_state :=
  match lip_namespace lip with
  | Some ns =>
      let '(curr_ns_fd, o1) := os_netns_open None o in
      let '(vif_ns_fd, o2) := os_netns_open (Some ns) o1 in
      (curr_ns_fd, vif_ns_fd,
       if negb (vif_ns_fd =? -1) then os_setns vif_ns_fd o2 else o2)
  | None => (-1, -1, o)
  end.

(** [netns_leave] on the state of the operating system. *)
Definition os_leave (curr_ns_fd vif_ns_fd : Z) (o : os_state) : os_state :=
  let o1 := if negb (vif_ns_fd =? -1) then os_close vif_ns_fd o else o in
  if negb (curr_ns_fd =? -1) then os_close curr_ns_fd (os_setns curr_ns_fd o1)
  else o1.

(** The state of the operating system after a guarded region whose body
    leaves it alone. *)
Definition os_guarded (lip : lcp_itf_pair_t) (o : os_state) : os_state :=
  let '(curr_ns_fd, vif_ns_fd, o1) := os_enter lip o in
  os_leave curr_ns_fd vif_ns_fd o1.

(** The world a run of [lcp_itf_pair_sync_state] that reaches its end
    leaves, from the two interfaces it read. *)
Definition synced_world (lip : lcp_itf_pair_t) (sw sup : vnet_sw_interface_t)
    (w : world) : world :=
  let state := pushed_state sw sup in
  let mtu := effective_mtu sw sup in
  set_os (os_guarded lip (os w))
    (set_kernel_links (synced_links lip mtu w)
       (set_sw_interfaces (synced_interfaces lip state mtu (sw_interfaces w))
          (set_trace (trace w ++ sync_events lip state mtu w) w))).

(** No descriptor the process is yet to be given is in its table. *)
Definition fds_fresh (o : os_state) : Prop :=
  ∀ n, (next_fd o ≤ n)%nat → ns_fds o !! Z.of_nat n = None.

(** The transaction of an address event on a pair: the delete request
    as handed to send(2), if the transaction got that far, or the add. *)
Definition addr_change_events (ip6 : bool) (lip : lcp_itf_pair_t)
    (address : list byte) (address_length is_del : Z) (w : world)
    : list event :=
  let ns := body_ns lip (os w) in
  if negb (is_del =? 0) then
    let r :=
      if ip6
      then Netlink.vnet_netlink_del_ip6_addr (nl_sys w) (lip_vif_index lip)
             address address_length
      else Netlink.vnet_netlink_del_ip4_addr (nl_sys w) (lip_vif_index lip)
             address address_length in
    match Netlink.sr_wire r with
    | Some wire => [EvNetlinkSend ns wire]
    | None => []
    end
  else [EvNetlinkAddAddr ns ip6 (lip_vif_index lip) address address_length].

(** The namespace a netlink transaction was made in. *)
Definition event_ns (e : event) : option Z :=
  match e with
  | EvNetlinkGetLinkMtu ns _ => Some ns
  | EvNetlinkSetLinkMtu ns _ _ => Some ns
  | EvNetlinkAddAddr ns _ _ _ _ => Some ns
  | EvNetlinkSend ns _ => Some ns
  | EvNetlinkSetLinkMaster ns _ _ => Some ns
  | _ => None
  end.

(** What identifies an interface and places it in the hierarchy. *)
Definition sw_identity (s : vnet_sw_interface_t) : Z * Z * Z * Z :=
  (sw_if_index s, sup_sw_if_index s, hw_if_index s, sub_id s).

(** Two worlds with the same configuration: toggles, hardware
    interfaces, addresses, pair registry, forwarding tables and their
    host-side records. *)
Definition same_config (w w' : world) : Prop :=
  lcp_sync_on w' = lcp_sync_on w
  ∧ lcp_auto_subint_on w' = lcp_auto_subint_on w
  ∧ hw_interfaces w' = hw_interfaces w
  ∧ ip_addrs w' = ip_addrs w
  ∧ lip_pool w' = lip_pool w
  ∧ lip_db_by_phy w' = lip_db_by_phy w
  ∧ fib_table_id w' = fib_table_id w
  ∧ nl_tables w' = nl_tables w.

(** Every pair of a list has a physical interface whose superior
    resolves. *)
Definition pairs_resolve (lips : list lcp_itf_pair_t) (w : world) : Prop :=
  ∀ lip, lip ∈ lips →
    ∃ sw sup, sw_interfaces w !! lip_phy_sw_if_index lip = Some sw
              ∧ sw_interfaces w !! sup_sw_if_index sw = Some sup.

(** The mirrors of a list of pairs are interfaces of their own: no two
    pairs share one, and none is the physical interface of a pair of the
    list or the superior of one. *)
Definition mirrors_apart (lips : list lcp_itf_pair_t) (w : world) : Prop :=
  NoDup (lip_host_sw_if_index <$> lips)
  ∧ ∀ lip lip' sw, lip ∈ lips → lip' ∈ lips →
      sw_interfaces w !! lip_phy_sw_if_index lip = Some sw →
      lip_host_sw_if_index lip' ≠ lip_phy_sw_if_index lip
      ∧ lip_host_sw_if_index lip' ≠ sup_sw_if_index sw.

End Sync.

(** ** Concrete worlds

    A dataplane with a device (interface 1) and a sub-interface of it
    (interface 2, sub-id 7), their mirrors (interfaces 10 and 11), a pair
    for each in the namespace "dataplane", and the kernel links of the two
    mirrors there. *)

Module Examples.
Import Sync.
Local Open Scope string_scope.

Definition sw1 : vnet_sw_interface_t :=
  {| sw_if_index := 1; sup_sw_if_index := 1; hw_if_index := 1; flags := 0;
     mtu_l3 := 1400; sub_id := 0 |}.
Definition sw2 : vnet_sw_interface_t :=
  {| sw_if_index := 2; sup_sw_if_index := 1; hw_if_index := 1; flags := 1;
     mtu_l3 := 1500; sub_id := 7 |}.
Definition tap (n : Z) : vnet_sw_interface_t :=
  {| sw_if_index := n; sup_sw_if_index := n; hw_if_index := n; flags := 0;
     mtu_l3 := 9000; sub_id := 0 |}.
Definition hw1 : vnet_hw_interface_t :=
  {| hi_hw_if_index := 1; hi_sw_if_index := 1; hi_walk_sw := [1; 2] |}.

Definition lip1 : lcp_itf_pair_t :=
  {| lip_phy_sw_if_index := 1; lip_host_sw_if_index := 10;
     lip_vif_index := 100; lip_namespace := Some "dataplane";
     lip_host_name := "host0" |}.
Definition lip2 : lcp_itf_pair_t :=
  {| lip_phy_sw_if_index := 2; lip_host_sw_if_index := 11;
     lip_vif_index := 101; lip_namespace := Some "dataplane";
     lip_host_name := "host0.7" |}.

Definition os0 : os_state :=
  {| active_ns := 0; ns_fds := ∅; next_fd := 3; self_ns_openable := true;
     netns_by_name := {[ "dataplane" := 5 ]}; setns_permitted := true |}.

(** The kernel acknowledges every request: one NLMSG_ERROR message with
    error code 0. *)
Definition ack : list byte :=
  le_encode 4 36 ++ le_encode 2 Netlink.NLMSG_ERROR ++ le_encode 2 0
  ++ le_encode 4 0 ++ le_encode 4 0 ++ le_encode 4 0 ++ replicate 16 x00.

Definition sys_ack : Netlink.nl_syscalls :=
  {| Netlink.sys_socket := Netlink.SysOk 4;
     Netlink.sys_bind := Netlink.SysOk ();
     Netlink.sys_send := Netlink.SysOk 40;
     Netlink.sys_recv := Netlink.SysOk ack;
     Netlink.sys_stack := replicate 4096 xff |}.

(** The kernel answers with one message that is neither NLMSG_DONE nor
    NLMSG_ERROR (an NLMSG_NOOP header) and nothing else. *)
Definition noop : list byte :=
  le_encode 4 16 ++ le_encode 2 1 ++ le_encode 2 0
  ++ le_encode 4 0 ++ le_encode 4 0.

Definition sys_noop : Netlink.nl_syscalls :=
  {| Netlink.sys_socket := Netlink.SysOk 4;
     Netlink.sys_bind := Netlink.SysOk ();
     Netlink.sys_send := Netlink.SysOk 40;
     Netlink.sys_recv := Netlink.SysOk noop;
     Netlink.sys_stack := replicate 4096 xff |}.

(** The kernel refuses: NLMSG_ERROR with error code -19 (ENODEV). *)
Definition nack : list byte :=
  le_encode 4 36 ++ le_encode 2 Netlink.NLMSG_ERROR ++ le_encode 2 0
  ++ le_encode 4 0 ++ le_encode 4 0 ++ le_encode 4 (-19)
  ++ replicate 16 x00.

Definition sys_nack : Netlink.nl_syscalls :=
  {| Netlink.sys_socket := Netlink.SysOk 4;
     Netlink.sys_bind := Netlink.SysOk ();
     Netlink.sys_send := Netlink.SysOk 40;
     Netlink.sys_recv := Netlink.SysOk nack;
     Netlink.sys_stack := replicate 4096 xff |}.

Definition addr4 : list byte := [xcb; x00; x71; x05].
Definition addr6 : list byte :=
  [x20; x01; x0d; xb8; x00; x00; x00; x00;
   x00; x00; x00; x00; x00; x00; x00; x01].

Definition world0 : world :=
  {| lcp_sync_on := true; lcp_auto_subint_on := true;
     sw_interfaces :=
       <[1 := sw1]> (<[2 := sw2]> (<[10 := tap 10]> (<[11 := tap 11]> ∅)));
     hw_interfaces := {[ 1 := hw1 ]};
     ip_addrs :=
       {[ 2 := [ {| ia_ip6 := false; ia_addr := addr4; ia_pfx_len := 32 |} ] ]};
     lip_pool := <[0 := lip1]> (<[1 := lip2]> ∅);
     lip_db_by_phy := <[1 := 0]> (<[2 := 1]> ∅);
     fib_table_id := λ _ fib_index, fib_index;
     nl_tables := [];
     kernel_links :=
       <[(5, 100) := {| kl_name := "host0"; kl_mtu := 9000 |}]>
         (<[(5, 101) := {| kl_name := "host0.7"; kl_mtu := 1500 |}]> ∅);
     os := os0; nl_sys := sys_ack; trace := [] |}.

(** The same dataplane after the device was taken out of the interface
    pool: the sub-interface's superior no longer resolves. *)
Definition world_orphan : world :=
  set_sw_interfaces (delete 1 (sw_interfaces world0)) world0.

(** The same dataplane in a process that cannot open its own namespace
    file. *)
Definition world_noself : world :=
  set_os {| active_ns := 0; ns_fds := ∅; next_fd := 3;
            self_ns_openable := false;
            netns_by_name := {[ "dataplane" := 5 ]};
            setns_permitted := true |} world0.

(** Sync disabled, sub-interface mirroring enabled, and a sub-interface
    (interface 3, sub-id 9) of the device without a pair yet. *)
Definition sw3 : vnet_sw_interface_t :=
  {| sw_if_index := 3; sup_sw_if_index := 1; hw_if_index := 1; flags := 0;
     mtu_l3 := 0; sub_id := 9 |}.

Definition world_sync_off : world :=
  {| lcp_sync_on := false; lcp_auto_subint_on := true;
     sw_interfaces := <[3 := sw3]> (sw_interfaces world0);
     hw_interfaces := hw_interfaces world0;
     ip_addrs := ip_addrs world0; lip_pool := lip_pool world0;
     lip_db_by_phy := lip_db_by_phy world0;
     fib_table_id := fib_table_id world0; nl_tables := nl_tables world0;
     kernel_links := kernel_links world0; os := os world0;
     nl_sys := nl_sys world0; trace := [] |}.

(** The device has no pair, its sub-interface has one. *)
Definition world_unpaired_parent : world :=
  set_pairs (delete 0 (lip_pool world0)) (delete 1 (lip_db_by_phy world0))
    world0.

(** Host-side records of forwarding table 10, one per family, on
    different devices, and the two kernel links in the root namespace. *)
Definition world_vrf : world :=
  set_kernel_links
    (<[(0, 100) := {| kl_name := "host0"; kl_mtu := 9000 |}]>
       (<[(0, 7) := {| kl_name := "vpp-vrf10"; kl_mtu := 65536 |}]>
          (<[(0, 8) := {| kl_name := "other"; kl_mtu := 65536 |}]> ∅)))
    (set_nl_tables
       [ {| nlt_id := 10; nlt_proto := FIB_PROTOCOL_IP6; nlt_if_index := 8 |};
         {| nlt_id := 10; nlt_proto := FIB_PROTOCOL_IP4; nlt_if_index := 7 |} ]
       (set_os {| active_ns := 0; ns_fds := ∅; next_fd := 3;
                  self_ns_openable := true; netns_by_name := ∅;
                  setns_permitted := true |} world0)).

(** A reply of two messages: one that is neither NLMSG_DONE nor
    NLMSG_ERROR, then the acknowledgement. *)
Definition dump : list byte := noop ++ ack.

Definition sys_dump : Netlink.nl_syscalls :=
  {| Netlink.sys_socket := Netlink.SysOk 4;
     Netlink.sys_bind := Netlink.SysOk ();
     Netlink.sys_send := Netlink.SysOk 40;
     Netlink.sys_recv := Netlink.SysOk dump;
     Netlink.sys_stack := replicate 4096 xff |}.

(** A reply that is an NLMSG_ERROR header and nothing else. *)
Definition bare_error : list byte :=
  Netlink.nlmsghdr_bytes 16 Netlink.NLMSG_ERROR 0 0 0.

Definition sys_bare_error : Netlink.nl_syscalls :=
  {| Netlink.sys_socket := Netlink.SysOk 4;
     Netlink.sys_bind := Netlink.SysOk ();
     Netlink.sys_send := Netlink.SysOk 40;
     Netlink.sys_recv := Netlink.SysOk bare_error;
     Netlink.sys_stack := replicate 4096 xff |}.

(** The payload and the two attributes of an IPv4 address delete. *)
Definition ifa4 : list byte :=
  Netlink.ifaddrmsg_bytes
    {| Netlink.ifa_family := Netlink.AF_INET; Netlink.ifa_prefixlen := 32;
       Netlink.ifa_flags := 0; Netlink.ifa_scope := 0;
       Netlink.ifa_index := 101 |}.

Definition attrs4 : list Netlink.rtattr_arg :=
  [ {| Netlink.ra_type := Netlink.IFA_LOCAL; Netlink.ra_data := addr4;
       Netlink.ra_len := 4 |};
    {| Netlink.ra_type := Netlink.IFA_ADDRESS; Netlink.ra_data := addr4;
       Netlink.ra_len := 4 |} ].

(** Forwarding tables of which only the IPv4 family still has table 10. *)
Definition fib_only_ip4 (proto : fib_protocol_t) (table_id : Z) : Z :=
  match proto with
  | FIB_PROTOCOL_IP4 => if (table_id =? 10)%Z then 3 else INDEX_INVALID
  | FIB_PROTOCOL_IP6 => INDEX_INVALID
  end.

End Examples.

(** * Properties *)

(** ** Bytes and little-endian integers *)

Section Bytes.

Lemma Z_of_byte_range (b : byte) : 0 ≤ Z_of_byte b < 256.
Proof.
  unfold Z_of_byte. pose proof (Byte.to_N_bounded b). lia.
Qed.

Lemma Z_of_byte_of_Z (z : Z) : Z_of_byte (byte_of_Z z) = u8 z.
Proof.
  unfold Z_of_byte, byte_of_Z, u8.
  assert (Hr : 0 ≤ z mod 2 ^ 8 < 256) by (apply Z.mod_pos_bound; lia).
  destruct (Byte.of_N (Z.to_N (z mod 2 ^ 8))) as [b|] eqn:E.
  - apply Byte.to_of_N in E. simpl. rewrite E. lia.
  - apply Byte.of_N_None_iff in E. lia.
Qed.

Lemma le_encode_length (n : nat) (z : Z) : length (le_encode n z) = n.
Proof. revert z. induction n; intros; simpl; auto. Qed.

Lemma le_decode_encode (n : nat) (z : Z) :
  le_decode (le_encode n z) = z mod 2 ^ (8 * Z.of_nat n).
Proof.
  revert z. induction n as [|n IH]; intros z.
  - simpl. rewrite Z.mod_1_r. reflexivity.
  - cbn [le_encode le_decode]. rewrite IH, Z_of_byte_of_Z. unfold u8.
    rewrite Z.shiftr_div_pow2 by lia.
    replace (8 * Z.of_nat (S n)) with (8 + 8 * Z.of_nat n) by lia.
    rewrite Z.pow_add_r by lia.
    rewrite Z.rem_mul_r by lia. reflexivity.
Qed.

(** Writing inside a vector replaces exactly the bytes written. *)
Lemma store_inside (v : list byte) (off : nat) (src : list byte) :
  (off + length src ≤ length v)%nat →
  store v off src = take off v ++ src ++ drop (off + length src) v.
Proof.
  revert v off. induction src as [|b src IH]; intros v off Hlen.
  - simpl. rewrite Nat.add_0_r, take_drop. reflexivity.
  - cbn [store]. cbn [length] in Hlen.
    rewrite IH by (rewrite length_insert; lia).
    rewrite drop_insert_lt by lia.
    rewrite (take_S_r _ _ b) by (apply list_lookup_insert_eq; lia).
    rewrite take_insert_ge by lia.
    rewrite <- app_assoc. cbn [app length].
    replace (S off + length src)%nat with (off + S (length src))%nat by lia.
    reflexivity.
Qed.

Lemma store_segment (v : list byte) (off : nat) (src a b c : list byte) :
  v = a ++ b ++ c → off = length a → length src = length b →
  store v off src = a ++ src ++ c.
Proof.
  intros -> -> Hl. rewrite store_inside
    by (rewrite !length_app; lia).
  rewrite take_app_length. f_equal. f_equal.
  rewrite Hl, app_assoc. apply drop_app_length'.
  rewrite length_app. reflexivity.
Qed.

(** Reading back a segment of a concatenation. *)
Lemma load_app_middle (a b c : list byte) :
  load (a ++ b ++ c) (length a) (length b) = b.
Proof.
  unfold load. apply list_eq. intros i.
  rewrite list_lookup_fmap.
  destruct (decide (i < length b)%nat) as [Hi|Hi].
  - rewrite lookup_seq_lt by lia. simpl.
    rewrite lookup_app_r by lia.
    replace (length a + i - length a)%nat with i by lia.
    rewrite lookup_app_l by lia.
    destruct (lookup_lt_is_Some_2 b i Hi) as [x Hx]. rewrite Hx. reflexivity.
  - rewrite lookup_seq_ge by lia. simpl.
    symmetry. apply lookup_ge_None. lia.
Qed.

End Bytes.

(** ** Message construction *)

Section NetlinkBuild.
Import Netlink.

Lemma land_align_mask (y : Z) :
  0 ≤ y < 2 ^ 32 → Z.land y (u32 (Z.lnot 3)) = 4 * (y / 4).
Proof.
  intros Hy.
  replace (u32 (Z.lnot 3)) with (Z.ldiff (Z.ones 32) (Z.ones 2))
    by reflexivity.
  transitivity (Z.ldiff (Z.land y (Z.ones 32)) (Z.ones 2)).
  - apply Z.bits_inj'. intros n Hn.
    rewrite Z.land_spec, !Z.ldiff_spec, Z.land_spec.
    apply andb_assoc.
  - rewrite Z.land_ones by lia.
    rewrite (Z.mod_small y) by lia.
    rewrite Z.ldiff_ones_r by lia.
    rewrite Z.shiftl_mul_pow2, Z.shiftr_div_pow2 by lia.
    change (2 ^ 2) with 4. lia.
Qed.

Lemma NLMSG_ALIGN_eq (x : Z) :
  0 ≤ x → x + 3 < 2 ^ 32 → NLMSG_ALIGN x = 4 * ((x + 3) / 4).
Proof.
  intros H0 H1. unfold NLMSG_ALIGN, NLMSG_ALIGNTO.
  change (4 - 1) with 3. replace (x + 4 - 1) with (x + 3) by lia.
  unfold u32 at 1. rewrite Z.mod_small by lia.
  apply land_align_mask. lia.
Qed.

Lemma NLMSG_ALIGN_bounds (x : Z) :
  0 ≤ x → x + 3 < 2 ^ 32 → x ≤ NLMSG_ALIGN x ≤ x + 3.
Proof.
  intros H0 H1. rewrite NLMSG_ALIGN_eq by lia.
  pose proof (Z.div_mod (x + 3) 4 ltac:(lia)).
  pose proof (Z.mod_pos_bound (x + 3) 4 ltac:(lia)). lia.
Qed.

Lemma RTA_SPACE_eq (len : Z) :
  0 ≤ len → len + 7 < 2 ^ 32 →
  RTA_SPACE len = RTA_LENGTH len + (RTA_SPACE len - RTA_LENGTH len)
  ∧ 0 ≤ RTA_SPACE len - RTA_LENGTH len ≤ 3
  ∧ RTA_LENGTH len = sizeof_rtattr + len.
Proof.
  intros H0 H1.
  assert (HL : RTA_LENGTH len = 4 + len) by reflexivity.
  unfold RTA_SPACE. rewrite HL.
  pose proof (NLMSG_ALIGN_bounds (4 + len) ltac:(lia) ltac:(lia)) as Hb.
  change (NLMSG_ALIGN (4 + len)) with (RTA_ALIGN (4 + len)) in Hb.
  unfold sizeof_rtattr. lia.
Qed.

(** The bytes an attribute adds: its header with the unpadded length,
    its value, and the padding, which the length does not count. *)
Lemma add_rtattr_layout (m : vnet_netlink_msg_t) (rta_type : Z)
    (rta_data : list byte) (rta_data_len : Z) :
  0 ≤ rta_data_len → rta_data_len + 7 < 2 ^ 32 →
  (Z.to_nat rta_data_len ≤ length rta_data)%nat →
  data (vnet_netlink_msg_add_rtattr m rta_type rta_data rta_data_len)
  = data m
    ++ le_encode 2 (sizeof_rtattr + rta_data_len)
    ++ le_encode 2 rta_type
    ++ take (Z.to_nat rta_data_len) rta_data
    ++ replicate (Z.to_nat (RTA_SPACE rta_data_len - RTA_LENGTH rta_data_len))
         x00.
Proof.
  intros H0 H1 Hd.
  destruct (RTA_SPACE_eq rta_data_len H0 H1) as (Hs & Hp & HL).
  unfold vnet_netlink_msg_add_rtattr, vec_add2. cbn [data].
  set (pad := RTA_SPACE rta_data_len - RTA_LENGTH rta_data_len) in *.
  set (v := data m).
  assert (Hrep : replicate (Z.to_nat (RTA_SPACE rta_data_len)) x00
                 = replicate 2 x00 ++ replicate 2 x00
                   ++ replicate (Z.to_nat rta_data_len) x00
                   ++ replicate (Z.to_nat pad) x00).
  { rewrite <- !replicate_add. f_equal. rewrite Hs, HL.
    unfold sizeof_rtattr. lia. }
  rewrite Hrep.
  assert (Hlen_take : length (take (Z.to_nat rta_data_len) rta_data)
                      = Z.to_nat rta_data_len)
    by (rewrite length_take; lia).
  rewrite (store_segment _ _ (le_encode 2 rta_type)
             (v ++ replicate 2 x00) (replicate 2 x00)
             (replicate (Z.to_nat rta_data_len) x00
              ++ replicate (Z.to_nat pad) x00));
    [ | rewrite <- app_assoc; reflexivity
      | rewrite length_app, length_replicate; reflexivity
      | reflexivity ].
  rewrite (store_segment _ _ (le_encode 2 (RTA_LENGTH rta_data_len))
             v (replicate 2 x00)
             (le_encode 2 rta_type
              ++ replicate (Z.to_nat rta_data_len) x00
              ++ replicate (Z.to_nat pad) x00));
    [ | rewrite <- app_assoc; reflexivity | reflexivity | reflexivity ].
  change (Z.to_nat (RTA_LENGTH 0)) with 4%nat.
  rewrite (store_segment _ _ (take (Z.to_nat rta_data_len) rta_data)
             (v ++ le_encode 2 (RTA_LENGTH rta_data_len)
                ++ le_encode 2 rta_type)
             (replicate (Z.to_nat rta_data_len) x00)
             (replicate (Z.to_nat pad) x00));
    [ | rewrite <- !app_assoc; reflexivity
      | rewrite !length_app, !le_encode_length; lia
      | rewrite Hlen_take, length_replicate; reflexivity ].
  rewrite HL, <- !app_assoc. reflexivity.
Qed.

End NetlinkBuild.

Section NetlinkWire.
Import Netlink.

(** What [vnet_netlink_msg_send] hands to send(2): the vector with its
    length written into [nlmsg_len]. *)
Lemma msg_send_wire (sys : nl_syscalls) (m : vnet_netlink_msg_t)
    (replies : option (list vnet_netlink_msg_t)) (sock : Z) :
  sys_socket sys = SysOk sock → sys_bind sys = SysOk () →
  sr_wire (vnet_netlink_msg_send sys m replies)
  = Some (store (data m) off_nlmsg_len
            (le_encode 4 (Z.of_nat (length (data m))))).
Proof.
  intros Hs Hb. unfold vnet_netlink_msg_send. rewrite Hs, Hb.
  destruct (sys_recv sys) as [rd|e];
    match goal with
    | |- context [recv_walk ?f ?b ?n ?l ?e ?r] =>
        destruct (recv_walk f b n l e r)
    end; reflexivity.
Qed.

Lemma del_ip4_addr_msg_wire (ifindex pfx_len : Z) (b0 b1 b2 b3 : byte) :
  store (data (del_ip4_addr_msg ifindex [b0; b1; b2; b3] pfx_len))
    off_nlmsg_len
    (le_encode 4
       (Z.of_nat
          (length (data (del_ip4_addr_msg ifindex [b0; b1; b2; b3] pfx_len)))))
  = del_addr_wire AF_INET (u32 ifindex) (u8 pfx_len) [b0; b1; b2; b3].
Proof. reflexivity. Qed.

Lemma del_ip6_addr_msg_wire (ifindex pfx_len : Z)
    (b0 b1 b2 b3 b4 b5 b6 b7 b8 b9 b10 b11 b12 b13 b14 b15 : byte) :
  let a := [b0; b1; b2; b3; b4; b5; b6; b7;
            b8; b9; b10; b11; b12; b13; b14; b15] in
  store (data (del_ip6_addr_msg ifindex a pfx_len)) off_nlmsg_len
    (le_encode 4
       (Z.of_nat (length (data (del_ip6_addr_msg ifindex a pfx_len)))))
  = del_addr_wire AF_INET6 (u32 ifindex) (u8 pfx_len) a.
Proof. reflexivity. Qed.

End NetlinkWire.

(** ** The reply walk *)

Section NetlinkWalk.
Import Netlink.

Lemma int32_small (z : Z) : - 2 ^ 31 ≤ z < 2 ^ 31 → int32 z = z.
Proof.
  intros Hz. unfold int32, u32. cbv zeta.
  destruct (decide (0 ≤ z)) as [Hp|Hn].
  - rewrite Z.mod_small by lia.
    destruct (Z.ltb_spec z (2 ^ 31)); lia.
  - replace (z mod 2 ^ 32) with (z + 2 ^ 32).
    + destruct (Z.ltb_spec (z + 2 ^ 32) (2 ^ 31)); lia.
    + apply Z.mod_unique with (q := -1); lia.
Qed.

(** A header the loop accepts lies within what is left of the buffer,
    and stepping over it leaves at least 16 bytes less. *)
Lemma NLMSG_NEXT_decreases (buf : list byte) (nh : nat) (len : Z) :
  len < 2 ^ 31 → NLMSG_OK buf nh len = true →
  (NLMSG_NEXT buf nh len).2 ≤ len - 16.
Proof.
  intros Hlen Hok. unfold NLMSG_OK in Hok.
  apply andb_prop in Hok as [Hok H3]. apply andb_prop in Hok as [H1 H2].
  apply Z.leb_le in H1, H2, H3. unfold sizeof_nlmsghdr in *.
  assert (Hu : u32 len = len) by (unfold u32; apply Z.mod_small; lia).
  rewrite Hu in H3.
  unfold NLMSG_NEXT. cbn [snd]. rewrite Hu.
  pose proof (NLMSG_ALIGN_bounds (nlmsg_len buf nh) ltac:(lia) ltac:(lia)).
  rewrite int32_small by lia. lia.
Qed.

(** More fuel than a sixteenth of [len] is never used. *)
Lemma recv_walk_fuel (fuel : nat) (buf : list byte) (nh : nat) (len : Z)
    (err : option clib_error_t) (replies : option (list vnet_netlink_msg_t)) :
  len < 2 ^ 31 → len < 16 * Z.of_nat fuel →
  recv_walk (S fuel) buf nh len err replies
  = recv_walk fuel buf nh len err replies.
Proof.
  revert nh len replies.
  induction fuel as [|fuel IH]; intros nh len replies H31 Hlen.
  - cbn [recv_walk]. unfold NLMSG_OK at 1.
    destruct (Z.leb_spec sizeof_nlmsghdr len) as [H|H];
      [unfold sizeof_nlmsghdr in H; lia | reflexivity].
  - cbn [recv_walk].
    destruct (NLMSG_OK buf nh len) eqn:Hok; [|reflexivity].
    destruct (nlmsg_type buf nh =? NLMSG_DONE); [reflexivity|].
    destruct (nlmsg_type buf nh =? NLMSG_ERROR); [reflexivity|].
    pose proof (NLMSG_NEXT_decreases buf nh len H31 Hok) as Hd.
    destruct (NLMSG_NEXT buf nh len) as [nh' len']. cbn [snd] in Hd.
    apply IH; lia.
Qed.

Lemma recv_walk_walk_fuel (k : nat) (buf : list byte) (len : Z)
    (err : option clib_error_t) (replies : option (list vnet_netlink_msg_t)) :
  len ≤ Z.of_nat sizeof_buf →
  recv_walk (k + walk_fuel) buf 0 len err replies
  = recv_walk walk_fuel buf 0 len err replies.
Proof.
  intros Hlen. unfold sizeof_buf in Hlen.
  induction k as [|k IH]; [reflexivity|].
  cbn [Nat.add]. rewrite recv_walk_fuel; [exact IH | lia |].
  unfold walk_fuel. lia.
Qed.

Lemma recv_walk_verdict (fuel : nat) (buf : list byte) (nh : nat) (len : Z)
    (err : option clib_error_t) (replies : option (list vnet_netlink_msg_t)) :
  (recv_walk fuel buf nh len err replies).1
  = walk_verdict buf err
      (List.find (is_terminator buf) (nlmsg_offsets fuel buf nh len)).
Proof.
  revert nh len replies.
  induction fuel as [|fuel IH]; intros nh len replies; [reflexivity|].
  cbn [recv_walk nlmsg_offsets].
  destruct (NLMSG_OK buf nh len); [|reflexivity].
  cbn [List.find]. unfold is_terminator at 1.
  destruct (nlmsg_type buf nh =? NLMSG_DONE) eqn:Hd.
  - cbn [orb walk_verdict]. rewrite Hd. reflexivity.
  - destruct (nlmsg_type buf nh =? NLMSG_ERROR) eqn:He.
    + cbn [orb walk_verdict fst]. rewrite Hd. reflexivity.
    + cbn [orb]. destruct (NLMSG_NEXT buf nh len) as [nh' len']. apply IH.
Qed.

End NetlinkWalk.

Section NetlinkInit.
Import Netlink.

Lemma NLMSG_SPACE_eq (len : Z) :
  0 ≤ len → len + 19 < 2 ^ 32 →
  0 ≤ NLMSG_SPACE len - NLMSG_LENGTH len ≤ 3
  ∧ NLMSG_LENGTH len = sizeof_nlmsghdr + len.
Proof.
  intros H0 H1.
  assert (HL : NLMSG_LENGTH len = len + 16) by reflexivity.
  unfold NLMSG_SPACE. rewrite HL.
  pose proof (NLMSG_ALIGN_bounds (len + 16) ltac:(lia) ltac:(lia)).
  unfold sizeof_nlmsghdr. lia.
Qed.

(** The vector [vnet_netlink_msg_init] makes: a zeroed header carrying
    the type and the flags with NLM_F_ACK or-ed in, then the payload. *)
Lemma msg_init_layout (type flags : Z) (msg_data : list byte) (msg_len : Z) :
  0 ≤ msg_len → msg_len + 19 < 2 ^ 32 →
  (Z.to_nat msg_len ≤ length msg_data)%nat →
  data (vnet_netlink_msg_init type flags msg_data msg_len)
  = replicate 4 x00
    ++ le_encode 2 type
    ++ le_encode 2 (Z.lor flags NLM_F_ACK)
    ++ replicate 8 x00
    ++ take (Z.to_nat msg_len) msg_data
    ++ replicate (Z.to_nat (NLMSG_SPACE msg_len - NLMSG_LENGTH msg_len)) x00.
Proof.
  intros H0 H1 Hd.
  destruct (NLMSG_SPACE_eq msg_len H0 H1) as (Hp & HL).
  unfold vnet_netlink_msg_init, vec_add2. cbn [data length app].
  set (pad := NLMSG_SPACE msg_len - NLMSG_LENGTH msg_len) in *.
  assert (Hrep : replicate (Z.to_nat (NLMSG_SPACE msg_len)) x00
                 = replicate 4 x00 ++ replicate 2 x00 ++ replicate 2 x00
                   ++ replicate 8 x00
                   ++ replicate (Z.to_nat msg_len) x00
                   ++ replicate (Z.to_nat pad) x00).
  { rewrite <- !replicate_add. f_equal.
    unfold sizeof_nlmsghdr in HL. lia. }
  rewrite Hrep.
  assert (Hlen_take : length (take (Z.to_nat msg_len) msg_data)
                      = Z.to_nat msg_len)
    by (rewrite length_take; lia).
  rewrite (store_segment _ _ (le_encode 2 (Z.lor flags NLM_F_ACK))
             (replicate 4 x00 ++ replicate 2 x00) (replicate 2 x00)
             (replicate 8 x00 ++ replicate (Z.to_nat msg_len) x00
              ++ replicate (Z.to_nat pad) x00));
    [ | rewrite <- app_assoc; reflexivity | reflexivity | reflexivity ].
  rewrite (store_segment _ _ (le_encode 2 type)
             (replicate 4 x00) (replicate 2 x00)
             (le_encode 2 (Z.lor flags NLM_F_ACK)
              ++ replicate 8 x00 ++ replicate (Z.to_nat msg_len) x00
              ++ replicate (Z.to_nat pad) x00));
    [ | rewrite <- app_assoc; reflexivity | reflexivity | reflexivity ].
  rewrite (store_segment _ _ (take (Z.to_nat msg_len) msg_data)
             (replicate 4 x00 ++ le_encode 2 type
              ++ le_encode 2 (Z.lor flags NLM_F_ACK) ++ replicate 8 x00)
             (replicate (Z.to_nat msg_len) x00)
             (replicate (Z.to_nat pad) x00));
    [ | rewrite <- !app_assoc; reflexivity
      | reflexivity
      | rewrite Hlen_take, length_replicate; reflexivity ].
  rewrite <- !app_assoc. reflexivity.
Qed.

Lemma land_ack (flags : Z) :
  Z.land (u16 (Z.lor flags NLM_F_ACK)) NLM_F_ACK = NLM_F_ACK.
Proof.
  unfold u16, NLM_F_ACK. change 4 with (2 ^ 2).
  apply Z.bits_inj'. intros n Hn.
  rewrite Z.land_spec, Z.pow2_bits_eqb by lia.
  destruct (Z.eqb_spec 2 n) as [<-|Hne]; [|apply andb_false_r].
  rewrite Z.mod_pow2_bits_low by lia.
  rewrite Z.lor_spec. rewrite (Z.pow2_bits_true 2) by lia.
  rewrite orb_true_r. reflexivity.
Qed.

(** Every message [vnet_netlink_msg_init] makes asks for an
    acknowledgement. *)
Lemma msg_init_ack (type flags : Z) (msg_data : list byte) (msg_len : Z) :
  0 ≤ msg_len → msg_len + 19 < 2 ^ 32 →
  (Z.to_nat msg_len ≤ length msg_data)%nat →
  Z.land (load_u16 (data (vnet_netlink_msg_init type flags msg_data msg_len))
            off_nlmsg_flags) NLM_F_ACK = NLM_F_ACK.
Proof.
  intros H0 H1 Hd. rewrite msg_init_layout by assumption.
  unfold load_u16.
  rewrite (app_assoc (replicate 4 x00)).
  change off_nlmsg_flags
    with (length (replicate 4 x00 ++ le_encode 2 type)).
  change 2%nat with (length (le_encode 2 (Z.lor flags NLM_F_ACK))) at 3.
  rewrite load_app_middle.
  rewrite le_decode_encode. apply land_ack.
Qed.

End NetlinkInit.

(** ** The claims about the netlink transaction *)

Section NetlinkResults.
Import Netlink.

(** C4 (amended). When socket(2) and bind(2) succeed: if recv(2) fails,
    the transaction reports that receive failure. If recv(2) delivers a
    buffer, the result is decided by the first NLMSG_DONE or NLMSG_ERROR
    message in it: DONE, and ERROR with code zero, leave the result as
    send(2) left it -- success when send(2) succeeded; ERROR with a
    nonzero code gives the protocol-level error, which is none of the
    system-call errors; and a buffer with neither DONE nor ERROR also
    leaves the result as send(2) left it, success when send(2)
    succeeded. *)
Theorem msg_send_reply_verdict (sys : nl_syscalls) (m : vnet_netlink_msg_t)
    (replies : option (list vnet_netlink_msg_t)) (sock : Z) :
  sys_socket sys = SysOk sock → sys_bind sys = SysOk () →
  let sent := match sys_send sys with
              | SysErr e => Some (ErrUnix "send" e)
              | SysOk _ => None
              end in
  match sys_recv sys with
  | SysErr e =>
      sr_err (vnet_netlink_msg_send sys m replies) = Some (ErrUnix "recv" e)
  | SysOk rd =>
      let buf := recv_into (sys_stack sys) (take sizeof_buf rd) in
      let len := Z.of_nat (length (take sizeof_buf rd)) in
      sr_err (vnet_netlink_msg_send sys m replies)
      = walk_verdict buf sent (reply_terminator buf len)
      ∧ (reply_terminator buf len = None →
         sr_err (vnet_netlink_msg_send sys m replies) = sent)
      ∧ (∀ nh, reply_terminator buf len = Some nh →
           nlmsg_type buf nh = NLMSG_DONE →
           sr_err (vnet_netlink_msg_send sys m replies) = sent)
      ∧ (∀ nh, reply_terminator buf len = Some nh →
           nlmsg_type buf nh = NLMSG_ERROR →
           sr_err (vnet_netlink_msg_send sys m replies)
           = if nlmsgerr_error buf nh =? 0 then sent
             else Some (ErrNetlink (nlmsgerr_error buf nh)))
      ∧ (∀ code what errno, ErrNetlink code ≠ ErrUnix what errno)
      ∧ (∀ k err rs,
           recv_walk (k + walk_fuel) buf 0 len err rs
           = recv_walk walk_fuel buf 0 len err rs)
  end.
Proof.
  intros Hs Hb sent. unfold vnet_netlink_msg_send. rewrite Hs, Hb.
  destruct (sys_recv sys) as [rd|e].
  - cbv zeta.
    set (buf := recv_into (sys_stack sys) (take sizeof_buf rd)).
    set (len := Z.of_nat (length (take sizeof_buf rd))).
    fold sent.
    assert (Hv : sr_err
              (let '(err, replies0) :=
                 recv_walk walk_fuel buf 0 len sent replies in
               {| sr_err := err; sr_replies := replies0;
                  sr_wire := Some (store (data m) off_nlmsg_len
                               (le_encode 4 (Z.of_nat (length (data m))))) |})
              = walk_verdict buf sent (reply_terminator buf len)).
    { pose proof (recv_walk_verdict walk_fuel buf 0 len sent replies) as Hw.
      destruct (recv_walk walk_fuel buf 0 len sent replies) as [err rs].
      exact Hw. }
    rewrite Hv. split; [reflexivity|].
    split; [intros ->; reflexivity|].
    split; [intros nh -> Hd; cbn [walk_verdict]; rewrite Hd; reflexivity|].
    split; [intros nh -> He; cbn [walk_verdict]; rewrite He; reflexivity|].
    split; [discriminate|].
    intros k err rs. apply recv_walk_walk_fuel.
    subst len. rewrite length_take. lia.
  - reflexivity.
Qed.

(** C8. The request of an address delete, as handed to send(2): the
    header with the total length, the type RTM_DELADDR and the flags
    NLM_F_REQUEST and NLM_F_ACK; the fixed payload with the family, the
    prefix length and the interface index; then two attributes,
    IFA_LOCAL and IFA_ADDRESS, each holding the address, 4 bytes for
    IPv4 and 16 for IPv6, and nothing after them. Every message
    [vnet_netlink_msg_init] makes has NLM_F_ACK set, and the length
    [vnet_netlink_msg_add_rtattr] writes into an attribute is header
    plus value, without the padding that follows the value. *)
Theorem del_addr_request_layout (sys : nl_syscalls) (sock ifindex pfx_len : Z)
    (a4 a6 : list byte) :
  sys_socket sys = SysOk sock → sys_bind sys = SysOk () →
  length a4 = 4%nat → length a6 = 16%nat →
  0 ≤ pfx_len < 2 ^ 8 → 0 ≤ ifindex < 2 ^ 32 →
  sr_wire (vnet_netlink_del_ip4_addr sys ifindex a4 pfx_len)
  = Some (del_addr_wire AF_INET ifindex pfx_len a4)
  ∧ sr_wire (vnet_netlink_del_ip6_addr sys ifindex a6 pfx_len)
    = Some (del_addr_wire AF_INET6 ifindex pfx_len a6)
  ∧ length (del_addr_wire AF_INET ifindex pfx_len a4) = 40%nat
  ∧ length (del_addr_wire AF_INET6 ifindex pfx_len a6) = 64%nat
  ∧ (∀ family a,
       0 ≤ family < 2 ^ 8 →
       Z_of_byte <$> del_addr_wire family ifindex pfx_len a !! 16%nat
       = Some family
       ∧ Z_of_byte <$> del_addr_wire family ifindex pfx_len a !! 17%nat
         = Some pfx_len
       ∧ load_u32 (del_addr_wire family ifindex pfx_len a) 20 = ifindex)
  ∧ (∀ type flags msg_data msg_len,
       0 ≤ msg_len → msg_len + 19 < 2 ^ 32 →
       (Z.to_nat msg_len ≤ length msg_data)%nat →
       Z.land (load_u16 (data (vnet_netlink_msg_init type flags msg_data
                                 msg_len)) off_nlmsg_flags) NLM_F_ACK
       = NLM_F_ACK)
  ∧ (∀ m rta_type rta_data rta_data_len,
       0 ≤ rta_data_len → rta_data_len + 7 < 2 ^ 32 →
       (Z.to_nat rta_data_len ≤ length rta_data)%nat →
       data (vnet_netlink_msg_add_rtattr m rta_type rta_data rta_data_len)
       = data m
         ++ le_encode 2 (sizeof_rtattr + rta_data_len)
         ++ le_encode 2 rta_type
         ++ take (Z.to_nat rta_data_len) rta_data
         ++ replicate (Z.to_nat (RTA_SPACE rta_data_len
                                 - RTA_LENGTH rta_data_len)) x00).
Proof.
  intros Hs Hb H4 H6 Hp Hi.
  destruct a4 as [|b0 [|b1 [|b2 [|b3 [|]]]]]; try discriminate H4.
  do 16 (destruct a6 as [|? a6]; [discriminate H6|]).
  destruct a6; [|discriminate H6].
  split; [|split; [|split; [|split; [|split; [|split]]]]].
  - unfold vnet_netlink_del_ip4_addr. cbn [sr_wire].
    rewrite (msg_send_wire _ _ _ sock Hs Hb), del_ip4_addr_msg_wire.
    unfold u32, u8. rewrite !Z.mod_small by lia. reflexivity.
  - unfold vnet_netlink_del_ip6_addr. cbn [sr_wire].
    rewrite (msg_send_wire _ _ _ sock Hs Hb), del_ip6_addr_msg_wire.
    unfold u32, u8. rewrite !Z.mod_small by lia. reflexivity.
  - reflexivity.
  - reflexivity.
  - intros family a Hfam. split; [|split].
    + change (del_addr_wire family ifindex pfx_len a !! 16%nat)
        with (Some (byte_of_Z family)).
      cbn [fmap option_fmap option_map]. rewrite Z_of_byte_of_Z.
      unfold u8. rewrite Z.mod_small by lia. reflexivity.
    + change (del_addr_wire family ifindex pfx_len a !! 17%nat)
        with (Some (byte_of_Z pfx_len)).
      cbn [fmap option_fmap option_map]. rewrite Z_of_byte_of_Z.
      unfold u8. rewrite Z.mod_small by lia. reflexivity.
    + change (load_u32 (del_addr_wire family ifindex pfx_len a) 20)
        with (le_decode (le_encode 4 ifindex)).
      rewrite le_decode_encode. apply Z.mod_small. cbn. lia.
  - intros. apply msg_init_ack; assumption.
  - intros. apply add_rtattr_layout; assumption.
Qed.

End NetlinkResults.

(** ** The state monad *)

Section Monad.
Import Sync.

Lemma run_bind {A B} (m : M A) (f : A → M B) (w w1 : world) (a : A) :
  m w = Ok a w1 → (m ≫= f) w = f a w1.
Proof. intros H. unfold mbind, M_bind. rewrite H. reflexivity. Qed.

Lemma run_bind_fault {A B} (m : M A) (f : A → M B) (w w1 : world) :
  m w = Fault w1 → (m ≫= f) w = Fault w1.
Proof. intros H. unfold mbind, M_bind. rewrite H. reflexivity. Qed.

Lemma sw_field_run {A} (i : Z) (f : vnet_sw_interface_t → A) (w : world)
    (s : vnet_sw_interface_t) :
  sw_interfaces w !! i = Some s → sw_field (Some i) f w = Ok (f s) w.
Proof. intros H. unfold sw_field. cbn. rewrite H. reflexivity. Qed.

Lemma set_trace_id (w : world) : set_trace (trace w) w = w.
Proof. destruct w. reflexivity. Qed.

Lemma set_os_id (w : world) : set_os (os w) w = w.
Proof. destruct w. reflexivity. Qed.

End Monad.

(** ** The namespace guard *)

Section Namespace.
Import Sync.

Lemma of_nat_ne_m1 (n : nat) : (Z.of_nat n =? -1) = false.
Proof. apply Z.eqb_neq. lia. Qed.

(** Entering: the body runs in [body_ns]; and leaving with the two
    descriptors, from any world with that state of the operating system,
    ends in [final_ns]. *)
Lemma netns_enter_leave (lip : lcp_itf_pair_t) (w : world) :
  ∃ curr vif w1,
    netns_enter lip w = Ok (curr, vif) w1
    ∧ set_os (os w1) w = w1
    ∧ active_ns (os w1) = body_ns lip (os w)
    ∧ (lip_namespace lip = None → w1 = w)
    ∧ ∀ w2, os w2 = os w1 →
        ∃ w3, netns_leave curr vif w2 = Ok () w3
          ∧ set_os (os w3) w2 = w3
          ∧ active_ns (os w3) = final_ns lip (os w)
          ∧ os_same_setup (os w) (os w3)
          ∧ (lip_namespace lip = None → w3 = w2).
Proof.
  unfold netns_enter, netns_leave, final_ns, body_ns, switch_target,
    os_same_setup.
  destruct (lip_namespace lip) as [ns|] eqn:Hns; cbn [mbind option_bind].
  2:{ exists (-1), (-1), w.
      split; [reflexivity|]. split; [apply set_os_id|].
      split; [reflexivity|]. split; [reflexivity|].
      intros w2 H2. exists w2.
      split; [reflexivity|]. split; [apply set_os_id|]. rewrite H2.
      destruct (self_ns_openable (os w)); repeat split; reflexivity. }
  destruct (self_ns_openable (os w)) eqn:Hself;
  destruct (netns_by_name (os w) !! ns) as [t|] eqn:Ht;
  destruct (setns_permitted (os w)) eqn:Hperm.
  all: cbv [mbind M_bind mret M_ret clib_netns_open clib_setns close modify when].
  all: cbn [os set_os active_ns ns_fds next_fd self_ns_openable netns_by_name
            setns_permitted].
  all: rewrite ?Hself, ?Ht, ?Hperm; cbn [os set_os active_ns ns_fds next_fd
         self_ns_openable netns_by_name setns_permitted].
  all: rewrite ?Ht, ?of_nat_ne_m1; cbn [negb Z.eqb Pos.eqb].
  all: cbn [os set_os active_ns ns_fds next_fd self_ns_openable netns_by_name
            setns_permitted].
  all: rewrite ?lookup_insert_eq, ?Hperm.
  all: cbn [os set_os active_ns ns_fds next_fd self_ns_openable netns_by_name
            setns_permitted negb Z.eqb].
  all: eexists _, _, _; (split; [reflexivity|]).
  all: (split; [first [apply set_os_id | reflexivity]|]).
  all: cbn [os set_os active_ns default]; (split; [reflexivity|]).
  all: (split; [discriminate|]).
  all: intros w2 H2; cbn [os set_os] in H2.
  all: rewrite ?of_nat_ne_m1; cbn [negb Z.eqb Pos.eqb].
  all: cbn [os set_os active_ns ns_fds next_fd self_ns_openable netns_by_name
            setns_permitted].
  all: rewrite ?H2.
  all: cbn [os set_os active_ns ns_fds next_fd self_ns_openable netns_by_name
            setns_permitted].
  all: rewrite ?lookup_delete_ne by lia.
  all: rewrite ?lookup_insert_ne by lia.
  all: rewrite ?lookup_insert_eq, ?Hperm.
  all: eexists; (split; [reflexivity|]).
  all: (split; [first [apply set_os_id | reflexivity]|]).
  all: cbn [os set_os active_ns self_ns_openable netns_by_name setns_permitted].
  all: rewrite ?H2.
  all: cbn [os set_os active_ns self_ns_openable netns_by_name setns_permitted].
  all: repeat split; try reflexivity; try discriminate; try congruence.
Qed.

End Namespace.

(** ** One run of [lcp_itf_pair_sync_state] *)

Section SyncState.
Import Sync.

Lemma log_sync_state_run (w : world) (i j : Z) (s t : vnet_sw_interface_t) :
  sw_interfaces w !! i = Some s → sw_interfaces w !! j = Some t →
  log_sync_state (Some i) (Some j) w = Ok () w.
Proof.
  intros Hi Hj. unfold log_sync_state.
  rewrite (run_bind _ _ _ _ _ (sw_field_run i flags w s Hi)).
  rewrite (run_bind _ _ _ _ _ (sw_field_run j flags w t Hj)).
  rewrite (run_bind _ _ _ _ _ (sw_field_run i mtu_l3 w s Hi)).
  rewrite (run_bind _ _ _ _ _ (sw_field_run j mtu_l3 w t Hj)).
  reflexivity.
Qed.

Lemma log_sync_state_clamp_run (w : world) (i j : Z)
    (s t : vnet_sw_interface_t) :
  sw_interfaces w !! i = Some s → sw_interfaces w !! j = Some t →
  log_sync_state_clamp (Some i) (Some j) w = Ok () w.
Proof.
  intros Hi Hj. unfold log_sync_state_clamp.
  rewrite (run_bind _ _ _ _ _ (sw_field_run i flags w s Hi)).
  rewrite (run_bind _ _ _ _ _ (sw_field_run i mtu_l3 w s Hi)).
  rewrite (run_bind _ _ _ _ _ (sw_field_run j mtu_l3 w t Hj)).
  reflexivity.
Qed.

(** An update of one interface that keeps a field keeps what every
    pointer reads of that field. *)
Lemma lookup_alter_keeps {A} (g : vnet_sw_interface_t → A)
    (f : vnet_sw_interface_t → vnet_sw_interface_t) (j i : Z)
    (m : gmap Z vnet_sw_interface_t) (s : vnet_sw_interface_t) :
  (∀ x, g (f x) = g x) → m !! i = Some s →
  ∃ s', alter f j m !! i = Some s' ∧ g s' = g s.
Proof.
  intros Hg Hi. rewrite lookup_alter. case_decide as Hd.
  - subst. rewrite Hi. exists (f s). split; [reflexivity | apply Hg].
  - exists s. split; [assumption | reflexivity].
Qed.

Lemma set_interface_addr_run (lip : lcp_itf_pair_t) (w : world) :
  lcp_itf_set_interface_addr lip w
  = Ok () (set_trace (trace w ++ addr_events (active_ns (os w)) lip w) w).
Proof.
  unfold lcp_itf_set_interface_addr, addr_events.
  erewrite run_bind by reflexivity.
  generalize (default [] (ip_addrs w !! lip_phy_sw_if_index lip)).
  intros l.
  assert (H : ∀ tr,
    foldr (λ a k, vnet_netlink_add_ip_addr (ia_ip6 a) (lip_vif_index lip)
                    (ia_addr a) (ia_pfx_len a);; k) (mret ()) l
      (set_trace tr w)
    = Ok () (set_trace
               (tr ++ ((λ a, EvNetlinkAddAddr (active_ns (os w)) (ia_ip6 a)
                          (lip_vif_index lip) (ia_addr a) (ia_pfx_len a))
                       <$> l)) w)).
  { induction l as [|a l IH]; intros tr.
    - cbn. rewrite app_nil_r. reflexivity.
    - cbn [foldr fmap list_fmap].
      erewrite run_bind by reflexivity.
      cbn [trace set_trace os]. 
      change (set_trace ?t (set_trace _ w)) with (set_trace t w).
      rewrite IH. rewrite <- app_assoc. reflexivity. }
  specialize (H (trace w)). rewrite set_trace_id in H. exact H.
Qed.

End SyncState.
Section SyncStateRun.
Import Sync.

Lemma pushed_state_run (w : world) (i j : Z) (sw sup : vnet_sw_interface_t) :
  sw_interfaces w !! i = Some sw → sw_interfaces w !! j = Some sup →
  (let state := Z.land (flags sw) VNET_SW_INTERFACE_FLAG_ADMIN_UP in
   if negb (state =? 0) then
     sfl ← sw_field (Some j) flags;
     if Z.land sfl VNET_SW_INTERFACE_FLAG_ADMIN_UP =? 0 then
       log_sync_state (Some i) (Some j);;
       mret 0
     else mret state
   else mret state) w
  = Ok (pushed_state sw sup) w.
Proof.
  intros Hi Hj. unfold pushed_state. cbv zeta.
  destruct (Z.land (flags sw) VNET_SW_INTERFACE_FLAG_ADMIN_UP =? 0);
    cbn [negb andb]; [reflexivity|].
  rewrite (run_bind _ _ _ _ _ (sw_field_run j flags w sup Hj)).
  destruct (Z.land (flags sup) VNET_SW_INTERFACE_FLAG_ADMIN_UP =? 0);
    [|reflexivity].
  rewrite (run_bind _ _ _ _ _ (log_sync_state_run w i j sw sup Hi Hj)).
  reflexivity.
Qed.

Lemma effective_mtu_run (w : world) (i j : Z)
    (sw sup sw0 sup0 : vnet_sw_interface_t) :
  sw_interfaces w !! i = Some sw → sw_interfaces w !! j = Some sup →
  mtu_l3 sw = mtu_l3 sw0 → mtu_l3 sup = mtu_l3 sup0 →
  ∀ {B} (k : Z → M B),
    (mtu ← sw_field (Some i) mtu_l3;
     mtu ← (if mtu =? 0 then sw_field (Some j) mtu_l3 else mret mtu);
     sup_mtu ← sw_field (Some j) mtu_l3;
     sw_mtu ← sw_field (Some i) mtu_l3;
     mtu ← (if sup_mtu <? sw_mtu then
              log_sync_state_clamp (Some i) (Some j);;
              sw_field (Some j) mtu_l3
            else mret mtu);
     k mtu) w
    = k (effective_mtu sw0 sup0) w.
Proof.
  intros Hi Hj Hm Hn B k. unfold effective_mtu. cbv zeta.
  rewrite <- Hm, <- Hn.
  rewrite (run_bind _ _ _ _ _ (sw_field_run i mtu_l3 w sw Hi)).
  assert (H1 : (if mtu_l3 sw =? 0 then sw_field (Some j) mtu_l3
                else mret (mtu_l3 sw)) w
               = Ok (if mtu_l3 sw =? 0 then mtu_l3 sup else mtu_l3 sw) w).
  { destruct (mtu_l3 sw =? 0); [apply sw_field_run; exact Hj | reflexivity]. }
  rewrite (run_bind _ _ _ _ _ H1).
  rewrite (run_bind _ _ _ _ _ (sw_field_run j mtu_l3 w sup Hj)).
  rewrite (run_bind _ _ _ _ _ (sw_field_run i mtu_l3 w sw Hi)).
  assert (H2 : ∀ m,
            (if mtu_l3 sup <? mtu_l3 sw then
               log_sync_state_clamp (Some i) (Some j);;
               sw_field (Some j) mtu_l3
             else mret m) w
            = Ok (if mtu_l3 sup <? mtu_l3 sw then mtu_l3 sup else m) w).
  { intros m. destruct (mtu_l3 sup <? mtu_l3 sw); [|reflexivity].
    rewrite (run_bind _ _ _ _ _
               (log_sync_state_clamp_run w i j sw sup Hi Hj)).
    apply sw_field_run. exact Hj. }
  rewrite (run_bind _ _ _ _ _ (H2 _)). reflexivity.
Qed.

Ltac wsimpl :=
  cbn [set_trace set_sw_interfaces set_kernel_links set_os set_pairs
       lcp_sync_on lcp_auto_subint_on sw_interfaces hw_interfaces ip_addrs
       lip_pool lip_db_by_phy fib_table_id nl_tables kernel_links os nl_sys
       trace].

(** A run with sync enabled on a pair whose physical interface and its
    superior both resolve. *)
Lemma sync_state_runs (w : world) (lip : lcp_itf_pair_t)
    (sw sup : vnet_sw_interface_t) :
  lcp_sync_on w = true →
  sw_interfaces w !! lip_phy_sw_if_index lip = Some sw →
  sw_interfaces w !! sup_sw_if_index sw = Some sup →
  let state := pushed_state sw sup in
  let mtu := effective_mtu sw sup in
  ∃ w', lcp_itf_pair_sync_state lip w = Ok () w'
    ∧ trace w' = trace w ++ sync_events lip state mtu w
    ∧ sw_interfaces w' = synced_interfaces lip state mtu (sw_interfaces w)
    ∧ kernel_links w' = synced_links lip mtu w
    ∧ active_ns (os w') = final_ns lip (os w)
    ∧ os_same_setup (os w) (os w')
    ∧ (lip_namespace lip = None → os w' = os w)
    ∧ lcp_sync_on w' = true
    ∧ lip_pool w' = lip_pool w
    ∧ lip_db_by_phy w' = lip_db_by_phy w
    ∧ ip_addrs w' = ip_addrs w
    ∧ hw_interfaces w' = hw_interfaces w.
Proof.
  intros Hs Hsw Hsup state mtu.
  destruct (netns_enter_leave lip w)
    as (curr & vif & w1 & Henter & Hw1 & Hns1 & Hnone1 & Hleave).
  assert (Hsw1 : sw_interfaces w1 = sw_interfaces w)
    by (rewrite <- Hw1; reflexivity).
  unfold lcp_itf_pair_sync_state.
  erewrite run_bind by reflexivity. rewrite Hs. cbn [negb].
  erewrite run_bind by reflexivity. rewrite Hsw.
  rewrite (run_bind _ _ _ _ _ (sw_field_run _ sup_sw_if_index w sw Hsw)).
  erewrite run_bind by reflexivity. rewrite Hsup.
  rewrite (run_bind _ _ _ _ _ Henter).
  assert (Hsw' : sw_interfaces w1 !! lip_phy_sw_if_index lip = Some sw)
    by (rewrite Hsw1; exact Hsw).
  assert (Hsup' : sw_interfaces w1 !! sup_sw_if_index sw = Some sup)
    by (rewrite Hsw1; exact Hsup).
  rewrite (run_bind _ _ _ _ _ (log_sync_state_run w1 _ _ sw sup Hsw' Hsup')).
  rewrite (run_bind _ _ _ _ _ (sw_field_run _ flags w1 sw Hsw')).
  rewrite (run_bind _ _ _ _ _ (pushed_state_run w1 _ _ sw sup Hsw' Hsup')).
  fold state.
  erewrite (run_bind (lcp_itf_set_link_state lip state)) by reflexivity.
  cbv beta.
  match goal with
  | |- context [(_ ≫= _) ?W] => set (w2 := W)
  end.
  assert (Hi2 : sw_interfaces w2
                = alter (set_admin state) (lip_host_sw_if_index lip)
                    (sw_interfaces w1)) by reflexivity.
  destruct (lookup_alter_keeps mtu_l3 (set_admin state)
              (lip_host_sw_if_index lip) _ _ _ (λ _, eq_refl) Hsw')
    as (sw2 & Hsw2 & Hm2).
  destruct (lookup_alter_keeps mtu_l3 (set_admin state)
              (lip_host_sw_if_index lip) _ _ _ (λ _, eq_refl) Hsup')
    as (sup2 & Hsup2 & Hn2).
  rewrite <- Hi2 in Hsw2, Hsup2.
  rewrite (effective_mtu_run w2 _ _ sw2 sup2 sw sup Hsw2 Hsup2 Hm2 Hn2).
  fold mtu.
  erewrite (run_bind (vnet_sw_interface_set_mtu _ mtu)) by reflexivity.
  erewrite (run_bind (vnet_sw_interface_set_mtu _ mtu)) by reflexivity.
  erewrite (run_bind (vnet_netlink_get_link_mtu _)) by reflexivity.
  cbv beta. subst w2. wsimpl. rewrite Hns1.
  assert (Hk1 : kernel_links w1 = kernel_links w)
    by (rewrite <- Hw1; reflexivity).
  assert (Ht1 : trace w1 = trace w) by (rewrite <- Hw1; reflexivity).
  rewrite Hk1, Ht1, Hsw1.
  assert (Ha1 : ip_addrs w1 = ip_addrs w) by (rewrite <- Hw1; reflexivity).
  assert (Hrest : lcp_sync_on w1 = lcp_sync_on w ∧ lip_pool w1 = lip_pool w
                  ∧ lip_db_by_phy w1 = lip_db_by_phy w
                  ∧ hw_interfaces w1 = hw_interfaces w)
    by (rewrite <- Hw1; repeat split; reflexivity).
  destruct Hrest as (Hr1 & Hr2 & Hr3 & Hr4).
  unfold sync_events, synced_links, mtu_push, addr_events.
  destruct (kl_mtu <$> kernel_links w !! (body_ns lip (os w), lip_vif_index lip))
    as [netlink_mtu|] eqn:Hq;
    [destruct (netlink_mtu =? mtu) eqn:Hcmp|]; cbn [negb when].
  all: erewrite run_bind by reflexivity; cbv beta; wsimpl.
  all: rewrite ?Hns1.
  all: match goal with
       | |- context [(_ ≫= _) ?W] =>
           rewrite (run_bind _ _ _ _ _ (set_interface_addr_run lip W))
       end.
  all: match goal with
       | |- context [netns_leave _ _ ?W] =>
           destruct (Hleave W eq_refl)
             as (w3 & Hl & Hw3 & Hns3 & Hsetup & Hnone3);
           rewrite Hl
       end.
  all: exists w3; split; [reflexivity|].
  all: rewrite <- Hw3; wsimpl; unfold addr_events; wsimpl.
  all: rewrite ?Hns1, ?Ha1, ?Hk1, ?Ht1, ?Hsw1, ?Hr1, ?Hr2, ?Hr3, ?Hr4.
  all: repeat split; try reflexivity; try assumption.
  all: try (rewrite <- !app_assoc; reflexivity).
  all: try (intros Hn; rewrite (Hnone3 Hn); wsimpl; rewrite (Hnone1 Hn);
            reflexivity).
  all: try apply Hsetup.
Qed.

End SyncStateRun.

Section SyncStateCases.
Import Sync.

Lemma sync_state_disabled (w : world) (lip : lcp_itf_pair_t) :
  lcp_sync_on w = false → lcp_itf_pair_sync_state lip w = Ok () w.
Proof.
  intros Hs. unfold lcp_itf_pair_sync_state.
  erewrite run_bind by reflexivity. rewrite Hs. reflexivity.
Qed.

Lemma sync_state_no_phy (w : world) (lip : lcp_itf_pair_t) :
  sw_interfaces w !! lip_phy_sw_if_index lip = None →
  lcp_itf_pair_sync_state lip w = Ok () w.
Proof.
  intros Hsw. unfold lcp_itf_pair_sync_state.
  erewrite run_bind by reflexivity.
  destruct (lcp_sync_on w); [|reflexivity]. cbn [negb].
  erewrite run_bind by reflexivity. rewrite Hsw. reflexivity.
Qed.

(** With the superior interface missing, the run stops at the first read
    through the NULL pointer, inside the namespace of the pair. *)
Lemma sync_state_no_parent (w : world) (lip : lcp_itf_pair_t)
    (sw : vnet_sw_interface_t) :
  lcp_sync_on w = true →
  sw_interfaces w !! lip_phy_sw_if_index lip = Some sw →
  sw_interfaces w !! sup_sw_if_index sw = None →
  ∃ w1, lcp_itf_pair_sync_state lip w = Fault w1
    ∧ set_os (os w1) w = w1
    ∧ active_ns (os w1) = body_ns lip (os w)
    ∧ (lip_namespace lip = None → w1 = w).
Proof.
  intros Hs Hsw Hsup.
  destruct (netns_enter_leave lip w)
    as (curr & vif & w1 & Henter & Hw1 & Hns1 & Hnone1 & _).
  assert (Hsw1 : sw_interfaces w1 = sw_interfaces w)
    by (rewrite <- Hw1; reflexivity).
  unfold lcp_itf_pair_sync_state.
  erewrite run_bind by reflexivity. rewrite Hs. cbn [negb].
  erewrite run_bind by reflexivity. rewrite Hsw.
  rewrite (run_bind _ _ _ _ _ (sw_field_run _ sup_sw_if_index w sw Hsw)).
  erewrite run_bind by reflexivity. rewrite Hsup.
  rewrite (run_bind _ _ _ _ _ Henter).
  assert (Hsw' : sw_interfaces w1 !! lip_phy_sw_if_index lip = Some sw)
    by (rewrite Hsw1; exact Hsw).
  exists w1. split; [|auto].
  apply run_bind_fault. unfold log_sync_state.
  rewrite (run_bind _ _ _ _ _ (sw_field_run _ flags w1 sw Hsw')).
  apply run_bind_fault. reflexivity.
Qed.

Lemma sync_state_cases (w : world) (lip : lcp_itf_pair_t) :
  sync_state_case w lip (lcp_itf_pair_sync_state lip w).
Proof.
  destruct (lcp_sync_on w) eqn:Hs.
  2:{ rewrite sync_state_disabled by assumption. constructor. assumption. }
  destruct (sw_interfaces w !! lip_phy_sw_if_index lip) as [sw|] eqn:Hsw.
  2:{ rewrite sync_state_no_phy by assumption.
      apply SyncNoPhy; assumption. }
  destruct (sw_interfaces w !! sup_sw_if_index sw) as [sup|] eqn:Hsup.
  - destruct (sync_state_runs w lip sw sup Hs Hsw Hsup)
      as (w' & Hr & H1 & H2 & H3 & H4 & H5 & H6 & H7 & H8 & H9 & _).
    rewrite Hr. eapply SyncRuns; eassumption.
  - destruct (sync_state_no_parent w lip sw Hs Hsw Hsup)
      as (w1 & Hr & H1 & H2 & H3).
    rewrite Hr. eapply SyncNoParent; eassumption.
Qed.

(** A run leaves the pair registry as it was. *)
Lemma sync_state_registry (w : world) (lip : lcp_itf_pair_t) :
  lip_pool (final (lcp_itf_pair_sync_state lip w)) = lip_pool w
  ∧ lip_db_by_phy (final (lcp_itf_pair_sync_state lip w)) = lip_db_by_phy w.
Proof.
  destruct (sync_state_cases w lip); cbn [final]; auto.
  match goal with H : set_os _ w = ?w1 |- _ => rewrite <- H end.
  split; reflexivity.
Qed.

End SyncStateCases.

(** ** Admin state, MTU and namespace of a run *)

Section SyncStateClaims.
Import Sync.

Lemma events_since_app {A} (w w' : world) (a : A) (evs : list event) :
  trace w' = trace w ++ evs → events_since w (Ok a w') = evs.
Proof.
  intros H. unfold events_since. cbn [final]. rewrite H.
  apply drop_app_length.
Qed.

Lemma filter_addr_events (p : event → bool) (ns : Z) (lip : lcp_itf_pair_t)
    (w : world) :
  (∀ ip6 i a l, p (EvNetlinkAddAddr ns ip6 i a l) = false) →
  List.filter p (addr_events ns lip w) = [].
Proof.
  intros Hp. unfold addr_events.
  induction (default [] (ip_addrs w !! lip_phy_sw_if_index lip))
    as [|a l IH]; [reflexivity|].
  cbn [fmap list_fmap List.filter]. rewrite Hp. exact IH.
Qed.

Lemma filter_mtu_push (p : event → bool) (ns : Z) (lip : lcp_itf_pair_t)
    (mtu : Z) (w : world) :
  (∀ i m, p (EvNetlinkSetLinkMtu ns i m) = false) →
  List.filter p (mtu_push ns lip mtu w) = [].
Proof.
  intros Hp. unfold mtu_push.
  destruct (kl_mtu <$> kernel_links w !! (ns, lip_vif_index lip)) as [q|];
    [|reflexivity].
  destruct (q =? mtu); [reflexivity|].
  cbn [List.filter]. rewrite Hp. reflexivity.
Qed.

Lemma land_admin_up (f : Z) :
  Z.land f VNET_SW_INTERFACE_FLAG_ADMIN_UP = if Z.testbit f 0 then 1 else 0.
Proof.
  unfold VNET_SW_INTERFACE_FLAG_ADMIN_UP.
  change 1 with (Z.ones 1) at 1. rewrite Z.land_ones by lia.
  change (2 ^ 1) with 2. rewrite <- Z.bit0_mod.
  destruct (Z.testbit f 0); reflexivity.
Qed.

Lemma pushed_state_by_spec (sw sup : vnet_sw_interface_t) :
  pushed_state sw sup = if state_by_spec sw sup then 1 else 0.
Proof.
  unfold pushed_state, state_by_spec, admin_up. cbv zeta.
  rewrite !land_admin_up.
  destruct (Z.testbit (flags sw) 0), (Z.testbit (flags sup) 0); reflexivity.
Qed.

Lemma effective_mtu_by_spec (sw sup : vnet_sw_interface_t) :
  effective_mtu sw sup = mtu_by_spec sw sup.
Proof.
  unfold effective_mtu, mtu_by_spec. cbv zeta.
  destruct (Z.eqb_spec (mtu_l3 sw) 0) as [H0|H0];
    destruct (Z.ltb_spec (mtu_l3 sup) (mtu_l3 sw)); reflexivity.
Qed.

Lemma admin_up_set_admin (state : Z) (s : vnet_sw_interface_t) :
  admin_up (set_admin state s) = negb (state =? 0).
Proof.
  unfold admin_up, set_admin, with_flags, VNET_SW_INTERFACE_FLAG_ADMIN_UP.
  cbn [flags]. destruct (state =? 0); cbn [negb].
  - rewrite Z.land_spec, Z.lnot_spec by lia. cbn. apply andb_false_r.
  - rewrite Z.lor_spec. cbn. apply orb_true_r.
Qed.

(** What a run leaves of an interface it found in the pool. *)
Lemma synced_lookup (lip : lcp_itf_pair_t) (state mtu : Z)
    (m : gmap Z vnet_sw_interface_t) (i : Z) (s : vnet_sw_interface_t) :
  m !! i = Some s →
  ∃ s', synced_interfaces lip state mtu m !! i = Some s'
    ∧ sup_sw_if_index s' = sup_sw_if_index s
    ∧ mtu_l3 s' = (if decide (i = lip_phy_sw_if_index lip
                               ∨ i = lip_host_sw_if_index lip)
                   then mtu else mtu_l3 s)
    ∧ flags s' = (if decide (i = lip_host_sw_if_index lip)
                  then flags (set_admin state s) else flags s).
Proof.
  intros Hi. unfold synced_interfaces.
  generalize (lip_phy_sw_if_index lip) (lip_host_sw_if_index lip).
  intros p h. rewrite !lookup_alter.
  repeat case_decide; subst; try congruence; rewrite ?Hi;
    cbn [fmap option_fmap option_map];
    eexists; (split; [reflexivity|]); cbn; repeat split;
    try reflexivity; exfalso; intuition congruence.
Qed.

Lemma synced_lookup_None (lip : lcp_itf_pair_t) (state mtu : Z)
    (m : gmap Z vnet_sw_interface_t) (i : Z) :
  m !! i = None → synced_interfaces lip state mtu m !! i = None.
Proof.
  intros Hi. unfold synced_interfaces.
  generalize (lip_phy_sw_if_index lip) (lip_host_sw_if_index lip).
  intros p h. rewrite !lookup_alter.
  repeat case_decide; subst; try congruence; rewrite ?Hi; reflexivity.
Qed.

End SyncStateClaims.

Section SyncStateTheorems.
Import Sync.

Lemma filter_sync_events_state (lip : lcp_itf_pair_t) (state mtu : Z)
    (w : world) :
  List.filter is_set_link_state (sync_events lip state mtu w)
  = [EvSetLinkState (lip_host_sw_if_index lip) state].
Proof.
  unfold sync_events. cbv zeta. rewrite !List.filter_app.
  rewrite filter_mtu_push, filter_addr_events by reflexivity. reflexivity.
Qed.

Lemma filter_sync_events_mtu (lip : lcp_itf_pair_t) (state mtu : Z)
    (w : world) :
  List.filter is_set_mtu (sync_events lip state mtu w)
  = [EvSetMtu (lip_phy_sw_if_index lip) mtu;
     EvSetMtu (lip_host_sw_if_index lip) mtu].
Proof.
  unfold sync_events. cbv zeta. rewrite !List.filter_app.
  rewrite filter_mtu_push, filter_addr_events by reflexivity. reflexivity.
Qed.

Lemma filter_sync_events_push (lip : lcp_itf_pair_t) (state mtu : Z)
    (w : world) :
  List.filter is_set_link_mtu (sync_events lip state mtu w)
  = mtu_push (body_ns lip (os w)) lip mtu w.
Proof.
  unfold sync_events. cbv zeta. rewrite !List.filter_app.
  rewrite filter_addr_events by reflexivity.
  cbn [List.filter is_set_link_mtu app]. rewrite app_nil_r.
  unfold mtu_push.
  destruct (kl_mtu <$> kernel_links w !! (body_ns lip (os w), lip_vif_index lip))
    as [q|]; [|reflexivity].
  destruct (q =? mtu); reflexivity.
Qed.


Lemma body_ns_stable (lip : lcp_itf_pair_t) (o o' : os_state) :
  os_same_setup o o' → active_ns o' = final_ns lip o →
  body_ns lip o' = body_ns lip o.
Proof.
  intros (H1 & H2 & H3) Ha.
  unfold final_ns, body_ns, switch_target in *.
  rewrite H2, H3, Ha.
  destruct (lip_namespace lip) as [ns|]; cbn [mbind option_bind].
  - destruct (netns_by_name o !! ns) as [t|]; cbn [mbind option_bind].
    + destruct (setns_permitted o); cbn [default]; [reflexivity|].
      destruct (self_ns_openable o); reflexivity.
    + cbn [default]. destruct (self_ns_openable o); reflexivity.
  - cbn [default]. destruct (self_ns_openable o); reflexivity.
Qed.

(** Applying the effective MTU again changes nothing. *)
Lemma effective_mtu_idem (sw sup sw1 sup1 : vnet_sw_interface_t) :
  mtu_l3 sw1 = effective_mtu sw sup →
  mtu_l3 sup1 = effective_mtu sw sup ∨ mtu_l3 sup1 = mtu_l3 sup →
  effective_mtu sw1 sup1 = effective_mtu sw sup.
Proof.
  unfold effective_mtu. cbv zeta. intros H1 H2. rewrite H1.
  destruct (Z.eqb_spec (mtu_l3 sw) 0), (Z.ltb_spec (mtu_l3 sup) (mtu_l3 sw)),
    H2 as [H2|H2]; rewrite H2;
    repeat match goal with
           | |- context [Z.ltb ?a ?b] => destruct (Z.ltb_spec a b)
           | |- context [Z.eqb ?a ?b] => destruct (Z.eqb_spec a b)
           end; lia.
Qed.

(** In the world a run ended in, the kernel already has the MTU the next
    run computes. *)
Lemma mtu_push_after_sync (lip : lcp_itf_pair_t) (mtu : Z) (w w1 : world) :
  kernel_links w1 = synced_links lip mtu w →
  mtu_push (body_ns lip (os w)) lip mtu w1 = [].
Proof.
  intros Hk. unfold mtu_push. rewrite Hk. unfold synced_links, mtu_push.
  destruct (kernel_links w !! (body_ns lip (os w), lip_vif_index lip))
    as [l|] eqn:Hl; cbn [fmap option_fmap option_map].
  - destruct (kl_mtu l =? mtu) eqn:Hq.
    + rewrite Hl. cbn [fmap option_fmap option_map]. rewrite Hq. reflexivity.
    + rewrite lookup_alter_eq, Hl. cbn [fmap option_fmap option_map kl_mtu
        with_kl_mtu]. rewrite Z.eqb_refl. reflexivity.
  - rewrite Hl. reflexivity.
Qed.



End SyncStateTheorems.

(** ** The claims about [lcp_itf_pair_sync_state] *)

Section SyncStateResults.
Import Sync.

(** C1. The claim: when the physical interface of a pair resolves and
    its parent (superior) interface does not, [lcp_itf_pair_sync_state]
    skips the two clamps, still re-syncs the addresses and completes.
    The code: with sync enabled it enters the namespace of the pair and
    then reads through the NULL parent pointer. The run ends there, in a
    fault: it does not return, nothing was pushed, no address was
    re-synced, and the process is left in the namespace the body runs
    in. *)
Theorem sync_state_missing_parent_faults (w : world) (lip : lcp_itf_pair_t)
    (sw : vnet_sw_interface_t) :
  lcp_sync_on w = true →
  sw_interfaces w !! lip_phy_sw_if_index lip = Some sw →
  sw_interfaces w !! sup_sw_if_index sw = None →
  ∃ w1, lcp_itf_pair_sync_state lip w = Fault w1
    ∧ trace w1 = trace w
    ∧ sw_interfaces w1 = sw_interfaces w
    ∧ kernel_links w1 = kernel_links w
    ∧ active_ns (os w1) = body_ns lip (os w).
Proof.
  intros Hs Hsw Hsup.
  destruct (sync_state_no_parent w lip sw Hs Hsw Hsup)
    as (w1 & Hr & Hw1 & Hns & _).
  exists w1. split; [exact Hr|].
  rewrite <- Hw1 at 1 2 3. repeat split; try reflexivity. exact Hns.
Qed.

(** C2. For a pair on which [lcp_itf_pair_sync_state] runs (sync
    enabled, physical and parent interface resolvable) the run returns,
    and the one admin state it pushes to the mirror is the physical
    interface's admin-up flag forced to down when the parent's flag is
    clear; the mirror then is admin-up exactly in that case, so a mirror
    that is up has a parent that is up, before and after; physical up
    and parent down pushes down; and the flags of every interface other
    than the mirror are as before. *)
Theorem sync_state_admin_state (w : world) (lip : lcp_itf_pair_t)
    (sw sup : vnet_sw_interface_t) :
  lcp_sync_on w = true →
  sw_interfaces w !! lip_phy_sw_if_index lip = Some sw →
  sw_interfaces w !! sup_sw_if_index sw = Some sup →
  ∃ w', lcp_itf_pair_sync_state lip w = Ok () w'
    ∧ List.filter is_set_link_state (events_since w (Ok () w'))
      = [EvSetLinkState (lip_host_sw_if_index lip)
           (if state_by_spec sw sup then 1 else 0)]
    ∧ (∀ h, sw_interfaces w !! lip_host_sw_if_index lip = Some h →
         ∃ h', sw_interfaces w' !! lip_host_sw_if_index lip = Some h'
           ∧ admin_up h' = state_by_spec sw sup)
    ∧ (state_by_spec sw sup = true → admin_up sup = true)
    ∧ (∀ h' sup', sw_interfaces w' !! lip_host_sw_if_index lip = Some h' →
         sw_interfaces w' !! sup_sw_if_index sw = Some sup' →
         admin_up h' = true → admin_up sup' = true)
    ∧ (admin_up sw = true → admin_up sup = false →
       state_by_spec sw sup = false)
    ∧ (∀ i, i ≠ lip_host_sw_if_index lip →
         flags <$> sw_interfaces w' !! i = flags <$> sw_interfaces w !! i).
Proof.
  intros Hs Hsw Hsup.
  destruct (sync_state_runs w lip sw sup Hs Hsw Hsup)
    as (w' & Hr & Ht & Hi & _).
  exists w'. split; [exact Hr|].
  assert (Hmirror : ∀ h, sw_interfaces w !! lip_host_sw_if_index lip = Some h →
            ∃ h', sw_interfaces w' !! lip_host_sw_if_index lip = Some h'
              ∧ admin_up h' = state_by_spec sw sup).
  { intros h Hh.
    destruct (synced_lookup lip (pushed_state sw sup) (effective_mtu sw sup)
                _ _ _ Hh) as (h' & Hh' & _ & _ & Hf).
    exists h'. rewrite Hi. split; [exact Hh'|].
    rewrite decide_True in Hf by reflexivity.
    unfold admin_up at 1. rewrite Hf.
    change (Z.testbit (flags (set_admin (pushed_state sw sup) h)) 0)
      with (admin_up (set_admin (pushed_state sw sup) h)).
    rewrite admin_up_set_admin, pushed_state_by_spec.
    destruct (state_by_spec sw sup); reflexivity. }
  assert (Hframe : ∀ i, i ≠ lip_host_sw_if_index lip →
            flags <$> sw_interfaces w' !! i = flags <$> sw_interfaces w !! i).
  { intros i Hne. rewrite Hi.
    destruct (sw_interfaces w !! i) as [s|] eqn:Hsi.
    - destruct (synced_lookup lip (pushed_state sw sup)
                  (effective_mtu sw sup) _ _ _ Hsi)
        as (s' & Hs' & _ & _ & Hf).
      rewrite Hs'. cbn. rewrite Hf, decide_False by exact Hne. reflexivity.
    - rewrite synced_lookup_None by exact Hsi. reflexivity. }
  assert (Hup : state_by_spec sw sup = true → admin_up sup = true).
  { unfold state_by_spec. destruct (admin_up sup); [reflexivity|discriminate]. }
  split.
  { rewrite (events_since_app _ _ _ _ Ht), filter_sync_events_state.
    rewrite pushed_state_by_spec. reflexivity. }
  split; [exact Hmirror|]. split; [exact Hup|]. split.
  { intros h' sup' Hh' Hsup' Hupm.
    destruct (decide (sup_sw_if_index sw = lip_host_sw_if_index lip)) as [He|Hne].
    - rewrite He in Hsup'. congruence.
    - pose proof (Hframe _ Hne) as Hfl. rewrite Hsup', Hsup in Hfl.
      injection Hfl as Hfl.
      assert (Hsame : admin_up sup' = admin_up sup)
        by (unfold admin_up; rewrite Hfl; reflexivity).
      rewrite Hsame. apply Hup.
      destruct (sw_interfaces w !! lip_host_sw_if_index lip) as [h|] eqn:Hh.
      + destruct (Hmirror h eq_refl) as (h'' & Hh'' & Hst). congruence.
      + rewrite Hi, synced_lookup_None in Hh' by exact Hh. discriminate. }
  split; [|exact Hframe].
  intros Hu Hd. unfold state_by_spec. rewrite Hd. reflexivity.
Qed.

(** C3. For a pair on which [lcp_itf_pair_sync_state] runs, the MTU it
    computes is the physical interface's L3 MTU, the parent's when the
    physical one is zero, and the parent's when that is the smaller;
    hence it never exceeds the parent's and equals it when the physical
    MTU is zero. It is set on the physical interface and on the mirror,
    and the netlink set-MTU transaction is issued exactly when the
    netlink query answered and answered another value. *)
Theorem sync_state_effective_mtu (w : world) (lip : lcp_itf_pair_t)
    (sw sup : vnet_sw_interface_t) :
  lcp_sync_on w = true →
  sw_interfaces w !! lip_phy_sw_if_index lip = Some sw →
  sw_interfaces w !! sup_sw_if_index sw = Some sup →
  let mtu := mtu_by_spec sw sup in
  let ns := body_ns lip (os w) in
  ∃ w', lcp_itf_pair_sync_state lip w = Ok () w'
    ∧ mtu ≤ mtu_l3 sup
    ∧ (mtu_l3 sw = 0 → mtu = mtu_l3 sup)
    ∧ List.filter is_set_mtu (events_since w (Ok () w'))
      = [EvSetMtu (lip_phy_sw_if_index lip) mtu;
         EvSetMtu (lip_host_sw_if_index lip) mtu]
    ∧ mtu_l3 <$> sw_interfaces w' !! lip_phy_sw_if_index lip = Some mtu
    ∧ (∀ h, sw_interfaces w !! lip_host_sw_if_index lip = Some h →
         mtu_l3 <$> sw_interfaces w' !! lip_host_sw_if_index lip = Some mtu)
    ∧ List.filter is_set_link_mtu (events_since w (Ok () w'))
      = match kl_mtu <$> kernel_links w !! (ns, lip_vif_index lip) with
        | Some netlink_mtu =>
            if netlink_mtu =? mtu then []
            else [EvNetlinkSetLinkMtu ns (lip_vif_index lip) mtu]
        | None => []
        end.
Proof.
  intros Hs Hsw Hsup mtu ns.
  destruct (sync_state_runs w lip sw sup Hs Hsw Hsup)
    as (w' & Hr & Ht & Hi & _).
  rewrite effective_mtu_by_spec in Ht, Hi. fold mtu in Ht, Hi.
  exists w'. split; [exact Hr|].
  split.
  { subst mtu. unfold mtu_by_spec.
    destruct (Z.eqb_spec (mtu_l3 sw) 0);
      destruct (Z.ltb_spec (mtu_l3 sup) (mtu_l3 sw)); lia. }
  split.
  { intros H0. subst mtu. unfold mtu_by_spec. rewrite H0. reflexivity. }
  split.
  { rewrite (events_since_app _ _ _ _ Ht). apply filter_sync_events_mtu. }
  split.
  { destruct (synced_lookup lip (pushed_state sw sup) mtu _ _ _ Hsw)
      as (s' & Hs' & _ & Hm & _).
    rewrite Hi, Hs'. cbn. rewrite Hm, decide_True by (left; reflexivity).
    reflexivity. }
  split.
  { intros h Hh.
    destruct (synced_lookup lip (pushed_state sw sup) mtu _ _ _ Hh)
      as (s' & Hs' & _ & Hm & _).
    rewrite Hi, Hs'. cbn. rewrite Hm, decide_True by (right; reflexivity).
    reflexivity. }
  rewrite (events_since_app _ _ _ _ Ht), filter_sync_events_push.
  reflexivity.
Qed.

(** C5. The claim: after every run of [lcp_itf_pair_sync_state] the
    process is in the network namespace it was in before. The code: for
    a pair with a namespace name it opens a handle to the current
    namespace ([curr_ns_fd]) for the one purpose of switching back, and a
    handle to the pair's ([vif_ns_fd]); it switches whenever
    [vif_ns_fd != -1], whether or not [curr_ns_fd] was opened, and
    switches back only when [curr_ns_fd != -1]. So when the handle to
    the current namespace cannot be opened and the pair's can, the run
    does all its work in the pair's namespace, returns, and leaves the
    process there. *)
Theorem sync_state_leaves_namespace_switched (w : world)
    (lip : lcp_itf_pair_t) (sw sup : vnet_sw_interface_t) (ns : string)
    (t : Z) :
  lcp_sync_on w = true →
  sw_interfaces w !! lip_phy_sw_if_index lip = Some sw →
  sw_interfaces w !! sup_sw_if_index sw = Some sup →
  lip_namespace lip = Some ns →
  self_ns_openable (os w) = false →
  netns_by_name (os w) !! ns = Some t →
  setns_permitted (os w) = true →
  t ≠ active_ns (os w) →
  ∃ w', lcp_itf_pair_sync_state lip w = Ok () w'
    ∧ trace w'
      = trace w
        ++ sync_events lip (pushed_state sw sup) (effective_mtu sw sup) w
    ∧ body_ns lip (os w) = t
    ∧ active_ns (os w') = t
    ∧ active_ns (os w') ≠ active_ns (os w).
Proof.
  intros Hs Hsw Hsup Hns Hself Ht Hperm Hne.
  destruct (sync_state_runs w lip sw sup Hs Hsw Hsup)
    as (w' & Hr & Htr & _ & _ & Ha & _).
  assert (Hbody : body_ns lip (os w) = t).
  { unfold body_ns, switch_target. rewrite Hns. cbn.
    rewrite Ht. cbn. rewrite Hperm. reflexivity. }
  assert (Hfin : active_ns (os w') = t).
  { rewrite Ha. unfold final_ns. rewrite Hself. exact Hbody. }
  exists w'. split; [exact Hr|]. split; [exact Htr|].
  split; [exact Hbody|]. split; [exact Hfin|].
  rewrite Hfin. exact Hne.
Qed.

(** With the handle to its own namespace open, a run that returns leaves
    the process in the namespace it was in; and for a pair without a
    namespace name no descriptor is opened and no switch is made, on any
    path. *)
Lemma sync_state_namespace_with_own_handle (w : world)
    (lip : lcp_itf_pair_t) :
  (self_ns_openable (os w) = true →
   ∀ w', lcp_itf_pair_sync_state lip w = Ok () w' →
     active_ns (os w') = active_ns (os w))
  ∧ (lip_namespace lip = None →
     os (final (lcp_itf_pair_sync_state lip w)) = os w).
Proof.
  split.
  - intros Hself w' Hrun. pose proof (sync_state_cases w lip) as Hc.
    rewrite Hrun in Hc.
    inversion Hc as [| | |sw sup w'' _ _ _ _ _ _ Ha]; subst;
      try reflexivity.
    rewrite Ha. unfold final_ns. rewrite Hself. reflexivity.
  - intros Hnone. destruct (sync_state_cases w lip)
      as [| |sw w1 _ _ _ _ _ Hsame|sw sup w' _ _ _ _ _ _ _ _ Hsame];
      cbn [final]; try reflexivity.
    + rewrite (Hsame Hnone). reflexivity.
    + exact (Hsame Hnone).
Qed.


End SyncStateResults.

(** ** The event handlers *)

Section Handlers.
Import Sync.

Lemma walk_continue {A} (cb : A → M walk_rc_t) (l : list A) (w : world) :
  (∀ x, cb x w = Ok WALK_CONTINUE w) → walk cb l w = Ok () w.
Proof.
  intros Hcb. induction l as [|x l IH]; [reflexivity|].
  cbn [walk]. rewrite (run_bind _ _ _ _ _ (Hcb x)). exact IH.
Qed.

Lemma pair_lookup_run (sw_if_idx : Z) (w : world) {B}
    (k : option lcp_itf_pair_t → M B) :
  (lipi ← lcp_itf_pair_find_by_phy sw_if_idx;
   lip ← lcp_itf_pair_get lipi;
   k lip) w
  = k (pair_of w sw_if_idx) w.
Proof. reflexivity. Qed.

Lemma sync_state_all_cb_disabled (lipi : Z) (w : world) :
  lcp_sync_on w = false →
  lcp_itf_pair_walk_sync_state_all_cb lipi w = Ok WALK_CONTINUE w.
Proof.
  intros Hs. unfold lcp_itf_pair_walk_sync_state_all_cb.
  erewrite run_bind by reflexivity.
  destruct (if lipi =? INDEX_INVALID then None else lip_pool w !! lipi)
    as [lip|]; [|reflexivity].
  rewrite (run_bind _ _ _ _ _ (sync_state_disabled w lip Hs)). reflexivity.
Qed.

Lemma sync_state_hw_cb_run (sw_if_idx : Z) (w : world) :
  lcp_itf_pair_walk_sync_state_hw_cb sw_if_idx w
  = match pair_of w sw_if_idx with
    | None => Ok WALK_CONTINUE w
    | Some lip => (lcp_itf_pair_sync_state lip;; mret WALK_CONTINUE) w
    end.
Proof.
  unfold lcp_itf_pair_walk_sync_state_hw_cb. rewrite pair_lookup_run.
  destruct (pair_of w sw_if_idx); reflexivity.
Qed.

Lemma pair_of_registry (w w' : world) (i : Z) :
  lip_pool w' = lip_pool w → lip_db_by_phy w' = lip_db_by_phy w →
  pair_of w' i = pair_of w i.
Proof. intros H1 H2. unfold pair_of. rewrite H1, H2. reflexivity. Qed.

(** The walk over the software interfaces of a hardware interface is a
    run of [lcp_itf_pair_sync_state] on each of them that has a pair, in
    the order of the walk. *)
Lemma omap_pair_of_registry (w w' : world) (l : list Z) :
  lip_pool w' = lip_pool w → lip_db_by_phy w' = lip_db_by_phy w →
  omap (pair_of w') l = omap (pair_of w) l.
Proof.
  intros H1 H2. induction l as [|i l IH]; [reflexivity|].
  cbn [omap list_omap]. rewrite IH, (pair_of_registry w w' i H1 H2).
  reflexivity.
Qed.

Lemma walk_hw_cb_sync_each (l : list Z) (w : world) :
  walk lcp_itf_pair_walk_sync_state_hw_cb l w
  = sync_each (omap (pair_of w) l) w.
Proof.
  revert w. induction l as [|i l IH]; intros w; [reflexivity|].
  cbn [walk omap list_omap].
  pose proof (sync_state_hw_cb_run i w) as Hcb.
  destruct (pair_of w i) as [lip|] eqn:Hp.
  2:{ rewrite (run_bind _ _ _ _ _ Hcb). apply IH. }
  cbn [sync_each foldr].
  destruct (sync_state_registry w lip) as [Hr1 Hr2].
  destruct (lcp_itf_pair_sync_state lip w) as [[] w1|w1] eqn:Hrun.
  - rewrite (run_bind _ _ _ _ _ Hrun) in Hcb.
    rewrite (run_bind _ _ _ _ _ Hcb), (run_bind _ _ _ _ _ Hrun).
    cbn [final] in Hr1, Hr2.
    rewrite IH, (omap_pair_of_registry w w1 l Hr1 Hr2). reflexivity.
  - rewrite (run_bind_fault _ _ _ _ Hrun) in Hcb.
    rewrite (run_bind_fault _ _ _ _ Hcb), (run_bind_fault _ _ _ _ Hrun).
    reflexivity.
Qed.

Lemma find_ip4_filter (tid : Z) (l : list lcp_nl_table_t) :
  List.find (λ t, (nlt_id t =? tid)
                  && bool_decide (nlt_proto t = FIB_PROTOCOL_IP4)) l
  = List.find (λ t, (nlt_id t =? tid)
                    && bool_decide (nlt_proto t = FIB_PROTOCOL_IP4))
      (List.filter (λ t, bool_decide (nlt_proto t = FIB_PROTOCOL_IP4)) l).
Proof.
  induction l as [|t l IH]; [reflexivity|].
  cbn [List.find List.filter].
  destruct (bool_decide (nlt_proto t = FIB_PROTOCOL_IP4)) eqn:Hp.
  - cbn [List.find]. rewrite Hp, IH. reflexivity.
  - rewrite andb_false_r. exact IH.
Qed.

End Handlers.

Section HandlerResults.
Import Sync.

Lemma sync_state_hw_cb_disabled (sw_if_idx : Z) (w : world) :
  lcp_sync_on w = false →
  lcp_itf_pair_walk_sync_state_hw_cb sw_if_idx w = Ok WALK_CONTINUE w.
Proof.
  intros Hs. rewrite sync_state_hw_cb_run.
  destruct (pair_of w sw_if_idx) as [lip|]; [|reflexivity].
  rewrite (run_bind _ _ _ _ _ (sync_state_disabled w lip Hs)). reflexivity.
Qed.

(** C6 (amended). With the sync toggle off, [lcp_itf_pair_sync_state],
    the walks over all pairs and over the interfaces of a hardware
    interface, and the handlers of admin-state change, MTU change,
    IPv4/IPv6 address add/del and table bind return with the world as it
    was: no netlink transaction, no change of a mirror interface or of a
    pair. The handler of interface add/del is gated by the
    sub-interface mirroring toggle instead, and does nothing when that
    one is off. *)
Theorem sync_disabled_no_effect (w : world) :
  lcp_sync_on w = false →
  (∀ lip, lcp_itf_pair_sync_state lip w = Ok () w)
  ∧ lcp_itf_pair_sync_state_all w = Ok () w
  ∧ (∀ hw_if_idx,
       (vnet_get_hw_interface_or_null hw_if_idx
        ≫= lcp_itf_pair_sync_state_hw) w = Ok () w)
  ∧ (∀ i f, lcp_itf_admin_state_change i f w = Ok () w)
  ∧ (∀ i f, lcp_itf_mtu_change i f w = Ok () w)
  ∧ (∀ i a l d, lcp_itf_ip4_add_del_interface_addr i a l d w = Ok () w)
  ∧ (∀ i a l d, lcp_itf_ip6_add_del_interface_addr i a l d w = Ok () w)
  ∧ (∀ i n o, lcp_itf_ip4_table_bind i n o w = Ok () w)
  ∧ (∀ i n o, lcp_itf_ip6_table_bind i n o w = Ok () w)
  ∧ (lcp_auto_subint_on w = false →
     ∀ i c, lcp_itf_interface_add_del i c w = Ok () w).
Proof.
  intros Hs.
  assert (Hfirst : ∀ (k : M ()),
            (sync ← get lcp_sync_on; if negb sync then mret () else k) w
            = Ok () w).
  { intros k. erewrite run_bind by reflexivity. rewrite Hs. reflexivity. }
  repeat split.
  - intros lip. apply sync_state_disabled. exact Hs.
  - unfold lcp_itf_pair_sync_state_all, lcp_itf_pair_walk.
    erewrite run_bind by reflexivity.
    apply walk_continue. intros lipi.
    apply sync_state_all_cb_disabled. exact Hs.
  - intros hw_if_idx. erewrite run_bind by reflexivity.
    destruct (hw_interfaces w !! hw_if_idx) as [h|] eqn:Hh; [|reflexivity].
    unfold lcp_itf_pair_sync_state_hw.
    assert (Hf : ∀ {A} (f : vnet_hw_interface_t → A),
              hw_field (Some hw_if_idx) f w = Ok (f h) w).
    { intros A f. unfold hw_field. cbn. rewrite Hh. reflexivity. }
    rewrite (run_bind _ _ _ _ _ (Hf _ _)), (run_bind _ _ _ _ _ (Hf _ _)).
    unfold vnet_hw_interface_walk_sw. erewrite run_bind by reflexivity.
    apply walk_continue. intros i.
    apply sync_state_hw_cb_disabled. exact Hs.
  - intros i f. apply Hfirst.
  - intros i f. apply Hfirst.
  - intros i a l d. apply Hfirst.
  - intros i a l d. apply Hfirst.
  - intros i n o. apply Hfirst.
  - intros i n o. apply Hfirst.
  - intros Ha i c. unfold lcp_itf_interface_add_del.
    erewrite run_bind by reflexivity. rewrite Ha. reflexivity.
Qed.

(** C9 (amended). With sync enabled, an admin-state change on an
    interface without a pair does nothing. On an interface with a pair:
    if it is a sub-interface, the handler is one run of
    [lcp_itf_pair_sync_state] on that pair; if it is not, and its
    hardware interface resolves, the handler is a run of
    [lcp_itf_pair_sync_state] on every interface of the hardware
    interface's walk that has a pair, in order; and if the hardware
    interface does not resolve it does nothing. *)
Theorem admin_state_change_dispatch (w : world) (sw_if_idx new_flags : Z) :
  lcp_sync_on w = true →
  (pair_of w sw_if_idx = None →
   lcp_itf_admin_state_change sw_if_idx new_flags w = Ok () w)
  ∧ (∀ lip si,
       pair_of w sw_if_idx = Some lip →
       sw_interfaces w !! sw_if_idx = Some si →
       sup_sw_if_index si ≠ sw_if_idx →
       lcp_itf_admin_state_change sw_if_idx new_flags w
       = lcp_itf_pair_sync_state lip w)
  ∧ (∀ lip si hi,
       pair_of w sw_if_idx = Some lip →
       sw_interfaces w !! sw_if_idx = Some si →
       sup_sw_if_index si = sw_if_idx →
       hw_interfaces w !! hw_if_index si = Some hi →
       hi_hw_if_index hi = hw_if_index si →
       lcp_itf_admin_state_change sw_if_idx new_flags w
       = sync_each (omap (pair_of w) (hi_walk_sw hi)) w)
  ∧ (∀ lip si,
       pair_of w sw_if_idx = Some lip →
       sw_interfaces w !! sw_if_idx = Some si →
       sup_sw_if_index si = sw_if_idx →
       hw_interfaces w !! hw_if_index si = None →
       lcp_itf_admin_state_change sw_if_idx new_flags w = Ok () w).
Proof.
  intros Hs.
  assert (Hstart : ∀ (k : option lcp_itf_pair_t → M ()),
            (sync ← get lcp_sync_on;
             if negb sync then mret () else
             lipi ← lcp_itf_pair_find_by_phy sw_if_idx;
             lip ← lcp_itf_pair_get lipi;
             k lip) w
            = k (pair_of w sw_if_idx) w).
  { intros k. erewrite run_bind by reflexivity. rewrite Hs. reflexivity. }
  unfold lcp_itf_admin_state_change. rewrite Hstart.
  split; [intros ->; reflexivity|].
  split; [|split].
  - intros lip si -> Hsi Hsub.
    erewrite run_bind by reflexivity. rewrite Hsi.
    destruct (Z.eqb_spec sw_if_idx (sup_sw_if_index si)) as [He|_];
      [congruence|reflexivity].
  - intros lip si hi -> Hsi Hsub Hhi Hidx.
    erewrite run_bind by reflexivity. rewrite Hsi, Hsub, Z.eqb_refl.
    cbn [negb]. erewrite run_bind by reflexivity. rewrite Hsi.
    rewrite (run_bind _ _ _ _ _ (sw_field_run _ hw_if_index w si Hsi)).
    erewrite run_bind by reflexivity. rewrite Hhi.
    rewrite (run_bind _ _ _ _ _ (sw_field_run _ sw_if_index w si Hsi)).
    assert (Hf : ∀ {A} (f : vnet_hw_interface_t → A),
              hw_field (Some (hw_if_index si)) f w = Ok (f hi) w).
    { intros A f. unfold hw_field. cbn. rewrite Hhi. reflexivity. }
    rewrite (run_bind _ _ _ _ _ (Hf _ _)).
    unfold lcp_itf_pair_sync_state_hw.
    rewrite (run_bind _ _ _ _ _ (Hf _ _)), (run_bind _ _ _ _ _ (Hf _ _)).
    unfold vnet_hw_interface_walk_sw. erewrite run_bind by reflexivity.
    rewrite Hidx, Hhi. apply walk_hw_cb_sync_each.
  - intros lip si -> Hsi Hsub Hhi.
    erewrite run_bind by reflexivity. rewrite Hsi, Hsub, Z.eqb_refl.
    cbn [negb]. erewrite run_bind by reflexivity. rewrite Hsi.
    rewrite (run_bind _ _ _ _ _ (sw_field_run _ hw_if_index w si Hsi)).
    erewrite run_bind by reflexivity. rewrite Hhi. reflexivity.
Qed.

Lemma table_bind_run (proto : fib_protocol_t)
    (sw_if_idx new_fib_index old_fib_index : Z) (w : world) :
  lcp_itf_ipX_table_bind proto sw_if_idx new_fib_index old_fib_index w
  = Ok () (set_trace
             (trace w ++ table_bind_events proto sw_if_idx new_fib_index w)
             w).
Proof.
  assert (Hnil : Ok () w = Ok () (set_trace (trace w ++ []) w))
    by (rewrite app_nil_r, set_trace_id; reflexivity).
  unfold lcp_itf_ipX_table_bind, table_bind_events.
  erewrite run_bind by reflexivity.
  destruct (lcp_sync_on w); cbn [negb]; [|exact Hnil].
  erewrite run_bind by reflexivity. rewrite pair_lookup_run.
  destruct (pair_of w sw_if_idx) as [lip|]; [|exact Hnil].
  cbv zeta.
  destruct (fib_table_id w proto new_fib_index =? 0); cbn [negb];
    [reflexivity|].
  erewrite run_bind by reflexivity.
  change (λ t, (nlt_id t =? ?x) && bool_decide (nlt_proto t = FIB_PROTOCOL_IP4))
    with (λ t, (nlt_id t =? x) && is_ip4_table t).
  destruct (List.find _ _) as [t|]; [|exact Hnil].
  destruct (nlt_if_index t =? INDEX_INVALID); [exact Hnil|].
  erewrite run_bind by reflexivity.
  destruct (kl_name <$> _) as [n|]; [reflexivity|exact Hnil].
Qed.

(** C10. For a table-bind event of either family, the record of the
    new table is looked up among the IPv4 records only: what the
    handler does is the same in any two worlds whose table stores have
    the same IPv4 records, whatever their IPv6 records are; and when
    the new table index resolves to the same table id for both
    families, the IPv4 and the IPv6 handler do the same. *)
Theorem table_bind_lookup_ip4 (proto : fib_protocol_t)
    (sw_if_idx new_fib_index old_fib_index : Z) (w : world)
    (tables : list lcp_nl_table_t) :
  List.filter is_ip4_table tables = List.filter is_ip4_table (nl_tables w) →
  lcp_itf_ipX_table_bind proto sw_if_idx new_fib_index old_fib_index
    (set_nl_tables tables w)
  = with_nl_tables tables
      (lcp_itf_ipX_table_bind proto sw_if_idx new_fib_index old_fib_index w)
  ∧ (fib_table_id w FIB_PROTOCOL_IP6 new_fib_index
     = fib_table_id w FIB_PROTOCOL_IP4 new_fib_index →
     lcp_itf_ip6_table_bind sw_if_idx new_fib_index old_fib_index w
     = lcp_itf_ip4_table_bind sw_if_idx new_fib_index old_fib_index w).
Proof.
  intros Hf. split.
  - rewrite !table_bind_run. cbn [with_nl_tables]. f_equal.
    assert (He : table_bind_events proto sw_if_idx new_fib_index
                   (set_nl_tables tables w)
                 = table_bind_events proto sw_if_idx new_fib_index w).
    { unfold table_bind_events.
      change (pair_of (set_nl_tables tables w)) with (pair_of w).
      cbn [set_nl_tables lcp_sync_on fib_table_id nl_tables kernel_links os].
      unfold is_ip4_table in *.
      rewrite (find_ip4_filter _ tables), (find_ip4_filter _ (nl_tables w)).
      rewrite Hf. reflexivity. }
    rewrite He. reflexivity.
  - intros Hid. unfold lcp_itf_ip6_table_bind, lcp_itf_ip4_table_bind.
    rewrite !table_bind_run. unfold table_bind_events. rewrite Hid.
    reflexivity.
Qed.

End HandlerResults.

(** ** The claims at the concrete worlds *)

Section Instances.
Import Sync Netlink Examples.
Local Open Scope string_scope.

(** C1 at a concrete input: the sub-interface's pair, after the device
    left the interface pool. *)
Lemma sync_state_missing_parent_faults_witness :
  lcp_sync_on world_orphan = true
  ∧ sw_interfaces world_orphan !! lip_phy_sw_if_index lip2 = Some sw2
  ∧ sw_interfaces world_orphan !! sup_sw_if_index sw2 = None
  ∧ ∃ w1, lcp_itf_pair_sync_state lip2 world_orphan = Fault w1
      ∧ trace w1 = trace world_orphan
      ∧ active_ns (os w1) = 5.
Proof.
  split; [reflexivity|]. split; [reflexivity|]. split; [reflexivity|].
  destruct (sync_state_missing_parent_faults world_orphan lip2 sw2
              eq_refl eq_refl eq_refl) as (w1 & Hr & Ht & _ & _ & Hns).
  exists w1. split; [exact Hr|]. split; [exact Ht | exact Hns].
Defined.

(** C2 at a concrete input: the sub-interface is up, the device is
    down, and the mirror is pushed down. *)
Lemma sync_state_admin_state_witness :
  lcp_sync_on world0 = true
  ∧ sw_interfaces world0 !! lip_phy_sw_if_index lip2 = Some sw2
  ∧ sw_interfaces world0 !! sup_sw_if_index sw2 = Some sw1
  ∧ ∃ w', lcp_itf_pair_sync_state lip2 world0 = Ok () w'
      ∧ List.filter is_set_link_state (events_since world0 (Ok () w'))
        = [EvSetLinkState 11 0]
      ∧ flags <$> sw_interfaces w' !! 2 = Some 1.
Proof.
  split; [reflexivity|]. split; [reflexivity|]. split; [reflexivity|].
  destruct (sync_state_admin_state world0 lip2 sw2 sw1
              eq_refl eq_refl eq_refl) as (w' & Hr & He & _ & _ & _ & _ & Hf).
  exists w'. split; [exact Hr|]. split; [exact He|].
  rewrite (Hf 2); [reflexivity | discriminate].
Defined.

(** C3 at a concrete input: physical MTU 1500, parent MTU 1400, the
    kernel reporting 1500. *)
Lemma sync_state_effective_mtu_witness :
  lcp_sync_on world0 = true
  ∧ sw_interfaces world0 !! lip_phy_sw_if_index lip2 = Some sw2
  ∧ sw_interfaces world0 !! sup_sw_if_index sw2 = Some sw1
  ∧ ∃ w', lcp_itf_pair_sync_state lip2 world0 = Ok () w'
      ∧ List.filter is_set_mtu (events_since world0 (Ok () w'))
        = [EvSetMtu 2 1400; EvSetMtu 11 1400]
      ∧ List.filter is_set_link_mtu (events_since world0 (Ok () w'))
        = [EvNetlinkSetLinkMtu 5 101 1400].
Proof.
  split; [reflexivity|]. split; [reflexivity|]. split; [reflexivity|].
  destruct (sync_state_effective_mtu world0 lip2 sw2 sw1
              eq_refl eq_refl eq_refl) as (w' & Hr & _ & _ & He & _ & _ & Hp).
  exists w'. split; [exact Hr|]. split; [exact He | exact Hp].
Defined.

(** C4 at a concrete input: the kernel answers NLMSG_ERROR with code
    -19. *)
Lemma msg_send_reply_verdict_witness :
  sys_socket sys_nack = SysOk 4 ∧ sys_bind sys_nack = SysOk ()
  ∧ sr_err (vnet_netlink_msg_send sys_nack (del_ip4_addr_msg 101 addr4 32)
              None)
    = Some (ErrNetlink (-19)).
Proof.
  split; [reflexivity|]. split; [reflexivity|].
  pose proof (msg_send_reply_verdict sys_nack (del_ip4_addr_msg 101 addr4 32)
                None 4 eq_refl eq_refl) as H.
  cbv zeta in H. change (sys_recv sys_nack) with (SysOk nack) in H.
  destruct H as [H _]. rewrite H. vm_compute. reflexivity.
Defined.

(** C4, the claim as stated, fails: a reply buffer holding one message
    that is neither NLMSG_DONE nor NLMSG_ERROR has no terminator, and the
    transaction reports success, not a receive failure. *)
Lemma msg_send_missing_terminator_succeeds :
  sys_recv sys_noop = SysOk noop
  ∧ reply_terminator (recv_into (sys_stack sys_noop) noop)
      (Z.of_nat (length noop)) = None
  ∧ sr_err (vnet_netlink_msg_send sys_noop (del_ip4_addr_msg 101 addr4 32)
              None) = None.
Proof. vm_compute. repeat split. Qed.

(** C5 at a concrete input: a process in namespace 0 that cannot open
    its own namespace file syncs the pair of namespace "dataplane"
    (namespace 5); the run returns and the process is in namespace 5. *)
Lemma sync_state_leaves_namespace_switched_witness :
  lcp_sync_on world_noself = true
  ∧ sw_interfaces world_noself !! lip_phy_sw_if_index lip2 = Some sw2
  ∧ sw_interfaces world_noself !! sup_sw_if_index sw2 = Some sw1
  ∧ lip_namespace lip2 = Some "dataplane"
  ∧ self_ns_openable (os world_noself) = false
  ∧ netns_by_name (os world_noself) !! "dataplane" = Some 5
  ∧ setns_permitted (os world_noself) = true
  ∧ active_ns (os world_noself) = 0
  ∧ ∃ w', lcp_itf_pair_sync_state lip2 world_noself = Ok () w'
      ∧ active_ns (os w') = 5
      ∧ active_ns (os w') ≠ active_ns (os world_noself).
Proof.
  do 8 (split; [reflexivity|]).
  destruct (sync_state_leaves_namespace_switched world_noself lip2 sw2 sw1
              "dataplane" 5 eq_refl eq_refl eq_refl eq_refl eq_refl eq_refl
              eq_refl)
    as (w' & Hr & _ & _ & Ha & Hne).
  { cbn. lia. }
  exists w'. split; [exact Hr|]. split; [exact Ha | exact Hne].
Defined.

(** C6 at a concrete input. *)
Lemma sync_disabled_no_effect_witness :
  lcp_sync_on world_sync_off = false
  ∧ lcp_itf_pair_sync_state_all world_sync_off = Ok () world_sync_off
  ∧ lcp_itf_ip4_add_del_interface_addr 2 addr4 32 0 world_sync_off
    = Ok () world_sync_off.
Proof.
  split; [reflexivity|].
  destruct (sync_disabled_no_effect world_sync_off eq_refl)
    as (_ & Hall & _ & _ & _ & H4 & _).
  split; [exact Hall | exact (H4 2 addr4 32 0)].
Defined.

(** C6, the claim as stated, fails: with the sync toggle off and
    sub-interface mirroring on, the creation of a sub-interface whose
    parent has a pair makes a pair, and the deletion of a sub-interface
    deletes its pair. *)
Lemma sync_disabled_interface_add_del_acts :
  lcp_sync_on world_sync_off = false
  ∧ events_since world_sync_off (lcp_itf_interface_add_del 3 1 world_sync_off)
    = [EvPairCreate 3 "host0.9" (Some "dataplane")]
  ∧ lip_pool world_sync_off !! 1 = Some lip2
  ∧ lip_pool (final (lcp_itf_interface_add_del 2 0 world_sync_off)) !! 1
    = None.
Proof. vm_compute. repeat split. Qed.


(** C8 at a concrete input: 203.0.113.5/32 and 2001:db8::1/64 on the
    link with index 101. *)
Lemma del_addr_request_layout_witness :
  sys_socket sys_ack = SysOk 4 ∧ sys_bind sys_ack = SysOk ()
  ∧ length addr4 = 4%nat ∧ length addr6 = 16%nat
  ∧ 0 ≤ 32 < 2 ^ 8 ∧ 0 ≤ 101 < 2 ^ 32
  ∧ sr_wire (vnet_netlink_del_ip4_addr sys_ack 101 addr4 32)
    = Some (del_addr_wire AF_INET 101 32 addr4)
  ∧ sr_wire (vnet_netlink_del_ip6_addr sys_ack 101 addr6 32)
    = Some (del_addr_wire AF_INET6 101 32 addr6).
Proof.
  split; [reflexivity|]. split; [reflexivity|].
  split; [reflexivity|]. split; [reflexivity|].
  split; [lia|]. split; [lia|].
  destruct (del_addr_request_layout sys_ack 4 101 32 addr4 addr6
              eq_refl eq_refl eq_refl eq_refl ltac:(lia) ltac:(lia))
    as (H4 & H6 & _).
  split; [exact H4 | exact H6].
Defined.

(** C9 at a concrete input: the device has a pair, and a change of its
    admin state re-syncs the device and its sub-interface. *)
Lemma admin_state_change_dispatch_witness :
  lcp_sync_on world0 = true
  ∧ lcp_itf_admin_state_change 1 0 world0
    = sync_each [lip1; lip2] world0.
Proof.
  split; [reflexivity|].
  destruct (admin_state_change_dispatch world0 1 0 eq_refl)
    as (_ & _ & Hhw & _).
  exact (Hhw lip1 sw1 hw1 eq_refl eq_refl eq_refl eq_refl eq_refl).
Defined.

(** C9, the claim as stated, fails: the device is not a sub-interface
    and has no pair, its sub-interface has one; the handler does
    nothing, while a run over the paired interfaces of the hardware
    interface would have pushed state. *)
Lemma admin_state_change_unpaired_parent :
  lcp_sync_on world_unpaired_parent = true
  ∧ vnet_sw_interface_is_sub 1 world_unpaired_parent
    = Ok false world_unpaired_parent
  ∧ omap (pair_of world_unpaired_parent) (hi_walk_sw hw1) = [lip2]
  ∧ lcp_itf_admin_state_change 1 0 world_unpaired_parent
    = Ok () world_unpaired_parent
  ∧ List.filter is_set_link_state
      (events_since world_unpaired_parent
         (sync_each [lip2] world_unpaired_parent))
    = [EvSetLinkState 11 0].
Proof. vm_compute. repeat split. Qed.

(** C10 at a concrete input: table 10 has an IPv6 record on one device
    and an IPv4 record on another; without the IPv6 record the IPv6
    handler does the same, and it names the device of the IPv4 record. *)
Lemma table_bind_lookup_ip4_witness :
  List.filter is_ip4_table
    [ {| nlt_id := 10; nlt_proto := FIB_PROTOCOL_IP4; nlt_if_index := 7 |} ]
  = List.filter is_ip4_table (nl_tables world_vrf)
  ∧ events_since world_vrf
      (lcp_itf_ipX_table_bind FIB_PROTOCOL_IP6 1 10 0
         (set_nl_tables
            [ {| nlt_id := 10; nlt_proto := FIB_PROTOCOL_IP4;
                 nlt_if_index := 7 |} ] world_vrf))
    = [EvNetlinkSetLinkMaster 0 100 "vpp-vrf10"]
  ∧ lcp_itf_ip6_table_bind 1 10 0 world_vrf
    = lcp_itf_ip4_table_bind 1 10 0 world_vrf.
Proof.
  split; [reflexivity|].
  destruct (table_bind_lookup_ip4 FIB_PROTOCOL_IP6 1 10 0 world_vrf
              [ {| nlt_id := 10; nlt_proto := FIB_PROTOCOL_IP4;
                   nlt_if_index := 7 |} ] eq_refl) as [H1 H2].
  split; [rewrite H1; vm_compute; reflexivity | exact (H2 eq_refl)].
Defined.

End Instances.

(** * Further properties of the code *)

Section NetlinkReplies.
Import Netlink.

Lemma recv_walk_replies (fuel : nat) (buf : list byte) (nh : nat) (len : Z)
    (err : option clib_error_t) (replies : option (list vnet_netlink_msg_t)) :
  (recv_walk fuel buf nh len err replies).2
  = (λ rs, rs ++ (reply_copy buf
                  <$> take_until (is_terminator buf)
                        (nlmsg_offsets fuel buf nh len))) <$> replies.
Proof.
  revert nh len replies.
  induction fuel as [|fuel IH]; intros nh len replies.
  - cbn. destruct replies as [rs|]; cbn; [rewrite app_nil_r|]; reflexivity.
  - cbn [recv_walk nlmsg_offsets].
    destruct (NLMSG_OK buf nh len).
    2:{ cbn. destruct replies as [rs|]; cbn; [rewrite app_nil_r|]; reflexivity. }
    cbn [take_until]. unfold is_terminator at 1.
    destruct (nlmsg_type buf nh =? NLMSG_DONE).
    { cbn. destruct replies as [rs|]; cbn; [rewrite app_nil_r|]; reflexivity. }
    destruct (nlmsg_type buf nh =? NLMSG_ERROR).
    { cbn. destruct replies as [rs|]; cbn; [rewrite app_nil_r|]; reflexivity. }
    cbn [orb]. destruct (NLMSG_NEXT buf nh len) as [nh' len'].
    rewrite IH. destruct replies as [rs|]; cbn; [|reflexivity].
    rewrite <- app_assoc. reflexivity.
Qed.

(** X1. The reply collector of [vnet_netlink_msg_send]. Without a
    collector nothing is collected. With one, when socket(2), bind(2)
    and recv(2) succeed, the transaction appends to it a copy of every
    message of the reply that comes before the first NLMSG_DONE or
    NLMSG_ERROR message, in order, each of [nlmsg_len] bytes from its
    header on, and nothing of what follows that message; when one of the
    three calls fails, the collector is as it was. *)
Theorem msg_send_reply_collection (sys : nl_syscalls) (m : vnet_netlink_msg_t)
    (replies : option (list vnet_netlink_msg_t)) :
  sr_replies (vnet_netlink_msg_send sys m replies)
  = match sys_socket sys, sys_bind sys, sys_recv sys with
    | SysOk _, SysOk _, SysOk rd =>
        let rd := take sizeof_buf rd in
        (λ rs, rs ++ collected (recv_into (sys_stack sys) rd)
                       (Z.of_nat (length rd))) <$> replies
    | _, _, _ => replies
    end.
Proof.
  unfold vnet_netlink_msg_send.
  destruct (sys_socket sys) as [sock|e]; [|reflexivity].
  destruct (sys_bind sys) as [[]|e]; [|reflexivity].
  destruct (sys_recv sys) as [rd|e].
  - cbv zeta.
    match goal with
    | |- context [recv_walk ?f ?b ?n ?l ?e ?r] =>
        pose proof (recv_walk_replies f b n l e r) as Hw;
        destruct (recv_walk f b n l e r) as [err rs]
    end.
    cbn [sr_replies]. exact Hw.
  - cbn. destruct replies; reflexivity.
Qed.

End NetlinkReplies.

Section NetlinkBounds.
Import Netlink.

(** Reading inside the first part of a concatenation. *)
Lemma load_inside (a b : list byte) (off n : nat) :
  (off + n ≤ length a)%nat → load (a ++ b) off n = take n (drop off a).
Proof.
  intros Hlen. unfold load. apply list_eq. intros i.
  rewrite list_lookup_fmap.
  destruct (decide (i < n)%nat) as [Hi|Hi].
  - rewrite lookup_seq_lt by lia. cbn.
    rewrite lookup_take_lt by lia. rewrite lookup_drop.
    rewrite lookup_app_l by lia.
    destruct (lookup_lt_is_Some_2 a (off + i) ltac:(lia)) as [x Hx].
    rewrite Hx. reflexivity.
  - rewrite lookup_seq_ge by lia. cbn.
    symmetry. apply lookup_ge_None. rewrite length_take. lia.
Qed.

Lemma load_inside_eq (a b b' : list byte) (off n : nat) :
  (off + n ≤ length a)%nat → load (a ++ b) off n = load (a ++ b') off n.
Proof. intros H. rewrite !load_inside by exact H. reflexivity. Qed.

(** One step of the walk, from a header the loop accepts, with [len]
    the number of received bytes from [nh] on. *)
Lemma walk_step_bounds (buf : list byte) (nh : nat) (len total : Z) :
  Z.of_nat nh + len = total → total < 2 ^ 31 →
  NLMSG_OK buf nh len = true →
  16 ≤ len ∧ 16 ≤ nlmsg_len buf nh ∧ nlmsg_len buf nh ≤ len
  ∧ ∃ k, 4 ≤ k ∧ (NLMSG_NEXT buf nh len).1 = (nh + Z.to_nat (4 * k))%nat
       ∧ (NLMSG_NEXT buf nh len).2 = len - 4 * k
       ∧ nlmsg_len buf nh ≤ 4 * k ≤ nlmsg_len buf nh + 3.
Proof.
  intros Htot H31 Hok. unfold NLMSG_OK in Hok.
  apply andb_prop in Hok as [Hok H3]. apply andb_prop in Hok as [H1 H2].
  apply Z.leb_le in H1, H2, H3. unfold sizeof_nlmsghdr in *.
  assert (Hu : u32 len = len) by (unfold u32; apply Z.mod_small; lia).
  rewrite Hu in H3.
  split; [exact H1|]. split; [exact H2|]. split; [exact H3|].
  exists ((nlmsg_len buf nh + 3) / 4).
  pose proof (NLMSG_ALIGN_eq (nlmsg_len buf nh) ltac:(lia) ltac:(lia)) as Ha.
  pose proof (NLMSG_ALIGN_bounds (nlmsg_len buf nh) ltac:(lia) ltac:(lia)) as Hb.
  rewrite Ha in Hb.
  unfold NLMSG_NEXT. cbn [fst snd]. rewrite Hu, Ha.
  split; [lia|]. split; [reflexivity|].
  split; [apply int32_small; lia | exact Hb].
Qed.

Lemma offsets_in_bounds (fuel : nat) (rd s : list byte) (nh : nat) (len : Z) :
  Z.of_nat nh + len = Z.of_nat (length rd) →
  Z.of_nat (length rd) < 2 ^ 31 →
  Z.of_nat nh mod 4 = 0 →
  ∀ x, x ∈ nlmsg_offsets fuel (rd ++ s) nh len →
    Z.of_nat x mod 4 = 0
    ∧ 16 ≤ nlmsg_len (rd ++ s) x
    ∧ Z.of_nat x + nlmsg_len (rd ++ s) x ≤ Z.of_nat (length rd).
Proof.
  revert nh len. induction fuel as [|fuel IH]; intros nh len Htot H31 Hal x Hx.
  - cbn in Hx. inversion Hx.
  - cbn [nlmsg_offsets] in Hx.
    destruct (NLMSG_OK (rd ++ s) nh len) eqn:Hok; [|inversion Hx].
    destruct (walk_step_bounds _ _ _ _ Htot H31 Hok)
      as (H1 & H2 & H3 & k & Hk & Hn1 & Hn2 & Hkb).
    destruct (NLMSG_NEXT (rd ++ s) nh len) as [nh' len'].
    cbn [fst snd] in Hn1, Hn2. subst nh' len'.
    apply elem_of_cons in Hx as [->|Hx].
    + split; [exact Hal|]. split; [exact H2 | lia].
    + apply (IH (nh + Z.to_nat (4 * k))%nat (len - 4 * k)); try assumption.
      * lia.
      * rewrite Nat2Z.inj_add, Z2Nat.id by lia.
        replace (Z.of_nat nh + 4 * k) with (Z.of_nat nh + k * 4) by lia.
        rewrite Z.mod_add by lia. exact Hal.
Qed.

(** X2. Every header the receive loop of [vnet_netlink_msg_send] can
    reach lies within the bytes recv(2) delivered: it starts at a multiple
    of four bytes, its [nlmsg_len] is at least the size of a header, and
    the whole message ends within the received bytes; so the copy made
    for the reply collector holds received bytes only, never what the
    buffer held before. *)
Theorem reply_walk_in_bounds (stack rd : list byte) (nh : nat) :
  (length rd ≤ sizeof_buf)%nat →
  nh ∈ nlmsg_offsets walk_fuel (recv_into stack rd) 0 (Z.of_nat (length rd)) →
  let buf := recv_into stack rd in
  Z.of_nat nh mod 4 = 0
  ∧ 16 ≤ nlmsg_len buf nh
  ∧ Z.of_nat nh + nlmsg_len buf nh ≤ Z.of_nat (length rd)
  ∧ data (reply_copy buf nh) = take (Z.to_nat (nlmsg_len buf nh)) (drop nh rd).
Proof.
  intros Hlen Hin buf. unfold sizeof_buf in Hlen.
  destruct (offsets_in_bounds walk_fuel rd (drop (length rd) stack) 0
              (Z.of_nat (length rd)) ltac:(lia) ltac:(lia) eq_refl nh Hin)
    as (Hal & H16 & Hend).
  fold (recv_into stack rd) in H16, Hend. fold buf in H16, Hend.
  split; [exact Hal|]. split; [exact H16|]. split; [exact Hend|].
  unfold reply_copy. cbn [data]. subst buf. unfold recv_into at 1.
  apply load_inside. lia.
Qed.

End NetlinkBounds.

Section NetlinkStale.
Import Netlink.

Lemma recv_walk_stack (fuel : nat) (rd s1 s2 : list byte) (nh : nat) (len : Z)
    (err : option clib_error_t) (replies : option (list vnet_netlink_msg_t)) :
  Z.of_nat nh + len = Z.of_nat (length rd) →
  Z.of_nat (length rd) < 2 ^ 31 →
  (∀ x, x ∈ nlmsg_offsets fuel (rd ++ s1) nh len →
     nlmsg_type (rd ++ s1) x = NLMSG_ERROR →
     sizeof_nlmsghdr + 4 ≤ nlmsg_len (rd ++ s1) x) →
  recv_walk fuel (rd ++ s2) nh len err replies
  = recv_walk fuel (rd ++ s1) nh len err replies.
Proof.
  revert nh len replies.
  induction fuel as [|fuel IH]; intros nh len replies Htot H31 Herr;
    [reflexivity|].
  cbn [recv_walk]. cbn [nlmsg_offsets] in Herr.
  destruct (Z.leb_spec sizeof_nlmsghdr len) as [H16|H16].
  2:{ unfold NLMSG_OK. destruct (Z.leb_spec sizeof_nlmsghdr len); [lia|].
      reflexivity. }
  unfold sizeof_nlmsghdr in H16.
  assert (Hl : nlmsg_len (rd ++ s2) nh = nlmsg_len (rd ++ s1) nh).
  { unfold nlmsg_len, load_u32. f_equal. apply load_inside_eq.
    unfold off_nlmsg_len. lia. }
  assert (Ht : nlmsg_type (rd ++ s2) nh = nlmsg_type (rd ++ s1) nh).
  { unfold nlmsg_type, load_u16. f_equal. apply load_inside_eq.
    unfold off_nlmsg_type. lia. }
  assert (Hok : NLMSG_OK (rd ++ s2) nh len = NLMSG_OK (rd ++ s1) nh len)
    by (unfold NLMSG_OK; rewrite Hl; reflexivity).
  assert (Hnext : NLMSG_NEXT (rd ++ s2) nh len = NLMSG_NEXT (rd ++ s1) nh len)
    by (unfold NLMSG_NEXT; rewrite Hl; reflexivity).
  rewrite Hok, Ht, Hl, Hnext.
  destruct (NLMSG_OK (rd ++ s1) nh len) eqn:Hok1; [|reflexivity].
  destruct (walk_step_bounds _ _ _ _ Htot H31 Hok1)
    as (_ & H2 & H3 & k & Hk & Hn1 & Hn2 & Hkb).
  destruct (nlmsg_type (rd ++ s1) nh =? NLMSG_DONE); [reflexivity|].
  destruct (Z.eqb_spec (nlmsg_type (rd ++ s1) nh) NLMSG_ERROR) as [He|He].
  - assert (Hc : nlmsgerr_error (rd ++ s2) nh = nlmsgerr_error (rd ++ s1) nh).
    { pose proof (Herr nh ltac:(left) He) as H20.
      unfold sizeof_nlmsghdr in H20.
      unfold nlmsgerr_error, load_i32, load_u32. do 2 f_equal.
      apply load_inside_eq.
      change (Z.to_nat NLMSG_HDRLEN) with 16%nat. lia. }
    rewrite Hc. reflexivity.
  - assert (Hcopy : load (rd ++ s2) nh (Z.to_nat (nlmsg_len (rd ++ s1) nh))
                    = load (rd ++ s1) nh (Z.to_nat (nlmsg_len (rd ++ s1) nh)))
      by (apply load_inside_eq; lia).
    rewrite Hcopy.
    destruct (NLMSG_NEXT (rd ++ s1) nh len) as [nh' len'].
    cbn [fst snd] in Hn1, Hn2. subst nh' len'.
    apply IH; [lia | exact H31 |].
    intros x Hx. apply Herr. right. exact Hx.
Qed.

Lemma sizeof_buf_bound : Z.of_nat sizeof_buf < 2 ^ 31.
Proof. vm_compute. reflexivity. Qed.

Lemma take_buf_bound (rd : list byte) :
  Z.of_nat (length (take sizeof_buf rd)) < 2 ^ 31.
Proof.
  pose proof sizeof_buf_bound.
  assert (Hb : Z.of_nat (length (take sizeof_buf rd)) ≤ Z.of_nat sizeof_buf)
    by (apply Nat2Z.inj_le; rewrite length_take; apply Nat.le_min_l).
  lia.
Qed.

(** X3. When every NLMSG_ERROR message among the headers of the reply
    is long enough to hold its error code, the outcome of a transaction
    -- the error, the collected replies and the request sent -- does
    not depend on what the receive buffer held before recv(2) wrote
    into it. *)
Theorem msg_send_ignores_stale_buffer (sys : nl_syscalls)
    (m : vnet_netlink_msg_t) (replies : option (list vnet_netlink_msg_t))
    (stack' rd : list byte) :
  sys_recv sys = SysOk rd →
  let buf := recv_into (sys_stack sys) (take sizeof_buf rd) in
  (∀ nh,
     nh ∈ nlmsg_offsets walk_fuel buf 0
            (Z.of_nat (length (take sizeof_buf rd))) →
     nlmsg_type buf nh = NLMSG_ERROR →
     sizeof_nlmsghdr + 4 ≤ nlmsg_len buf nh) →
  vnet_netlink_msg_send (with_stack stack' sys) m replies
  = vnet_netlink_msg_send sys m replies.
Proof.
  intros Hrecv buf Herr.
  assert (Hw : ∀ err,
            recv_walk walk_fuel (recv_into stack' (take sizeof_buf rd)) 0
              (Z.of_nat (length (take sizeof_buf rd))) err replies
            = recv_walk walk_fuel buf 0
                (Z.of_nat (length (take sizeof_buf rd))) err replies).
  { intros err. subst buf. pose proof (take_buf_bound rd) as Hb.
    revert Hb Herr. generalize (take sizeof_buf rd). intros rd' Hb Herr.
    unfold recv_into in *. apply recv_walk_stack; [lia | exact Hb | exact Herr]. }
  unfold vnet_netlink_msg_send, with_stack.
  cbn [sys_socket sys_bind sys_send sys_recv sys_stack].
  destruct (sys_socket sys) as [sock|e]; [|reflexivity].
  destruct (sys_bind sys) as [[]|e]; [|reflexivity].
  rewrite Hrecv. cbv zeta. rewrite Hw. reflexivity.
Qed.

(** The loop at an NLMSG_ERROR message. *)
Lemma recv_walk_error_first (fuel : nat) (buf : list byte) (nh : nat)
    (len : Z) (err : option clib_error_t)
    (replies : option (list vnet_netlink_msg_t)) :
  NLMSG_OK buf nh len = true → nlmsg_type buf nh = NLMSG_ERROR →
  recv_walk (S fuel) buf nh len err replies
  = (if nlmsgerr_error buf nh =? 0 then err
     else Some (ErrNetlink (nlmsgerr_error buf nh)), replies).
Proof. intros Hok Ht. cbn [recv_walk]. rewrite Hok, Ht. reflexivity. Qed.

(** X4. The loop does not check that an NLMSG_ERROR message holds an
    error code. When recv(2) delivers a bare NLMSG_ERROR header of 16
    bytes, the code the transaction reports is read from the four bytes
    of the buffer after the received ones, which recv(2) did not write:
    zero there gives the result of send(2), anything else a netlink
    error with that code. *)
Theorem msg_send_truncated_error (sys : nl_syscalls) (m : vnet_netlink_msg_t)
    (replies : option (list vnet_netlink_msg_t)) (sock flags seq pid : Z) :
  sys_socket sys = SysOk sock → sys_bind sys = SysOk () →
  sys_recv sys = SysOk (nlmsghdr_bytes 16 NLMSG_ERROR flags seq pid) →
  let sent := match sys_send sys with
              | SysErr e => Some (ErrUnix "send" e)
              | SysOk _ => None
              end in
  let code := load_i32 (sys_stack sys) 16 in
  sr_err (vnet_netlink_msg_send sys m replies)
  = if code =? 0 then sent else Some (ErrNetlink code).
Proof.
  intros Hs Hb Hr sent code.
  unfold vnet_netlink_msg_send. rewrite Hs, Hb, Hr. cbv zeta. fold sent.
  set (rd := nlmsghdr_bytes 16 NLMSG_ERROR flags seq pid).
  assert (Hlen : length rd = 16%nat).
  { unfold rd, nlmsghdr_bytes. rewrite !length_app, !le_encode_length.
    reflexivity. }
  assert (Htake : take sizeof_buf rd = rd)
    by (apply take_ge; rewrite Hlen; unfold sizeof_buf; lia).
  rewrite Htake, Hlen.
  set (buf := recv_into (sys_stack sys) rd).
  assert (Hbuf : buf = le_encode 4 16 ++ le_encode 2 NLMSG_ERROR
                       ++ (le_encode 2 flags ++ le_encode 4 seq
                           ++ le_encode 4 pid
                           ++ drop (length rd) (sys_stack sys))).
  { unfold buf, recv_into, rd, nlmsghdr_bytes. rewrite <- !app_assoc.
    reflexivity. }
  assert (Hl : nlmsg_len buf 0 = 16).
  { rewrite Hbuf.
    exact (f_equal le_decode (load_app_middle [] (le_encode 4 16) _)). }
  assert (Ht : nlmsg_type buf 0 = NLMSG_ERROR).
  { rewrite Hbuf.
    exact (f_equal le_decode
             (load_app_middle (le_encode 4 16) (le_encode 2 NLMSG_ERROR) _)). }
  assert (Hc : nlmsgerr_error buf 0 = code).
  { unfold nlmsgerr_error, code, load_i32, load_u32, buf, recv_into.
    do 2 f_equal. unfold load. apply list_fmap_ext. intros i x Hx.
    change (0 + Z.to_nat NLMSG_HDRLEN)%nat with 16%nat.
    rewrite lookup_app_r by lia. rewrite lookup_drop, Hlen.
    f_equal. f_equal. lia. }
  assert (Hok : NLMSG_OK buf 0 16 = true)
    by (unfold NLMSG_OK; rewrite Hl; reflexivity).
  change (Z.of_nat 16) with 16. change walk_fuel with (S 256).
  rewrite (recv_walk_error_first 256 buf 0 16 sent replies Hok Ht), Hc.
  reflexivity.
Qed.

End NetlinkStale.

Section NetlinkAttributes.
Import Netlink.

Lemma length_store (v : list byte) (off : nat) (src : list byte) :
  length (store v off src) = length v.
Proof.
  revert v off. induction src as [|b src IH]; intros v off; [reflexivity|].
  cbn [store]. rewrite IH. apply length_insert.
Qed.

(** Reading back an integer written in a concatenation. *)
Lemma load_u16_at (a : list byte) (z : Z) (c : list byte) (off : nat) :
  off = length a → load_u16 (a ++ le_encode 2 z ++ c) off = u16 z.
Proof.
  intros ->. unfold load_u16.
  change 2%nat with (length (le_encode 2 z)) at 1.
  rewrite load_app_middle. apply le_decode_encode.
Qed.

Lemma load_u32_at (a : list byte) (z : Z) (c : list byte) (off : nat) :
  off = length a → load_u32 (a ++ le_encode 4 z ++ c) off = u32 z.
Proof.
  intros ->. unfold load_u32.
  change 4%nat with (length (le_encode 4 z)) at 1.
  rewrite load_app_middle. apply le_decode_encode.
Qed.

Lemma rtattr_space_bytes_length (a : rtattr_arg) :
  rtattr_arg_ok a →
  Z.of_nat (length (rtattr_space_bytes a)) = RTA_SPACE (ra_len a)
  ∧ sizeof_rtattr + ra_len a ≤ RTA_SPACE (ra_len a) ≤ ra_len a + 7
  ∧ RTA_SPACE (ra_len a) mod 4 = 0.
Proof.
  intros (H0 & H16 & Hd). unfold sizeof_rtattr in *.
  destruct (RTA_SPACE_eq (ra_len a) H0 ltac:(lia)) as (Hs & Hp & HL).
  unfold sizeof_rtattr in HL.
  unfold rtattr_space_bytes.
  rewrite !length_app, !le_encode_length, length_take, length_replicate.
  split; [lia|]. split; [lia|].
  unfold RTA_SPACE. change (RTA_ALIGN ?x) with (NLMSG_ALIGN x).
  rewrite NLMSG_ALIGN_eq by lia.
  rewrite Z.mul_comm. apply Z.mod_mul. lia.
Qed.

Lemma add_rtattrs_layout (m : vnet_netlink_msg_t) (attrs : list rtattr_arg) :
  Forall rtattr_arg_ok attrs →
  data (add_rtattrs m attrs)
  = data m ++ concat (rtattr_space_bytes <$> attrs).
Proof.
  intros Hok. revert m. induction Hok as [|a attrs Ha Hok IH]; intros m.
  - cbn. rewrite app_nil_r. reflexivity.
  - cbn [add_rtattrs fold_left fmap list_fmap concat].
    change (fold_left _ attrs ?x) with (add_rtattrs x attrs).
    rewrite IH. destruct Ha as (H0 & H16 & Hd). unfold sizeof_rtattr in H16.
    rewrite add_rtattr_layout by (try assumption; lia).
    unfold rtattr_space_bytes. rewrite <- !app_assoc. reflexivity.
Qed.

Lemma attrs_space_length (attrs : list rtattr_arg) :
  Forall rtattr_arg_ok attrs →
  Z.of_nat (length (concat (rtattr_space_bytes <$> attrs)))
  = attrs_space attrs
  ∧ 0 ≤ attrs_space attrs
  ∧ attrs_space attrs mod 4 = 0.
Proof.
  induction 1 as [|a attrs Ha Hok IH].
  - cbn. repeat split; lia.
  - cbn [fmap list_fmap concat attrs_space foldr].
    fold (attrs_space attrs).
    destruct (rtattr_space_bytes_length a Ha) as (Hl & Hb & Hm).
    destruct IH as (IH1 & IH2 & IH3). unfold sizeof_rtattr in Hb.
    destruct Ha as (H0 & _).
    rewrite length_app, Nat2Z.inj_add, Hl, IH1.
    split; [reflexivity|]. split; [lia|].
    rewrite Z.add_mod, Hm, IH3 by lia. reflexivity.
Qed.

Lemma msg_init_length (type flags : Z) (msg_data : list byte) (msg_len : Z) :
  length (data (vnet_netlink_msg_init type flags msg_data msg_len))
  = Z.to_nat (NLMSG_SPACE msg_len).
Proof.
  unfold vnet_netlink_msg_init, vec_add2. cbn [data].
  rewrite !length_store. cbn [app]. apply length_replicate.
Qed.

Lemma NLMSG_SPACE_aligned (len : Z) :
  0 ≤ len → len + 19 < 2 ^ 32 →
  sizeof_nlmsghdr + len ≤ NLMSG_SPACE len ≤ len + 19
  ∧ NLMSG_SPACE len mod 4 = 0.
Proof.
  intros H0 H1. destruct (NLMSG_SPACE_eq len H0 H1) as (Hp & HL).
  unfold sizeof_nlmsghdr in *. split; [lia|].
  unfold NLMSG_SPACE. rewrite NLMSG_ALIGN_eq by (rewrite ?HL; lia).
  rewrite Z.mul_comm. apply Z.mod_mul. lia.
Qed.

(** X5. A request built by [vnet_netlink_msg_init] and any number of
    calls of [vnet_netlink_msg_add_rtattr], with the length
    [vnet_netlink_msg_send] writes into it, is one well-formed netlink
    message: its length is NLMSG_SPACE of the payload plus RTA_SPACE of
    each attribute, a multiple of four; [nlmsg_len] is that length and
    [nlmsg_type] the type given; and the NLMSG_OK / NLMSG_NEXT iteration
    this file runs on replies finds exactly one message in it. *)
Theorem built_message_walks_as_one (type flags : Z) (payload : list byte)
    (msg_len : Z) (attrs : list rtattr_arg) :
  0 ≤ msg_len → (Z.to_nat msg_len ≤ length payload)%nat →
  Forall rtattr_arg_ok attrs →
  NLMSG_LENGTH msg_len + 3 + attrs_space attrs < 2 ^ 31 →
  let m := add_rtattrs (vnet_netlink_msg_init type flags payload msg_len)
             attrs in
  let wire := store (data m) off_nlmsg_len
                (le_encode 4 (Z.of_nat (length (data m)))) in
  Z.of_nat (length wire) = NLMSG_SPACE msg_len + attrs_space attrs
  ∧ Z.of_nat (length wire) mod 4 = 0
  ∧ nlmsg_len wire 0 = Z.of_nat (length wire)
  ∧ nlmsg_type wire 0 = u16 type
  ∧ nlmsg_offsets walk_fuel wire 0 (Z.of_nat (length wire)) = [0%nat].
Proof.
  intros H0 Hd Hok Hbound m wire.
  destruct (attrs_space_length attrs Hok) as (Hal & Ha0 & Ham).
  assert (HL : NLMSG_LENGTH msg_len = msg_len + 16) by reflexivity.
  rewrite HL in Hbound.
  destruct (NLMSG_SPACE_aligned msg_len H0 ltac:(lia)) as (Hsb & Hsm).
  unfold sizeof_nlmsghdr in Hsb.
  assert (Hdata : data m
                  = data (vnet_netlink_msg_init type flags payload msg_len)
                    ++ concat (rtattr_space_bytes <$> attrs))
    by (apply add_rtattrs_layout; exact Hok).
  assert (Hlen : Z.of_nat (length (data m))
                 = NLMSG_SPACE msg_len + attrs_space attrs).
  { rewrite Hdata, length_app, msg_init_length, Nat2Z.inj_add, Hal.
    rewrite Z2Nat.id by lia. reflexivity. }
  assert (Hwl : length wire = length (data m)) by apply length_store.
  rewrite Hwl, Hlen.
  set (total := NLMSG_SPACE msg_len + attrs_space attrs) in *.
  assert (Hwire : wire
            = le_encode 4 total ++ le_encode 2 type
              ++ (le_encode 2 (Z.lor flags NLM_F_ACK) ++ replicate 8 x00
                  ++ take (Z.to_nat msg_len) payload
                  ++ replicate (Z.to_nat (NLMSG_SPACE msg_len
                                          - NLMSG_LENGTH msg_len)) x00
                  ++ concat (rtattr_space_bytes <$> attrs))).
  { unfold wire. rewrite Hlen, Hdata.
    rewrite msg_init_layout by (try assumption; lia).
    apply (store_segment _ _ _ [] (replicate 4 x00)).
    - rewrite <- !app_assoc. reflexivity.
    - reflexivity.
    - reflexivity. }
  assert (Hnl : nlmsg_len wire 0 = total).
  { rewrite Hwire. transitivity (u32 total).
    - exact (load_u32_at [] total _ 0%nat eq_refl).
    - unfold u32. apply Z.mod_small. lia. }
  assert (Hnt : nlmsg_type wire 0 = u16 type).
  { rewrite Hwire. unfold nlmsg_type.
    apply load_u16_at. reflexivity. }
  split; [reflexivity|].
  split; [unfold total; rewrite Z.add_mod, Hsm, Ham by lia; reflexivity|].
  split; [exact Hnl|]. split; [exact Hnt|].
  assert (Hu : u32 total = total) by (unfold u32; apply Z.mod_small; lia).
  change walk_fuel with (S (S 255)). cbn [nlmsg_offsets].
  assert (Hok1 : NLMSG_OK wire 0 total = true).
  { unfold NLMSG_OK. rewrite Hnl, Hu. unfold sizeof_nlmsghdr.
    destruct (Z.leb_spec 16 total); [|lia].
    destruct (Z.leb_spec total total); [reflexivity|lia]. }
  rewrite Hok1. unfold NLMSG_NEXT at 1. rewrite Hnl, Hu.
  pose proof (NLMSG_ALIGN_bounds total ltac:(lia) ltac:(lia)) as Hb.
  assert (Hok2 : NLMSG_OK wire (0 + Z.to_nat (NLMSG_ALIGN total))
                   (int32 (total - NLMSG_ALIGN total)) = false).
  { unfold NLMSG_OK. rewrite int32_small by lia. unfold sizeof_nlmsghdr.
    destruct (Z.leb_spec 16 (total - NLMSG_ALIGN total)); [lia|].
    reflexivity. }
  rewrite Hok2. reflexivity.
Qed.

Lemma rta_walk_step (fuel : nat) (a : rtattr_arg) (rest : list byte) (L : Z) :
  rtattr_arg_ok a → 0 ≤ L → RTA_SPACE (ra_len a) + L < 2 ^ 31 →
  rta_walk (S fuel) (rtattr_space_bytes a ++ rest) (RTA_SPACE (ra_len a) + L)
  = (u16 (ra_type a), take (Z.to_nat (ra_len a)) (ra_data a))
    :: rta_walk fuel rest L.
Proof.
  intros Ha HL H31.
  destruct (rtattr_space_bytes_length a Ha) as (Hl & Hb & Hm).
  destruct Ha as (H0 & H16 & Hd). unfold sizeof_rtattr in *.
  set (bs := rtattr_space_bytes a ++ rest).
  assert (Hbs : bs = le_encode 2 (4 + ra_len a) ++ le_encode 2 (ra_type a)
                     ++ take (Z.to_nat (ra_len a)) (ra_data a)
                     ++ (replicate (Z.to_nat (RTA_SPACE (ra_len a)
                                              - RTA_LENGTH (ra_len a))) x00
                         ++ rest)).
  { unfold bs, rtattr_space_bytes, sizeof_rtattr. rewrite <- !app_assoc.
    reflexivity. }
  assert (Hrl : rta_len bs = 4 + ra_len a).
  { rewrite Hbs. transitivity (u16 (4 + ra_len a)).
    - exact (load_u16_at [] (4 + ra_len a) _ 0%nat eq_refl).
    - unfold u16. apply Z.mod_small. lia. }
  assert (Hrt : rta_type bs = u16 (ra_type a)).
  { rewrite Hbs. unfold rta_type.
    apply load_u16_at. reflexivity. }
  cbn [rta_walk]. fold bs.
  assert (Hok : RTA_OK bs (RTA_SPACE (ra_len a) + L) = true).
  { unfold RTA_OK. rewrite Hrl. unfold sizeof_rtattr.
    destruct (Z.leb_spec 4 (RTA_SPACE (ra_len a) + L)); [|lia].
    destruct (Z.leb_spec 4 (4 + ra_len a)); [|lia].
    destruct (Z.leb_spec (4 + ra_len a) (RTA_SPACE (ra_len a) + L));
      [reflexivity|lia]. }
  rewrite Hok, Hrl, Hrt.
  assert (Hal : RTA_ALIGN (4 + ra_len a) = RTA_SPACE (ra_len a))
    by reflexivity.
  rewrite Hal.
  f_equal.
  - f_equal. change (RTA_LENGTH 0) with 4.
    replace (4 + ra_len a - 4) with (ra_len a) by lia.
    rewrite Hbs, app_assoc.
    rewrite drop_app_length'
      by (rewrite length_app, !le_encode_length; reflexivity).
    rewrite take_app_length'; [reflexivity|].
    rewrite length_take. lia.
  - f_equal.
    + unfold bs. apply drop_app_length'. lia.
    + unfold u32. rewrite Z.mod_small by lia.
      replace (RTA_SPACE (ra_len a) + L - RTA_SPACE (ra_len a)) with L by lia.
      apply int32_small. lia.
Qed.

(** X6. Round trip of the attributes: reading the attribute area of a
    message built by [vnet_netlink_msg_init] and
    [vnet_netlink_msg_add_rtattr] with the RTA_OK / RTA_NEXT iteration
    gives back, in order, the type and the value of every attribute that
    was added, without the padding. *)
Theorem rtattr_round_trip (type flags : Z) (payload : list byte)
    (msg_len : Z) (attrs : list rtattr_arg) :
  0 ≤ msg_len → (Z.to_nat msg_len ≤ length payload)%nat →
  Forall rtattr_arg_ok attrs →
  NLMSG_LENGTH msg_len + 3 + attrs_space attrs < 2 ^ 31 →
  let m := add_rtattrs (vnet_netlink_msg_init type flags payload msg_len)
             attrs in
  let attr_area := drop (Z.to_nat (NLMSG_SPACE msg_len)) (data m) in
  rta_walk (S (length attrs)) attr_area
    (Z.of_nat (length (data m)) - NLMSG_SPACE msg_len)
  = (λ a, (u16 (ra_type a), take (Z.to_nat (ra_len a)) (ra_data a)))
    <$> attrs.
Proof.
  intros H0 Hd Hok Hbound m attr_area.
  assert (HL : NLMSG_LENGTH msg_len = msg_len + 16) by reflexivity.
  rewrite HL in Hbound.
  destruct (attrs_space_length attrs Hok) as (Hal & Ha0 & _).
  destruct (NLMSG_SPACE_aligned msg_len H0 ltac:(lia)) as (Hsb & _).
  unfold sizeof_nlmsghdr in Hsb.
  assert (Hdata : data m
                  = data (vnet_netlink_msg_init type flags payload msg_len)
                    ++ concat (rtattr_space_bytes <$> attrs))
    by (apply add_rtattrs_layout; exact Hok).
  assert (Harea : attr_area = concat (rtattr_space_bytes <$> attrs)).
  { unfold attr_area. rewrite Hdata. apply drop_app_length'.
    symmetry. apply msg_init_length. }
  assert (Hlen : Z.of_nat (length (data m)) - NLMSG_SPACE msg_len
                 = attrs_space attrs).
  { rewrite Hdata, length_app, msg_init_length, Nat2Z.inj_add, Hal.
    rewrite Z2Nat.id by lia. lia. }
  rewrite Harea, Hlen.
  assert (Hb : attrs_space attrs < 2 ^ 31) by lia.
  clear - Hok Hb. induction Hok as [|a attrs Ha Hok IH].
  - reflexivity.
  - cbn [fmap list_fmap concat length attrs_space foldr] in *.
    fold (attrs_space attrs) in *.
    destruct (attrs_space_length attrs Hok) as (_ & Ha0 & _).
    destruct (rtattr_space_bytes_length a Ha) as (_ & Hsb & _).
    unfold sizeof_rtattr in Hsb. pose proof Ha as (Hlen0 & _).
    rewrite rta_walk_step by (try assumption; lia).
    f_equal. apply IH. lia.
Qed.

End NetlinkAttributes.

(** Projections of a world written with the setters. *)
Ltac wproj :=
  cbn [Sync.set_trace Sync.set_sw_interfaces Sync.set_kernel_links
       Sync.set_os Sync.set_pairs Sync.lcp_sync_on Sync.lcp_auto_subint_on
       Sync.sw_interfaces Sync.hw_interfaces Sync.ip_addrs Sync.lip_pool
       Sync.lip_db_by_phy Sync.fib_table_id Sync.nl_tables Sync.kernel_links
       Sync.os Sync.nl_sys Sync.trace].

Section Guard.
Import Sync.

Lemma clib_netns_open_os (name : option string) (w : world) :
  clib_netns_open name w
  = Ok (os_netns_open name (os w)).1 (set_os (os_netns_open name (os w)).2 w).
Proof.
  unfold clib_netns_open, os_netns_open. cbv zeta.
  destruct (match name with
            | Some n => netns_by_name (os w) !! n
            | None => if self_ns_openable (os w) then Some (active_ns (os w))
                      else None
            end) as [ns|]; cbn [fst snd]; [reflexivity|].
  rewrite set_os_id. reflexivity.
Qed.

Lemma clib_setns_os (fd : Z) (w : world) :
  clib_setns fd w = Ok () (set_os (os_setns fd (os w)) w).
Proof.
  unfold clib_setns, modify, os_setns. cbv zeta.
  destruct (ns_fds (os w) !! fd) as [ns|];
    [destruct (setns_permitted (os w))|]; rewrite ?set_os_id; reflexivity.
Qed.

Lemma close_os (fd : Z) (w : world) :
  close fd w = Ok () (set_os (os_close fd (os w)) w).
Proof. reflexivity. Qed.

Lemma set_os_set_os (o o' : os_state) (w : world) :
  set_os o (set_os o' w) = set_os o w.
Proof. reflexivity. Qed.

Lemma netns_enter_os (lip : lcp_itf_pair_t) (w : world) :
  netns_enter lip w
  = Ok ((os_enter lip (os w)).1.1, (os_enter lip (os w)).1.2)
      (set_os (os_enter lip (os w)).2 w).
Proof.
  unfold netns_enter, os_enter.
  destruct (lip_namespace lip) as [ns|].
  2:{ cbn [fst snd]. rewrite set_os_id. reflexivity. }
  rewrite (run_bind _ _ _ _ _ (clib_netns_open_os None w)).
  destruct (os_netns_open None (os w)) as [curr o1]. cbn [fst snd].
  rewrite (run_bind _ _ _ _ _ (clib_netns_open_os (Some ns) _)).
  cbn [os set_os].
  destruct (os_netns_open (Some ns) o1) as [vif o2]. cbn [fst snd].
  rewrite set_os_set_os.
  destruct (vif =? -1); cbn [negb when].
  - reflexivity.
  - rewrite (run_bind _ _ _ _ _ (clib_setns_os vif _)). reflexivity.
Qed.

Lemma netns_leave_os (curr_ns_fd vif_ns_fd : Z) (w : world) :
  netns_leave curr_ns_fd vif_ns_fd w
  = Ok () (set_os (os_leave curr_ns_fd vif_ns_fd (os w)) w).
Proof.
  unfold netns_leave, os_leave. cbv zeta.
  assert (H1 : when (negb (vif_ns_fd =? -1)) (close vif_ns_fd) w
               = Ok () (set_os (if negb (vif_ns_fd =? -1)
                                then os_close vif_ns_fd (os w) else os w) w)).
  { destruct (vif_ns_fd =? -1); cbn [negb when];
      [rewrite set_os_id|]; reflexivity. }
  rewrite (run_bind _ _ _ _ _ H1).
  destruct (curr_ns_fd =? -1); cbn [negb when]; [reflexivity|].
  rewrite (run_bind _ _ _ _ _ (clib_setns_os curr_ns_fd _)).
  reflexivity.
Qed.

(** The namespace the body runs in, and the one the guard ends in. *)
Lemma os_enter_active (lip : lcp_itf_pair_t) (o : os_state) :
  active_ns (os_enter lip o).2 = body_ns lip o.
Proof.
  unfold os_enter, body_ns, switch_target.
  destruct (lip_namespace lip) as [ns|]; [|reflexivity].
  cbn [mbind option_bind].
  unfold os_netns_open.
  destruct (self_ns_openable o) eqn:Hself;
    cbn [netns_by_name ns_fds next_fd active_ns setns_permitted
         self_ns_openable];
    destruct (netns_by_name o !! ns) as [t|] eqn:Ht;
    cbn [option_bind mbind default fst snd negb Z.eqb]; try reflexivity.
  all: rewrite of_nat_ne_m1; cbn [negb]; unfold os_setns;
    cbn [netns_by_name ns_fds next_fd active_ns setns_permitted
         self_ns_openable];
    rewrite lookup_insert_eq;
    destruct (setns_permitted o); reflexivity.
Qed.

End Guard.

Section SyncStateWorld.
Import Sync.

(** Two worlds with the same components are the same. *)
Lemma world_eq (w w' : world) :
  lcp_sync_on w = lcp_sync_on w' →
  lcp_auto_subint_on w = lcp_auto_subint_on w' →
  sw_interfaces w = sw_interfaces w' →
  hw_interfaces w = hw_interfaces w' →
  ip_addrs w = ip_addrs w' →
  lip_pool w = lip_pool w' →
  lip_db_by_phy w = lip_db_by_phy w' →
  fib_table_id w = fib_table_id w' →
  nl_tables w = nl_tables w' →
  kernel_links w = kernel_links w' →
  os w = os w' →
  nl_sys w = nl_sys w' →
  trace w = trace w' →
  w = w'.
Proof. destruct w, w'. cbn. intros. subst. reflexivity. Qed.

(** A run with sync enabled on a pair whose physical interface and its
    superior both resolve: the world it returns in. *)
Lemma sync_state_world (w : world) (lip : lcp_itf_pair_t)
    (sw sup : vnet_sw_interface_t) :
  lcp_sync_on w = true →
  sw_interfaces w !! lip_phy_sw_if_index lip = Some sw →
  sw_interfaces w !! sup_sw_if_index sw = Some sup →
  lcp_itf_pair_sync_state lip w = Ok () (synced_world lip sw sup w).
Proof.
  intros Hs Hsw Hsup.
  set (state := pushed_state sw sup). set (mtu := effective_mtu sw sup).
  unfold lcp_itf_pair_sync_state.
  erewrite run_bind by reflexivity. rewrite Hs. cbn [negb].
  erewrite run_bind by reflexivity. rewrite Hsw.
  rewrite (run_bind _ _ _ _ _ (sw_field_run _ sup_sw_if_index w sw Hsw)).
  erewrite run_bind by reflexivity. rewrite Hsup.
  rewrite (run_bind _ _ _ _ _ (netns_enter_os lip w)).
  pose proof (os_enter_active lip (os w)) as Hact.
  unfold synced_world, os_guarded.
  destruct (os_enter lip (os w)) as [[curr vif] o1]. cbn [fst snd] in *.
  set (w1 := set_os o1 w).
  assert (Hsw' : sw_interfaces w1 !! lip_phy_sw_if_index lip = Some sw)
    by exact Hsw.
  assert (Hsup' : sw_interfaces w1 !! sup_sw_if_index sw = Some sup)
    by exact Hsup.
  rewrite (run_bind _ _ _ _ _ (log_sync_state_run w1 _ _ sw sup Hsw' Hsup')).
  rewrite (run_bind _ _ _ _ _ (sw_field_run _ flags w1 sw Hsw')).
  rewrite (run_bind _ _ _ _ _ (pushed_state_run w1 _ _ sw sup Hsw' Hsup')).
  fold state.
  erewrite (run_bind (lcp_itf_set_link_state lip state)) by reflexivity.
  cbv beta.
  match goal with
  | |- context [(_ ≫= _) ?W] => set (w2 := W)
  end.
  assert (Hi2 : sw_interfaces w2
                = alter (set_admin state) (lip_host_sw_if_index lip)
                    (sw_interfaces w1)) by reflexivity.
  destruct (lookup_alter_keeps mtu_l3 (set_admin state)
              (lip_host_sw_if_index lip) _ _ _ (λ _, eq_refl) Hsw')
    as (sw2 & Hsw2 & Hm2).
  destruct (lookup_alter_keeps mtu_l3 (set_admin state)
              (lip_host_sw_if_index lip) _ _ _ (λ _, eq_refl) Hsup')
    as (sup2 & Hsup2 & Hn2).
  rewrite <- Hi2 in Hsw2, Hsup2.
  rewrite (effective_mtu_run w2 _ _ sw2 sup2 sw sup Hsw2 Hsup2 Hm2 Hn2).
  fold mtu.
  erewrite (run_bind (vnet_sw_interface_set_mtu _ mtu)) by reflexivity.
  erewrite (run_bind (vnet_sw_interface_set_mtu _ mtu)) by reflexivity.
  erewrite (run_bind (vnet_netlink_get_link_mtu _)) by reflexivity.
  cbv beta. subst w2 w1. wproj. rewrite Hact.
  unfold sync_events, synced_links, mtu_push, synced_interfaces.
  destruct (kl_mtu <$> kernel_links w !! (body_ns lip (os w), lip_vif_index lip))
    as [netlink_mtu|] eqn:Hq;
    [destruct (netlink_mtu =? mtu) eqn:Hcmp|]; cbn [negb when].
  all: erewrite run_bind by reflexivity; cbv beta; wproj.
  all: rewrite ?Hact.
  all: match goal with
       | |- context [(_ ≫= _) ?W] =>
           rewrite (run_bind _ _ _ _ _ (set_interface_addr_run lip W))
       end.
  all: rewrite netns_leave_os; wproj; unfold addr_events; wproj.
  all: rewrite ?Hact.
  all: f_equal; apply world_eq; wproj; try reflexivity.
  all: rewrite <- !app_assoc; reflexivity.
Qed.

End SyncStateWorld.

Section GuardFacts.
Import Sync.

Ltac guard_cases lip o :=
  unfold os_guarded, os_enter, os_leave, os_netns_open, os_setns, os_close;
  destruct (lip_namespace lip) as [ns|] eqn:Hns;
  [ destruct (self_ns_openable o) eqn:Hself;
    cbn [netns_by_name ns_fds next_fd active_ns setns_permitted
         self_ns_openable];
    destruct (netns_by_name o !! ns) as [t|] eqn:Ht;
    cbn [fst snd negb Z.eqb Pos.eqb ns_fds next_fd active_ns setns_permitted
         self_ns_openable netns_by_name];
    rewrite ?of_nat_ne_m1; cbn [negb Z.eqb Pos.eqb];
    cbn [ns_fds next_fd active_ns setns_permitted self_ns_openable
         netns_by_name];
    rewrite ?lookup_insert_eq;
    destruct (setns_permitted o) eqn:Hperm;
    cbn [ns_fds next_fd active_ns setns_permitted self_ns_openable
         netns_by_name];
    rewrite ?lookup_delete_ne by lia;
    rewrite ?lookup_insert_ne by lia;
    rewrite ?lookup_insert_eq, ?Hperm;
    cbn [ns_fds next_fd active_ns setns_permitted self_ns_openable
         netns_by_name]
  | cbn [negb Z.eqb Pos.eqb] ].

Lemma os_guarded_active (lip : lcp_itf_pair_t) (o : os_state) :
  active_ns (os_guarded lip o) = final_ns lip o.
Proof.
  unfold final_ns, body_ns, switch_target.
  guard_cases lip o; cbn [mbind option_bind default]; rewrite ?Ht, ?Hperm;
    cbn [mbind option_bind default];
    try reflexivity.
  all: destruct (self_ns_openable o); reflexivity.
Qed.

Lemma os_guarded_none (lip : lcp_itf_pair_t) (o : os_state) :
  lip_namespace lip = None → os_guarded lip o = o.
Proof.
  intros Hn. unfold os_guarded, os_enter, os_leave. rewrite Hn. reflexivity.
Qed.

Lemma os_guarded_setup (lip : lcp_itf_pair_t) (o : os_state) :
  os_same_setup o (os_guarded lip o).
Proof.
  unfold os_same_setup.
  guard_cases lip o; repeat split; first [reflexivity | congruence].
Qed.

(** Every descriptor in the table after the guard was in it before. *)
Lemma os_guarded_fds (lip : lcp_itf_pair_t) (o : os_state) :
  ns_fds (os_guarded lip o) ⊆ ns_fds o.
Proof.
  guard_cases lip o; try reflexivity.
  all: apply map_subseteq_spec; intros i x Hx.
  all: repeat (apply lookup_delete_Some in Hx as [? Hx]).
  all: rewrite ?lookup_insert_ne in Hx by congruence; exact Hx.
Qed.

Lemma os_guarded_fds_fresh (lip : lcp_itf_pair_t) (o : os_state) :
  fds_fresh o → ns_fds (os_guarded lip o) = ns_fds o.
Proof.
  intros Hf.
  pose proof (Hf (next_fd o) ltac:(lia)) as H0.
  pose proof (Hf (S (next_fd o)) ltac:(lia)) as H1.
  guard_cases lip o; try reflexivity.
  all: apply map_eq; intros i.
  all: repeat (rewrite lookup_delete; case_decide; subst;
               [first [rewrite H0 | rewrite H1]; try reflexivity|]).
  all: rewrite ?lookup_insert_ne by congruence; try reflexivity.
Qed.

End GuardFacts.

Section AddrRun.
Import Sync.

Lemma run_transaction_run (r : Netlink.send_result) (w : world) :
  run_transaction r w
  = Ok (Netlink.sr_err r)
      (set_trace (trace w ++ match Netlink.sr_wire r with
                             | Some wire => [EvNetlinkSend (active_ns (os w)) wire]
                             | None => []
                             end) w).
Proof.
  unfold run_transaction. erewrite run_bind by reflexivity.
  destruct (Netlink.sr_wire r) as [wire|].
  - erewrite run_bind by reflexivity. reflexivity.
  - erewrite run_bind by reflexivity. rewrite app_nil_r, set_trace_id.
    reflexivity.
Qed.

Lemma del_ip4_addr_run (ifindex : Z) (addr : list byte) (pfx_len : Z)
    (w : world) :
  let r := Netlink.vnet_netlink_del_ip4_addr (nl_sys w) ifindex addr pfx_len in
  vnet_netlink_del_ip4_addr ifindex addr pfx_len w
  = Ok (Netlink.sr_err r)
      (set_trace (trace w ++ match Netlink.sr_wire r with
                             | Some wire => [EvNetlinkSend (active_ns (os w)) wire]
                             | None => []
                             end) w).
Proof.
  intros r. unfold vnet_netlink_del_ip4_addr.
  erewrite run_bind by reflexivity. apply run_transaction_run.
Qed.

Lemma del_ip6_addr_run (ifindex : Z) (addr : list byte) (pfx_len : Z)
    (w : world) :
  let r := Netlink.vnet_netlink_del_ip6_addr (nl_sys w) ifindex addr pfx_len in
  vnet_netlink_del_ip6_addr ifindex addr pfx_len w
  = Ok (Netlink.sr_err r)
      (set_trace (trace w ++ match Netlink.sr_wire r with
                             | Some wire => [EvNetlinkSend (active_ns (os w)) wire]
                             | None => []
                             end) w).
Proof.
  intros r. unfold vnet_netlink_del_ip6_addr.
  erewrite run_bind by reflexivity. apply run_transaction_run.
Qed.

Lemma ip4_addr_run (w : world) (sw_if_idx : Z) (lip : lcp_itf_pair_t)
    (address : list byte) (address_length is_del : Z) :
  lcp_sync_on w = true → pair_of w sw_if_idx = Some lip →
  lcp_itf_ip4_add_del_interface_addr sw_if_idx address address_length is_del w
  = Ok () (set_os (os_guarded lip (os w))
             (set_trace (trace w ++ addr_change_events false lip address
                                      address_length is_del w) w)).
Proof.
  intros Hs Hp. unfold lcp_itf_ip4_add_del_interface_addr.
  erewrite run_bind by reflexivity. rewrite Hs. cbn [negb].
  rewrite pair_lookup_run, Hp.
  rewrite (run_bind _ _ _ _ _ (netns_enter_os lip w)).
  pose proof (os_enter_active lip (os w)) as Hact.
  unfold os_guarded, addr_change_events. cbv zeta.
  destruct (os_enter lip (os w)) as [[curr vif] o1]. cbn [fst snd] in *.
  destruct (is_del =? 0); cbn [negb].
  - erewrite run_bind by reflexivity.
    rewrite netns_leave_os. wproj. rewrite Hact.
    first [reflexivity | f_equal; apply world_eq; reflexivity].
  - erewrite run_bind
      by (erewrite run_bind by apply del_ip4_addr_run; reflexivity).
    rewrite netns_leave_os. wproj. rewrite Hact.
    first [reflexivity | f_equal; apply world_eq; reflexivity].
Qed.

Lemma ip6_addr_run (w : world) (sw_if_idx : Z) (lip : lcp_itf_pair_t)
    (address : list byte) (address_length is_del : Z) :
  lcp_sync_on w = true → pair_of w sw_if_idx = Some lip →
  lcp_itf_ip6_add_del_interface_addr sw_if_idx address address_length is_del w
  = Ok () (set_os (os_guarded lip (os w))
             (set_trace (trace w ++ addr_change_events true lip address
                                      address_length is_del w) w)).
Proof.
  intros Hs Hp. unfold lcp_itf_ip6_add_del_interface_addr.
  erewrite run_bind by reflexivity. rewrite Hs. cbn [negb].
  rewrite pair_lookup_run, Hp.
  rewrite (run_bind _ _ _ _ _ (netns_enter_os lip w)).
  pose proof (os_enter_active lip (os w)) as Hact.
  unfold os_guarded, addr_change_events. cbv zeta.
  destruct (os_enter lip (os w)) as [[curr vif] o1]. cbn [fst snd] in *.
  destruct (is_del =? 0); cbn [negb].
  - erewrite run_bind by reflexivity.
    rewrite netns_leave_os. wproj. rewrite Hact.
    first [reflexivity | f_equal; apply world_eq; reflexivity].
  - erewrite run_bind
      by (erewrite run_bind by apply del_ip6_addr_run; reflexivity).
    rewrite netns_leave_os. wproj. rewrite Hact.
    first [reflexivity | f_equal; apply world_eq; reflexivity].
Qed.

End AddrRun.

Section SyncStateFrame.
Import Sync.

Lemma alter_keeps_fmap `{Countable K} {A B} (g : A → B) (f : A → A)
    (j i : K) (m : gmap K A) :
  (∀ x, g (f x) = g x) → g <$> alter f j m !! i = g <$> m !! i.
Proof.
  intros Hg. rewrite lookup_alter. case_decide; [subst|reflexivity].
  destruct (m !! i) as [x|]; [|reflexivity].
  cbn [fmap option_fmap option_map]. f_equal. apply Hg.
Qed.

(** The two ways a run ends: without having done anything but, at most,
    the entering of the namespace; or at its end. *)
Lemma sync_state_final (w : world) (lip : lcp_itf_pair_t) :
  (∃ o, final (lcp_itf_pair_sync_state lip w) = set_os o w)
  ∨ (∃ sw sup,
       lcp_sync_on w = true
       ∧ sw_interfaces w !! lip_phy_sw_if_index lip = Some sw
       ∧ sw_interfaces w !! sup_sw_if_index sw = Some sup
       ∧ lcp_itf_pair_sync_state lip w = Ok () (synced_world lip sw sup w)).
Proof.
  destruct (lcp_sync_on w) eqn:Hs.
  2:{ left. exists (os w). rewrite sync_state_disabled by assumption.
      cbn [final]. symmetry. apply set_os_id. }
  destruct (sw_interfaces w !! lip_phy_sw_if_index lip) as [sw|] eqn:Hsw.
  2:{ left. exists (os w). rewrite sync_state_no_phy by assumption.
      cbn [final]. symmetry. apply set_os_id. }
  destruct (sw_interfaces w !! sup_sw_if_index sw) as [sup|] eqn:Hsup.
  - right. exists sw, sup. repeat split; try assumption.
    apply sync_state_world; assumption.
  - left. destruct (sync_state_no_parent w lip sw Hs Hsw Hsup)
      as (w1 & Hr & Hw1 & _).
    exists (os w1). rewrite Hr. cbn [final]. symmetry. exact Hw1.
Qed.

(** X7. What a run of [lcp_itf_pair_sync_state] does not touch, however
    it ends: the toggles, the hardware interfaces, the configured
    addresses, the pair registry, the forwarding tables and their
    host-side records; every software interface other than the physical
    interface and the mirror of the pair; the index, the superior, the
    hardware interface and the sub-id of every software interface, so
    that none is made or removed; and every kernel link other than the
    link of the pair in the namespace the body runs in. *)
Theorem sync_state_frame (w : world) (lip : lcp_itf_pair_t) :
  let w' := final (lcp_itf_pair_sync_state lip w) in
  same_config w w'
  ∧ (∀ i, i ≠ lip_phy_sw_if_index lip → i ≠ lip_host_sw_if_index lip →
       sw_interfaces w' !! i = sw_interfaces w !! i)
  ∧ (∀ i, sw_identity <$> sw_interfaces w' !! i
          = sw_identity <$> sw_interfaces w !! i)
  ∧ (∀ k, k ≠ (body_ns lip (os w), lip_vif_index lip) →
       kernel_links w' !! k = kernel_links w !! k).
Proof.
  intros w'. subst w'.
  destruct (sync_state_final w lip) as [[o Ho]|(sw & sup & _ & _ & _ & Hr)].
  - rewrite Ho. unfold same_config. wproj. repeat split; reflexivity.
  - rewrite Hr. cbn [final]. unfold synced_world, same_config. wproj.
    split; [repeat split; reflexivity|].
    split; [|split].
    + intros i Hp Hh. unfold synced_interfaces.
      rewrite !lookup_alter_ne by congruence. reflexivity.
    + intros i. unfold synced_interfaces.
      rewrite !alter_keeps_fmap by reflexivity. reflexivity.
    + intros k Hk. unfold synced_links.
      destruct (mtu_push _ _ _ _); [reflexivity|].
      rewrite lookup_alter_ne by congruence. reflexivity.
Qed.

End SyncStateFrame.

Section GuardedFunctions.
Import Sync.

Lemma events_since_set_os {A} (w : world) (o : os_state) (r : result A) :
  final r = set_os o w → events_since w r = [].
Proof.
  intros H. unfold events_since. rewrite H. cbn [trace set_os].
  apply drop_all.
Qed.

Lemma addr_handler_no_pair (w : world) (sw_if_idx : Z) (address : list byte)
    (address_length is_del : Z) :
  lcp_sync_on w = false ∨ pair_of w sw_if_idx = None →
  lcp_itf_ip4_add_del_interface_addr sw_if_idx address address_length is_del w
  = Ok () w
  ∧ lcp_itf_ip6_add_del_interface_addr sw_if_idx address address_length
      is_del w = Ok () w.
Proof.
  intros H.
  unfold lcp_itf_ip4_add_del_interface_addr,
    lcp_itf_ip6_add_del_interface_addr.
  split; erewrite run_bind by reflexivity;
    (destruct (lcp_sync_on w); cbn [negb]; [|reflexivity]);
    rewrite pair_lookup_run;
    destruct H as [H|H]; try discriminate H; rewrite H; reflexivity.
Qed.

(** The worlds the three guarded functions return in. *)
Lemma guarded_result (w w' : world) (lip : lcp_itf_pair_t) (sw_if_idx : Z)
    (address : list byte) (address_length is_del : Z) :
  lcp_itf_pair_sync_state lip w = Ok () w'
  ∨ lcp_itf_ip4_add_del_interface_addr sw_if_idx address address_length
      is_del w = Ok () w'
  ∨ lcp_itf_ip6_add_del_interface_addr sw_if_idx address address_length
      is_del w = Ok () w' →
  os w' = os w ∨ ∃ lip', os w' = os_guarded lip' (os w).
Proof.
  intros [Hr|Hr].
  - destruct (lcp_sync_on w) eqn:Hs.
    2:{ rewrite sync_state_disabled in Hr by assumption.
        injection Hr as <-. left. reflexivity. }
    destruct (sw_interfaces w !! lip_phy_sw_if_index lip) as [sw|] eqn:Hsw.
    2:{ rewrite sync_state_no_phy in Hr by assumption.
        injection Hr as <-. left. reflexivity. }
    destruct (sw_interfaces w !! sup_sw_if_index sw) as [sup|] eqn:Hsup.
    + rewrite (sync_state_world w lip sw sup Hs Hsw Hsup) in Hr.
      injection Hr as <-. right. exists lip. reflexivity.
    + destruct (sync_state_no_parent w lip sw Hs Hsw Hsup) as (w1 & Hf & _).
      rewrite Hf in Hr. discriminate Hr.
  - destruct (lcp_sync_on w) eqn:Hs.
    2:{ destruct (addr_handler_no_pair w sw_if_idx address address_length
                    is_del (or_introl Hs)) as [H4 H6].
        rewrite H4, H6 in Hr. left.
        destruct Hr as [Hr|Hr]; injection Hr as <-; reflexivity. }
    destruct (pair_of w sw_if_idx) as [lip'|] eqn:Hp.
    2:{ destruct (addr_handler_no_pair w sw_if_idx address address_length
                    is_del (or_intror Hp)) as [H4 H6].
        rewrite H4, H6 in Hr. left.
        destruct Hr as [Hr|Hr]; injection Hr as <-; reflexivity. }
    rewrite (ip4_addr_run w sw_if_idx lip' _ _ _ Hs Hp),
      (ip6_addr_run w sw_if_idx lip' _ _ _ Hs Hp) in Hr.
    right. exists lip'.
    destruct Hr as [Hr|Hr]; injection Hr as <-; reflexivity.
Qed.

(** X9. [lcp_itf_pair_sync_state] and the two address handlers close the
    namespace descriptors they open: when one of them returns, every
    descriptor in the table of the process was in it before, for the
    same namespace; and when the descriptors the process is given are
    new ones, the table is as it was. *)
Theorem guarded_functions_close_descriptors (w w' : world)
    (lip : lcp_itf_pair_t) (sw_if_idx : Z) (address : list byte)
    (address_length is_del : Z) :
  lcp_itf_pair_sync_state lip w = Ok () w'
  ∨ lcp_itf_ip4_add_del_interface_addr sw_if_idx address address_length
      is_del w = Ok () w'
  ∨ lcp_itf_ip6_add_del_interface_addr sw_if_idx address address_length
      is_del w = Ok () w' →
  ns_fds (os w') ⊆ ns_fds (os w)
  ∧ (fds_fresh (os w) → ns_fds (os w') = ns_fds (os w)).
Proof.
  intros Hr.
  destruct (guarded_result w w' lip sw_if_idx address address_length is_del Hr)
    as [Ho|[lip' Ho]]; rewrite Ho.
  - split; [reflexivity | intros _; reflexivity].
  - split; [apply os_guarded_fds | apply os_guarded_fds_fresh].
Qed.

Lemma sync_events_ns (lip : lcp_itf_pair_t) (state mtu : Z) (w : world)
    (e : event) (ns : Z) :
  e ∈ sync_events lip state mtu w → event_ns e = Some ns →
  ns = body_ns lip (os w).
Proof.
  unfold sync_events. cbv zeta. intros He Hns.
  apply elem_of_app in He as [He|He].
  { repeat (apply elem_of_cons in He as [->|He]);
      try discriminate Hns; try (injection Hns as <-; reflexivity).
    inversion He. }
  apply elem_of_app in He as [He|He].
  - unfold mtu_push in He.
    destruct (kl_mtu <$> _) as [q|]; [|inversion He].
    destruct (q =? mtu); [inversion He|].
    apply list_elem_of_singleton in He as ->.
    injection Hns as <-. reflexivity.
  - unfold addr_events in He. apply list_elem_of_fmap in He as (a & -> & _).
    injection Hns as <-. reflexivity.
Qed.

Lemma addr_change_events_ns (ip6 : bool) (lip : lcp_itf_pair_t)
    (address : list byte) (address_length is_del : Z) (w : world)
    (e : event) (ns : Z) :
  e ∈ addr_change_events ip6 lip address address_length is_del w →
  event_ns e = Some ns → ns = body_ns lip (os w).
Proof.
  unfold addr_change_events. cbv zeta. intros He Hns.
  destruct (negb (is_del =? 0)).
  - destruct (Netlink.sr_wire _) as [wire|]; [|inversion He].
    apply list_elem_of_singleton in He as ->.
    injection Hns as <-. reflexivity.
  - apply list_elem_of_singleton in He as ->.
    injection Hns as <-. reflexivity.
Qed.

(** X10. Every netlink transaction of a run of
    [lcp_itf_pair_sync_state], and the transaction of an address event
    on an interface with a pair, is made in one namespace: the one the
    pair names when it can be opened and entered, and the namespace of
    the caller when the pair names none, when the named one cannot be
    opened, or when the switch is refused. *)
Theorem guarded_transactions_in_pair_namespace (w : world)
    (lip : lcp_itf_pair_t) (sw_if_idx : Z) (address : list byte)
    (address_length is_del : Z) (e : event) (ns : Z) :
  event_ns e = Some ns →
  (e ∈ events_since w (lcp_itf_pair_sync_state lip w) →
   ns = body_ns lip (os w))
  ∧ (pair_of w sw_if_idx = Some lip →
     e ∈ events_since w
           (lcp_itf_ip4_add_del_interface_addr sw_if_idx address
              address_length is_del w)
     ∨ e ∈ events_since w
             (lcp_itf_ip6_add_del_interface_addr sw_if_idx address
                address_length is_del w) →
     ns = body_ns lip (os w))
  ∧ (∀ n t, lip_namespace lip = Some n →
       netns_by_name (os w) !! n = Some t →
       setns_permitted (os w) = true → body_ns lip (os w) = t)
  ∧ (lip_namespace lip = None
     ∨ (∃ n, lip_namespace lip = Some n ∧ netns_by_name (os w) !! n = None)
     ∨ setns_permitted (os w) = false →
     body_ns lip (os w) = active_ns (os w)).
Proof.
  intros Hns. split; [|split; [|split]].
  - intros He.
    destruct (sync_state_final w lip) as [[o Ho]|(sw & sup & _ & _ & _ & Hr)].
    + rewrite (events_since_set_os w o _ Ho) in He. inversion He.
    + rewrite Hr in He. unfold events_since, synced_world in He.
      cbn [final] in He. wproj. cbn [trace set_os set_kernel_links
        set_sw_interfaces set_trace] in He.
      rewrite drop_app_length in He.
      eapply sync_events_ns; eassumption.
  - intros Hp He.
    destruct (lcp_sync_on w) eqn:Hs.
    2:{ destruct (addr_handler_no_pair w sw_if_idx address address_length
                    is_del (or_introl Hs)) as [H4 H6].
        rewrite H4, H6 in He. unfold events_since in He. cbn [final] in He.
        rewrite drop_all in He. destruct He as [He|He]; inversion He. }
    rewrite (ip4_addr_run w sw_if_idx lip _ _ _ Hs Hp),
      (ip6_addr_run w sw_if_idx lip _ _ _ Hs Hp) in He.
    unfold events_since in He.
    cbn [final trace set_os set_trace] in He.
    rewrite !drop_app_length in He.
    destruct He as [He|He]; eapply addr_change_events_ns; eassumption.
  - intros n t Hn Ht Hperm. unfold body_ns, switch_target.
    rewrite Hn. cbn [mbind option_bind]. rewrite Ht.
    cbn [mbind option_bind]. rewrite Hperm. reflexivity.
  - unfold body_ns, switch_target.
    intros [Hn|[(n & Hn & Ht)|Hperm]].
    + rewrite Hn. reflexivity.
    + rewrite Hn. cbn [mbind option_bind]. rewrite Ht. reflexivity.
    + destruct (lip_namespace lip) as [n|]; [|reflexivity].
      cbn [mbind option_bind].
      destruct (netns_by_name (os w) !! n); [|reflexivity].
      cbn [mbind option_bind]. rewrite Hperm. reflexivity.
Qed.

End GuardedFunctions.

Section SyncStateAgain.
Import Sync.

Lemma set_admin_idem (state : Z) (s : vnet_sw_interface_t) :
  set_admin state (set_admin state s) = set_admin state s.
Proof.
  unfold set_admin, with_flags. cbn [flags sw_if_index sup_sw_if_index
    hw_if_index mtu_l3 sub_id].
  f_equal. destruct (state =? 0).
  - rewrite <- Z.land_assoc, Z.land_diag. reflexivity.
  - rewrite <- Z.lor_assoc, Z.lor_diag. reflexivity.
Qed.

Lemma synced_interfaces_idem (lip : lcp_itf_pair_t) (state mtu : Z)
    (m : gmap Z vnet_sw_interface_t) :
  synced_interfaces lip state mtu (synced_interfaces lip state mtu m)
  = synced_interfaces lip state mtu m.
Proof.
  apply map_eq. intros i. unfold synced_interfaces.
  generalize (lip_phy_sw_if_index lip) (lip_host_sw_if_index lip).
  intros p h. rewrite !lookup_alter.
  repeat case_decide; subst; try congruence;
    try (match goal with |- context [m !! ?k] => destruct (m !! k) as [s|] end);
    cbn [fmap option_fmap option_map]; try reflexivity.
  all: f_equal; unfold with_mtu, set_admin, with_flags;
    cbn [flags sw_if_index sup_sw_if_index hw_if_index mtu_l3 sub_id];
    f_equal.
  all: try reflexivity.
  all: destruct (state =? 0);
    rewrite <- ?Z.land_assoc, ?Z.land_diag, <- ?Z.lor_assoc, ?Z.lor_diag;
    reflexivity.
Qed.

(** The state a second run computes is the state the first one pushed. *)
Lemma pushed_state_again (lip : lcp_itf_pair_t)
    (sw sup sw1 sup1 : vnet_sw_interface_t) :
  let state := pushed_state sw sup in
  (flags sw1 = flags sw ∨ flags sw1 = flags (set_admin state sw)) →
  (flags sup1 = flags sup ∨ flags sup1 = flags (set_admin state sup)) →
  pushed_state sw1 sup1 = state.
Proof.
  intros state H1 H2. subst state.
  rewrite !pushed_state_by_spec. unfold state_by_spec.
  assert (Ha : admin_up sw1 = admin_up sw
               ∨ admin_up sw1 = state_by_spec sw sup).
  { destruct H1 as [H1|H1]; [left; unfold admin_up; rewrite H1; reflexivity|].
    right. unfold admin_up at 1. rewrite H1.
    change (Z.testbit (flags (set_admin ?x ?s)) 0)
      with (admin_up (set_admin x s)).
    rewrite admin_up_set_admin, pushed_state_by_spec.
    destruct (state_by_spec sw sup); reflexivity. }
  assert (Hb : admin_up sup1 = admin_up sup
               ∨ admin_up sup1 = state_by_spec sw sup).
  { destruct H2 as [H2|H2]; [left; unfold admin_up; rewrite H2; reflexivity|].
    right. unfold admin_up at 1. rewrite H2.
    change (Z.testbit (flags (set_admin ?x ?s)) 0)
      with (admin_up (set_admin x s)).
    rewrite admin_up_set_admin, pushed_state_by_spec.
    destruct (state_by_spec sw sup); reflexivity. }
  unfold state_by_spec in Ha, Hb.
  destruct Ha as [Ha|Ha], Hb as [Hb|Hb]; rewrite Ha, Hb;
    destruct (admin_up sw), (admin_up sup); reflexivity.
Qed.

(** X8. A second run of [lcp_itf_pair_sync_state] on the same pair,
    started where a first run returned, returns too, pushes the same
    admin state and sets the same MTU, and leaves every software
    interface and every kernel link as the first run left them. *)
Theorem sync_state_idempotent (w w1 : world) (lip : lcp_itf_pair_t) :
  lcp_itf_pair_sync_state lip w = Ok () w1 →
  ∃ w2, lcp_itf_pair_sync_state lip w1 = Ok () w2
    ∧ sw_interfaces w2 = sw_interfaces w1
    ∧ kernel_links w2 = kernel_links w1
    ∧ List.filter is_set_link_state (events_since w1 (Ok () w2))
      = List.filter is_set_link_state (events_since w (Ok () w1))
    ∧ List.filter is_set_mtu (events_since w1 (Ok () w2))
      = List.filter is_set_mtu (events_since w (Ok () w1)).
Proof.
  intros Hr.
  assert (Hnil : ∀ w0 : world, events_since w0 (Ok () w0) = [])
    by (intros w0; unfold events_since; cbn [final]; apply drop_all).
  destruct (lcp_sync_on w) eqn:Hs.
  2:{ rewrite sync_state_disabled in Hr by assumption. injection Hr as <-.
      exists w. rewrite sync_state_disabled by assumption.
      repeat split; reflexivity. }
  destruct (sw_interfaces w !! lip_phy_sw_if_index lip) as [sw|] eqn:Hsw.
  2:{ rewrite sync_state_no_phy in Hr by assumption. injection Hr as <-.
      exists w. rewrite sync_state_no_phy by assumption.
      repeat split; reflexivity. }
  destruct (sw_interfaces w !! sup_sw_if_index sw) as [sup|] eqn:Hsup.
  2:{ destruct (sync_state_no_parent w lip sw Hs Hsw Hsup) as (w0 & Hf & _).
      rewrite Hf in Hr. discriminate Hr. }
  rewrite (sync_state_world w lip sw sup Hs Hsw Hsup) in Hr.
  injection Hr as <-.
  set (state := pushed_state sw sup). set (mtu := effective_mtu sw sup).
  set (w1 := synced_world lip sw sup w).
  assert (Hi1 : sw_interfaces w1
                = synced_interfaces lip state mtu (sw_interfaces w))
    by reflexivity.
  assert (Hk1 : kernel_links w1 = synced_links lip mtu w) by reflexivity.
  assert (Ho1 : os w1 = os_guarded lip (os w)) by reflexivity.
  assert (Ht1 : trace w1 = trace w ++ sync_events lip state mtu w)
    by reflexivity.
  assert (Hs1 : lcp_sync_on w1 = true) by exact Hs.
  destruct (synced_lookup lip state mtu _ _ _ Hsw)
    as (sw1 & Hsw1 & Hsupidx & Hm1 & Hf1).
  destruct (synced_lookup lip state mtu _ _ _ Hsup)
    as (sup1 & Hsup1 & _ & Hn1 & Hg1).
  rewrite <- Hi1 in Hsw1, Hsup1. rewrite <- Hsupidx in Hsup1.
  assert (Hstate : pushed_state sw1 sup1 = state).
  { apply (pushed_state_again lip).
    - rewrite Hf1.
      destruct (decide (lip_phy_sw_if_index lip = lip_host_sw_if_index lip));
        [right|left]; reflexivity.
    - rewrite Hg1.
      destruct (decide (sup_sw_if_index sw = lip_host_sw_if_index lip));
        [right|left]; reflexivity. }
  assert (Hmtu : effective_mtu sw1 sup1 = mtu).
  { apply effective_mtu_idem.
    - rewrite Hm1. rewrite decide_True by (left; reflexivity). reflexivity.
    - rewrite Hn1.
      destruct (decide (sup_sw_if_index sw = lip_phy_sw_if_index lip
                        ∨ sup_sw_if_index sw = lip_host_sw_if_index lip));
        [left|right]; reflexivity. }
  exists (synced_world lip sw1 sup1 w1).
  split; [apply sync_state_world; assumption|].
  unfold synced_world at 1 2 3 4. rewrite Hstate, Hmtu. fold state mtu.
  cbn [sw_interfaces kernel_links trace set_os set_kernel_links
       set_sw_interfaces set_trace].
  assert (Hbody : body_ns lip (os w1) = body_ns lip (os w)).
  { apply body_ns_stable; rewrite Ho1.
    - apply os_guarded_setup.
    - apply os_guarded_active. }
  split; [rewrite Hi1; apply synced_interfaces_idem|].
  split.
  { unfold synced_links at 1. rewrite Hbody.
    rewrite (mtu_push_after_sync lip mtu w w1 Hk1). reflexivity. }
  rewrite (events_since_app w1 _ _ (sync_events lip state mtu w1))
    by reflexivity.
  rewrite (events_since_app w w1 _ (sync_events lip state mtu w) Ht1).
  rewrite !filter_sync_events_state, !filter_sync_events_mtu.
  split; reflexivity.
Qed.

End SyncStateAgain.

Section AddrChange.
Import Sync.
Import Netlink.

(** X11. An IPv4 or IPv6 address event with sync enabled. On an
    interface without a pair the handler does nothing. On an interface
    with a pair it returns, whatever the kernel answers, after one
    transaction in the namespace of the pair: the add for the vif index
    of the pair, or the RTM_DELADDR request for that index, prefix
    length and address; when socket(2) or bind(2) fails, nothing is
    sent. It ends in the namespace a run of [lcp_itf_pair_sync_state]
    ends in, and changes no interface, no kernel link and nothing of the
    configuration. *)
Theorem addr_change_transaction (w : world) (ip6 : bool) (sw_if_idx : Z)
    (address : list byte) (address_length is_del : Z) :
  lcp_sync_on w = true →
  let handler :=
    if ip6 then lcp_itf_ip6_add_del_interface_addr
    else lcp_itf_ip4_add_del_interface_addr in
  let r := handler sw_if_idx address address_length is_del w in
  (pair_of w sw_if_idx = None → r = Ok () w)
  ∧ (∀ lip, pair_of w sw_if_idx = Some lip →
       let ns := body_ns lip (os w) in
       ∃ w', r = Ok () w'
         ∧ (is_del = 0 →
            events_since w r
            = [EvNetlinkAddAddr ns ip6 (lip_vif_index lip) address
                 address_length])
         ∧ (is_del ≠ 0 →
            (∀ sock, sys_socket (nl_sys w) = SysOk sock →
               sys_bind (nl_sys w) = SysOk () →
               length address = (if ip6 then 16%nat else 4%nat) →
               events_since w r
               = [EvNetlinkSend ns
                    (del_addr_wire (if ip6 then AF_INET6 else AF_INET)
                       (u32 (lip_vif_index lip)) (u8 address_length)
                       address)])
            ∧ ((∃ e, sys_socket (nl_sys w) = SysErr e)
               ∨ (∃ e, sys_bind (nl_sys w) = SysErr e) →
               events_since w r = []))
         ∧ active_ns (os w') = final_ns lip (os w)
         ∧ same_config w w'
         ∧ sw_interfaces w' = sw_interfaces w
         ∧ kernel_links w' = kernel_links w).
Proof.
  intros Hs handler r. split.
  - intros Hp. subst r handler.
    destruct (addr_handler_no_pair w sw_if_idx address address_length is_del
                (or_intror Hp)) as [H4 H6].
    destruct ip6; assumption.
  - intros lip Hp ns.
    set (w' := set_os (os_guarded lip (os w))
                 (set_trace (trace w ++ addr_change_events ip6 lip address
                                          address_length is_del w) w)).
    assert (Hr : r = Ok () w').
    { subst r handler w'. destruct ip6;
        [apply ip6_addr_run | apply ip4_addr_run]; assumption. }
    exists w'. split; [exact Hr|].
    assert (He : events_since w r
                 = addr_change_events ip6 lip address address_length is_del w).
    { rewrite Hr. apply events_since_app. reflexivity. }
    rewrite He. unfold addr_change_events. cbv zeta. fold ns.
    split; [intros ->; reflexivity|].
    split.
    { intros Hd. apply Z.eqb_neq in Hd. rewrite Hd. cbn [negb]. split.
      - intros sock Hsock Hbind Hlen.
        destruct ip6.
        + unfold vnet_netlink_del_ip6_addr. cbn [sr_wire].
          rewrite (msg_send_wire _ _ _ sock Hsock Hbind).
          do 16 (destruct address as [|? address]; [discriminate Hlen|]).
          destruct address; [|discriminate Hlen].
          rewrite del_ip6_addr_msg_wire. reflexivity.
        + unfold vnet_netlink_del_ip4_addr. cbn [sr_wire].
          rewrite (msg_send_wire _ _ _ sock Hsock Hbind).
          do 4 (destruct address as [|? address]; [discriminate Hlen|]).
          destruct address; [|discriminate Hlen].
          rewrite del_ip4_addr_msg_wire. reflexivity.
      - intros Hfail.
        assert (Hw : ∀ m, sr_wire (vnet_netlink_msg_send (nl_sys w) m None)
                          = None).
        { intros m. unfold vnet_netlink_msg_send.
          destruct Hfail as [[e Hf]|[e Hf]].
          - rewrite Hf. reflexivity.
          - destruct (sys_socket (nl_sys w)); [|reflexivity].
            rewrite Hf. reflexivity. }
        destruct ip6;
          [unfold vnet_netlink_del_ip6_addr | unfold vnet_netlink_del_ip4_addr];
          cbn [sr_wire]; rewrite Hw; reflexivity. }
    subst w'. cbn [os set_os sw_interfaces kernel_links set_trace].
    split; [apply os_guarded_active|].
    split; [unfold same_config; repeat split; reflexivity|].
    split; reflexivity.
Qed.

End AddrChange.

Section Dispatch.
Import Sync.

Lemma is_sub_run (sw_if_idx : Z) (w : world) :
  vnet_sw_interface_is_sub sw_if_idx w
  = Ok (match sw_interfaces w !! sw_if_idx with
        | Some s => negb (sw_if_idx =? sup_sw_if_index s)
        | None => false
        end) w.
Proof. reflexivity. Qed.

Lemma sync_state_hw_run (w : world) (i : Z) (hi : vnet_hw_interface_t) :
  hw_interfaces w !! i = Some hi →
  lcp_itf_pair_sync_state_hw (Some i) w
  = sync_each
      (omap (pair_of w)
         (match hw_interfaces w !! hi_hw_if_index hi with
          | Some h => hi_walk_sw h
          | None => []
          end)) w.
Proof.
  intros Hhi.
  assert (Hf : ∀ {A} (f : vnet_hw_interface_t → A),
            hw_field (Some i) f w = Ok (f hi) w).
  { intros A f. unfold hw_field. cbn. rewrite Hhi. reflexivity. }
  unfold lcp_itf_pair_sync_state_hw.
  rewrite (run_bind _ _ _ _ _ (Hf _ _)), (run_bind _ _ _ _ _ (Hf _ _)).
  unfold vnet_hw_interface_walk_sw. erewrite run_bind by reflexivity.
  apply walk_hw_cb_sync_each.
Qed.

(** The part the two handlers share: the walk over the hardware
    interface of an interface that is not a sub-interface. *)
Lemma sync_children_run (w : world) (sw_if_idx : Z) :
  (si ← vnet_get_sw_interface_or_null sw_if_idx;
   match si with
   | None => mret ()
   | Some _ =>
       hw ← sw_field si hw_if_index;
       hi ← vnet_get_hw_interface_or_null hw;
       match hi with
       | None => mret ()
       | Some _ =>
           _ ← sw_field si sw_if_index;
           _ ← hw_field hi hi_sw_if_index;
           lcp_itf_pair_sync_state_hw hi
       end
   end) w
  = match sw_interfaces w !! sw_if_idx with
    | None => Ok () w
    | Some si =>
        match hw_interfaces w !! hw_if_index si with
        | None => Ok () w
        | Some hi =>
            sync_each
              (omap (pair_of w)
                 (match hw_interfaces w !! hi_hw_if_index hi with
                  | Some h => hi_walk_sw h
                  | None => []
                  end)) w
        end
    end.
Proof.
  erewrite run_bind by reflexivity.
  destruct (sw_interfaces w !! sw_if_idx) as [si|] eqn:Hsi; [|reflexivity].
  rewrite (run_bind _ _ _ _ _ (sw_field_run _ hw_if_index w si Hsi)).
  erewrite run_bind by reflexivity.
  destruct (hw_interfaces w !! hw_if_index si) as [hi|] eqn:Hhi;
    [|reflexivity].
  rewrite (run_bind _ _ _ _ _ (sw_field_run _ sw_if_index w si Hsi)).
  assert (Hf : hw_field (Some (hw_if_index si)) hi_sw_if_index w
               = Ok (hi_sw_if_index hi) w).
  { unfold hw_field. cbn. rewrite Hhi. reflexivity. }
  rewrite (run_bind _ _ _ _ _ Hf).
  apply sync_state_hw_run. exact Hhi.
Qed.

(** X12. An MTU change with sync enabled. On an interface that is no
    longer in the pool it does nothing. On a sub-interface it is one run
    of [lcp_itf_pair_sync_state] on the pair of that interface, and
    nothing without a pair. On any other interface whose hardware
    interface resolves it is a run of [lcp_itf_pair_sync_state] on every
    interface of the hardware interface's walk that has a pair, in
    order, whether the interface itself has a pair or not; and nothing
    when the hardware interface does not resolve. *)
Theorem mtu_change_dispatch (w : world) (sw_if_idx new_flags : Z) :
  lcp_sync_on w = true →
  (sw_interfaces w !! sw_if_idx = None →
   lcp_itf_mtu_change sw_if_idx new_flags w = Ok () w)
  ∧ (∀ si, sw_interfaces w !! sw_if_idx = Some si →
       sup_sw_if_index si ≠ sw_if_idx →
       lcp_itf_mtu_change sw_if_idx new_flags w
       = match pair_of w sw_if_idx with
         | Some lip => lcp_itf_pair_sync_state lip w
         | None => Ok () w
         end)
  ∧ (∀ si hi, sw_interfaces w !! sw_if_idx = Some si →
       sup_sw_if_index si = sw_if_idx →
       hw_interfaces w !! hw_if_index si = Some hi →
       hi_hw_if_index hi = hw_if_index si →
       lcp_itf_mtu_change sw_if_idx new_flags w
       = sync_each (omap (pair_of w) (hi_walk_sw hi)) w)
  ∧ (∀ si, sw_interfaces w !! sw_if_idx = Some si →
       sup_sw_if_index si = sw_if_idx →
       hw_interfaces w !! hw_if_index si = None →
       lcp_itf_mtu_change sw_if_idx new_flags w = Ok () w).
Proof.
  intros Hs. unfold lcp_itf_mtu_change.
  erewrite run_bind by reflexivity. rewrite Hs. cbn [negb].
  rewrite (run_bind _ _ _ _ _ (is_sub_run sw_if_idx w)).
  split; [|split; [|split]].
  - intros Hsi. rewrite Hsi. rewrite sync_children_run, Hsi. reflexivity.
  - intros si Hsi Hsub. rewrite Hsi.
    destruct (Z.eqb_spec sw_if_idx (sup_sw_if_index si)) as [He|_];
      [congruence|]. cbn [negb].
    rewrite pair_lookup_run. destruct (pair_of w sw_if_idx); reflexivity.
  - intros si hi Hsi Hsub Hhi Hidx. rewrite Hsi, Hsub, Z.eqb_refl.
    cbn [negb]. rewrite sync_children_run, Hsi, Hhi, Hidx, Hhi. reflexivity.
  - intros si Hsi Hsub Hhi. rewrite Hsi, Hsub, Z.eqb_refl.
    cbn [negb]. rewrite sync_children_run, Hsi, Hhi. reflexivity.
Qed.

(** X13. [lcp_itf_admin_state_change] is [lcp_itf_mtu_change] behind one
    more test: on an interface that has a pair the two do the same,
    whatever their flags argument, and on an interface without a pair
    the admin handler does nothing. *)
Theorem admin_state_change_is_guarded_mtu_change (w : world)
    (sw_if_idx flags1 flags2 : Z) :
  lcp_itf_admin_state_change sw_if_idx flags1 w
  = match pair_of w sw_if_idx with
    | Some _ => lcp_itf_mtu_change sw_if_idx flags2 w
    | None => Ok () w
    end.
Proof.
  unfold lcp_itf_admin_state_change, lcp_itf_mtu_change.
  erewrite !run_bind by reflexivity.
  destruct (lcp_sync_on w); cbn [negb].
  2:{ destruct (pair_of w sw_if_idx); reflexivity. }
  rewrite pair_lookup_run.
  destruct (pair_of w sw_if_idx) as [lip|] eqn:Hp; [|reflexivity].
  rewrite !(run_bind _ _ _ _ _ (is_sub_run sw_if_idx w)).
  destruct (match sw_interfaces w !! sw_if_idx with
            | Some s => negb (sw_if_idx =? sup_sw_if_index s)
            | None => false
            end); [|reflexivity].
  rewrite pair_lookup_run, Hp. reflexivity.
Qed.

End Dispatch.

Section WalkAll.
Import Sync.

Lemma walk_all_cb_sync_each (l : list Z) (w : world) :
  walk lcp_itf_pair_walk_sync_state_all_cb l w
  = sync_each
      (omap (λ lipi, if lipi =? INDEX_INVALID then None
                     else lip_pool w !! lipi) l) w.
Proof.
  revert w. induction l as [|i l IH]; intros w; [reflexivity|].
  cbn [walk omap list_omap].
  assert (Hcb : lcp_itf_pair_walk_sync_state_all_cb i w
                = match (if i =? INDEX_INVALID then None
                         else lip_pool w !! i) with
                  | None => Ok WALK_CONTINUE w
                  | Some lip =>
                      (lcp_itf_pair_sync_state lip;; mret WALK_CONTINUE) w
                  end).
  { unfold lcp_itf_pair_walk_sync_state_all_cb.
    erewrite run_bind by reflexivity.
    destruct (if i =? INDEX_INVALID then None else lip_pool w !! i);
      reflexivity. }
  destruct (if i =? INDEX_INVALID then None else lip_pool w !! i)
    as [lip|] eqn:Hp.
  2:{ rewrite (run_bind _ _ _ _ _ Hcb). apply IH. }
  cbn [sync_each foldr].
  destruct (sync_state_registry w lip) as [Hr1 _].
  destruct (lcp_itf_pair_sync_state lip w) as [[] w1|w1] eqn:Hrun.
  - rewrite (run_bind _ _ _ _ _ Hrun) in Hcb.
    rewrite (run_bind _ _ _ _ _ Hcb), (run_bind _ _ _ _ _ Hrun).
    cbn [final] in Hr1. rewrite IH, Hr1. reflexivity.
  - rewrite (run_bind_fault _ _ _ _ Hrun) in Hcb.
    rewrite (run_bind_fault _ _ _ _ Hcb), (run_bind_fault _ _ _ _ Hrun).
    reflexivity.
Qed.

Lemma omap_lookup_pairs {A} (m : gmap Z A) (bad : Z) (l : list (Z * A)) :
  m !! bad = None → (∀ k v, (k, v) ∈ l → m !! k = Some v) →
  omap (λ k, if k =? bad then None else m !! k) l.*1 = l.*2.
Proof.
  intros Hbad. induction l as [|[k v] l IH]; intros Hl; [reflexivity|].
  cbn [fmap list_fmap omap list_omap fst snd].
  pose proof (Hl k v ltac:(left)) as Hk.
  destruct (Z.eqb_spec k bad) as [->|_]; [congruence|].
  rewrite Hk. f_equal. apply IH. intros k' v' Hin. apply Hl. right. exact Hin.
Qed.

(** X14. [lcp_itf_pair_sync_state_all] is a run of
    [lcp_itf_pair_sync_state] on every pair of the registry, once each,
    in the order of the registry's walk, no pair being held at the
    invalid index. *)
Theorem sync_state_all_each_pair (w : world) :
  lip_pool w !! INDEX_INVALID = None →
  lcp_itf_pair_sync_state_all w
  = sync_each (map_to_list (lip_pool w)).*2 w.
Proof.
  intros Hbad. unfold lcp_itf_pair_sync_state_all, lcp_itf_pair_walk.
  erewrite run_bind by reflexivity.
  rewrite walk_all_cb_sync_each.
  rewrite (omap_lookup_pairs (lip_pool w) INDEX_INVALID _ Hbad);
    [reflexivity|].
  intros k v Hin. apply elem_of_map_to_list. exact Hin.
Qed.

End WalkAll.

Section Tables.
Import Sync.
Local Open Scope string_scope.

Lemma pretty_N_go_length (d : nat) (x : N) (s : string) :
  (x < 10 ^ N.of_nat d)%N →
  (String.length (pretty_N_go x s) ≤ String.length s + d)%nat.
Proof.
  revert x s. induction d as [|d IH]; intros x s Hx.
  - assert (x = 0%N) as -> by (cbn in Hx; lia).
    rewrite pretty_N_go_0. lia.
  - destruct (decide (x = 0%N)) as [->|Hne].
    { rewrite pretty_N_go_0. lia. }
    rewrite pretty_N_go_step by lia.
    etransitivity; [apply IH|cbn [String.length]; lia].
    rewrite Nat2N.inj_succ, N.pow_succ_r' in Hx.
    apply N.Div0.div_lt_upper_bound. lia.
Qed.

Lemma pretty_u32_length (z : Z) :
  0 ≤ z < 2 ^ 32 → (String.length (pretty z) ≤ 10)%nat.
Proof.
  intros Hz. unfold pretty, pretty_Z.
  destruct z as [|p|p]; [cbn; lia | | lia].
  unfold pretty, pretty_N. destruct (decide (N.pos p = 0%N)); [cbn; lia|].
  apply (pretty_N_go_length 10 (N.pos p) ""). cbn. lia.
Qed.

Lemma substring_all (s : string) (n : nat) :
  (String.length s ≤ n)%nat → String.substring 0 n s = s.
Proof.
  revert n. induction s as [|c s IH]; intros n Hn.
  - destruct n; reflexivity.
  - destruct n; [cbn in Hn; lia|]. cbn [String.substring]. f_equal.
    apply IH. cbn in Hn. lia.
Qed.

Lemma append_length (s t : string) :
  String.length (s +:+ t) = (String.length s + String.length t)%nat.
Proof. induction s as [|c s IH]; simpl; [|rewrite IH]; reflexivity. Qed.

Lemma append_inj_r (s a b : string) : s +:+ a = s +:+ b → a = b.
Proof.
  induction s as [|c s IH]; simpl; intros H; [exact H|].
  injection H as H. apply IH. exact H.
Qed.

Lemma vrf_if_name_eq (table_id : Z) :
  0 ≤ table_id < 2 ^ 32 → vrf_if_name table_id = "vpp-vrf" +:+ pretty table_id.
Proof.
  intros Ht. unfold vrf_if_name, u32. rewrite Z.mod_small by lia.
  apply substring_all.
  pose proof (pretty_u32_length table_id Ht). rewrite append_length.
  cbn [String.length]. lia.
Qed.

(** X17. The link of a forwarding table. For a 32-bit table id the name
    is vpp-vrf followed by the id in decimal, it fits the 32-byte
    buffer, and two table ids never share a name. With nonzero flags
    [lcp_itf_ip_table_add_del] asks for that link to be added, whatever
    the tables are; with zero flags it asks for the link to be deleted
    as soon as one of the two families has no table of that id, and does
    nothing only when both still have one. *)
Theorem ip_table_add_del_calls (fib_table_find : fib_protocol_t → Z → Z)
    (table_id flags : Z) :
  0 ≤ table_id < 2 ^ 32 →
  let r := lcp_itf_ip_table_add_del fib_table_find table_id flags in
  vrf_if_name table_id = "vpp-vrf" +:+ pretty table_id
  ∧ (∀ t, 0 ≤ t < 2 ^ 32 → vrf_if_name t = vrf_if_name table_id →
       t = table_id)
  ∧ (flags ≠ 0 → r = Some (CallAddLinkVrf table_id (vrf_if_name table_id)))
  ∧ (flags = 0 →
     fib_table_find FIB_PROTOCOL_IP4 table_id = INDEX_INVALID
     ∨ fib_table_find FIB_PROTOCOL_IP6 table_id = INDEX_INVALID →
     r = Some (CallDelLink (vrf_if_name table_id)))
  ∧ (flags = 0 →
     fib_table_find FIB_PROTOCOL_IP4 table_id ≠ INDEX_INVALID →
     fib_table_find FIB_PROTOCOL_IP6 table_id ≠ INDEX_INVALID →
     r = None).
Proof.
  intros Ht r. subst r. unfold lcp_itf_ip_table_add_del. cbv zeta.
  split; [apply vrf_if_name_eq; exact Ht|].
  split.
  { intros t Ht' He. rewrite !vrf_if_name_eq in He by assumption.
    apply append_inj_r in He. apply (inj pretty) in He. exact He. }
  split.
  { intros Hf. apply Z.eqb_neq in Hf. rewrite Hf. reflexivity. }
  split.
  - intros -> [H4|H6]; cbn [Z.eqb negb].
    + rewrite H4, Z.eqb_refl. reflexivity.
    + rewrite H6, Z.eqb_refl, orb_true_r. reflexivity.
  - intros -> H4 H6. cbn [Z.eqb negb].
    apply Z.eqb_neq in H4, H6. rewrite H4, H6. reflexivity.
Qed.

End Tables.

Section TableBind.
Import Sync.

(** X15. A table-bind event makes at most one transaction, a set-master
    on the vif index of the pair of the interface, only with sync
    enabled, and changes nothing else. Unlike the address handlers it
    enters no namespace: the transaction is made in the namespace of the
    caller. When the new table id is 0 it clears the master, whatever
    host-side records there are. *)
Theorem table_bind_in_callers_namespace (proto : fib_protocol_t)
    (sw_if_idx new_fib_index old_fib_index : Z) (w : world) :
  ∃ evs,
    lcp_itf_ipX_table_bind proto sw_if_idx new_fib_index old_fib_index w
    = Ok () (set_trace (trace w ++ evs) w)
    ∧ (length evs ≤ 1)%nat
    ∧ (∀ e, e ∈ evs →
         lcp_sync_on w = true
         ∧ ∃ lip master,
             pair_of w sw_if_idx = Some lip
             ∧ e = EvNetlinkSetLinkMaster (active_ns (os w))
                     (lip_vif_index lip) master)
    ∧ (∀ lip, lcp_sync_on w = true → pair_of w sw_if_idx = Some lip →
         fib_table_id w proto new_fib_index = 0 →
         evs = [EvNetlinkSetLinkMaster (active_ns (os w)) (lip_vif_index lip)
                  EmptyString]).
Proof.
  exists (table_bind_events proto sw_if_idx new_fib_index w).
  split; [apply table_bind_run|].
  unfold table_bind_events.
  destruct (lcp_sync_on w).
  2:{ split; [cbn; lia|]. split; [intros e He; inversion He|].
      intros lip Hd. discriminate Hd. }
  destruct (pair_of w sw_if_idx) as [lip|].
  2:{ split; [cbn; lia|]. split; [intros e He; inversion He|].
      intros lip _ Hd. discriminate Hd. }
  cbv zeta.
  destruct (fib_table_id w proto new_fib_index =? 0) eqn:Hid.
  { split; [cbn; lia|]. split.
    - intros e He. apply list_elem_of_singleton in He as ->.
      split; [reflexivity|]. eexists _, _. split; reflexivity.
    - intros lip' _ Hl _. injection Hl as <-. reflexivity. }
  assert (Hne : ∀ lip' : lcp_itf_pair_t,
            true = true → Some lip = Some lip' →
            fib_table_id w proto new_fib_index = 0 →
            ∀ evs : list event,
              evs = [EvNetlinkSetLinkMaster (active_ns (os w))
                       (lip_vif_index lip') EmptyString]).
  { intros lip' _ _ H0. apply Z.eqb_neq in Hid. contradiction. }
  destruct (List.find _ _) as [nlt|].
  2:{ split; [cbn; lia|]. split; [intros e He; inversion He|].
      intros lip' H1 H2 H3. apply (Hne lip' H1 H2 H3). }
  destruct (nlt_if_index nlt =? INDEX_INVALID).
  { split; [cbn; lia|]. split; [intros e He; inversion He|].
    intros lip' H1 H2 H3. apply (Hne lip' H1 H2 H3). }
  destruct (kl_name <$> _) as [n|].
  2:{ split; [cbn; lia|]. split; [intros e He; inversion He|].
      intros lip' H1 H2 H3. apply (Hne lip' H1 H2 H3). }
  split; [cbn; lia|]. split.
  - intros e He. apply list_elem_of_singleton in He as ->.
    split; [reflexivity|]. eexists _, _. split; reflexivity.
  - intros lip' H1 H2 H3. apply (Hne lip' H1 H2 H3).
Qed.

End TableBind.

Section InterfaceAddDel.
Import Sync.

(** X16. Interface add/del with sub-interface mirroring enabled. For an
    interface that is not in the pool, or is not a sub-interface, the
    handler does nothing. On creation of a sub-interface whose parent
    has a pair it asks the registry for one pair, named by the host name
    of the parent's pair, a dot and the sub-id printed as a signed
    decimal, in the namespace of the parent's pair, and does nothing
    when the parent has no pair. On deletion it deletes the pair of the
    sub-interface if there is one, after which the interface has none
    and the pairs of the other interfaces are registered as before. It
    changes no interface, no kernel link and no namespace. *)
Theorem interface_add_del_dispatch (w : world) (sw_if_idx is_create : Z) :
  lcp_auto_subint_on w = true →
  let r := lcp_itf_interface_add_del sw_if_idx is_create w in
  (sw_interfaces w !! sw_if_idx = None → r = Ok () w)
  ∧ (∀ si, sw_interfaces w !! sw_if_idx = Some si →
       sup_sw_if_index si = sw_if_idx → r = Ok () w)
  ∧ (∀ si, sw_interfaces w !! sw_if_idx = Some si →
       sup_sw_if_index si ≠ sw_if_idx → is_create ≠ 0 →
       r = Ok ()
             (set_trace
                (trace w
                 ++ match pair_of w (sup_sw_if_index si) with
                    | Some sup_lip =>
                        [EvPairCreate (sw_if_index si)
                           (lip_host_name sup_lip +:+ "."
                            +:+ pretty (int32 (sub_id si)))
                           (lip_namespace sup_lip)]
                    | None => []
                    end) w))
  ∧ (∀ si, sw_interfaces w !! sw_if_idx = Some si →
       sup_sw_if_index si ≠ sw_if_idx → is_create = 0 →
       ∃ w', r = Ok () w'
         ∧ pair_of w' sw_if_idx = None
         ∧ (∀ j, j ≠ sw_if_idx →
              lip_db_by_phy w' !! j = lip_db_by_phy w !! j)
         ∧ events_since w r
           = match pair_of w sw_if_idx with
             | Some _ => [EvPairDelete sw_if_idx]
             | None => []
             end
         ∧ sw_interfaces w' = sw_interfaces w
         ∧ kernel_links w' = kernel_links w
         ∧ os w' = os w).
Proof.
  intros Ha r. subst r. unfold lcp_itf_interface_add_del.
  erewrite run_bind by reflexivity. rewrite Ha. cbn [negb].
  erewrite run_bind by reflexivity.
  split; [intros ->; reflexivity|].
  assert (Hsub : ∀ si, sw_interfaces w !! sw_if_idx = Some si →
            vnet_sw_interface_is_sub sw_if_idx w
            = Ok (negb (sw_if_idx =? sup_sw_if_index si)) w).
  { intros si Hsi. unfold vnet_sw_interface_is_sub, get. rewrite Hsi.
    reflexivity. }
  split; [|split].
  - intros si Hsi Hsup. rewrite Hsi.
    rewrite (run_bind _ _ _ _ _ (Hsub si Hsi)), Hsup, Z.eqb_refl. reflexivity.
  - intros si Hsi Hsup Hc. rewrite Hsi.
    rewrite (run_bind _ _ _ _ _ (Hsub si Hsi)).
    destruct (Z.eqb_spec sw_if_idx (sup_sw_if_index si)) as [He|_];
      [congruence|]. cbn [negb].
    rewrite (run_bind _ _ _ _ _ (sw_field_run _ sw_if_index w si Hsi)).
    rewrite (run_bind _ _ _ _ _ (sw_field_run _ sup_sw_if_index w si Hsi)).
    apply Z.eqb_neq in Hc. rewrite Hc. cbn [negb].
    rewrite (run_bind _ _ _ _ _ (sw_field_run _ sup_sw_if_index w si Hsi)).
    rewrite pair_lookup_run.
    destruct (pair_of w (sup_sw_if_index si)) as [sup_lip|].
    + rewrite (run_bind _ _ _ _ _ (sw_field_run _ sub_id w si Hsi)).
      rewrite (run_bind _ _ _ _ _ (sw_field_run _ sw_if_index w si Hsi)).
      reflexivity.
    + rewrite app_nil_r, set_trace_id. reflexivity.
  - intros si Hsi Hsup ->. rewrite Hsi.
    rewrite (run_bind _ _ _ _ _ (Hsub si Hsi)).
    destruct (Z.eqb_spec sw_if_idx (sup_sw_if_index si)) as [He|_];
      [congruence|]. cbn [negb].
    rewrite (run_bind _ _ _ _ _ (sw_field_run _ sw_if_index w si Hsi)).
    rewrite (run_bind _ _ _ _ _ (sw_field_run _ sup_sw_if_index w si Hsi)).
    cbn [Z.eqb negb].
    assert (Hdel : lcp_itf_pair_delete sw_if_idx w
              = match pair_of w sw_if_idx with
                | None => Ok () w
                | Some _ =>
                    Ok () (set_pairs
                             (delete (default INDEX_INVALID
                                        (lip_db_by_phy w !! sw_if_idx))
                                (lip_pool w))
                             (delete sw_if_idx (lip_db_by_phy w))
                             (set_trace (trace w ++ [EvPairDelete sw_if_idx])
                                w))
                end).
    { unfold lcp_itf_pair_delete, pair_of.
      do 2 erewrite run_bind by reflexivity.
      destruct (if default INDEX_INVALID (lip_db_by_phy w !! sw_if_idx)
                   =? INDEX_INVALID
                then None
                else lip_pool w !! default INDEX_INVALID
                                     (lip_db_by_phy w !! sw_if_idx));
        reflexivity. }
    rewrite Hdel.
    destruct (pair_of w sw_if_idx) as [lip|] eqn:Hp.
    + eexists. split; [reflexivity|].
      unfold events_since. cbn [final].
      cbn [set_pairs set_trace trace lip_db_by_phy lip_pool sw_interfaces
           kernel_links os].
      split.
      { unfold pair_of.
        cbn [set_pairs set_trace trace lip_db_by_phy lip_pool].
        rewrite lookup_delete_eq. reflexivity. }
      split; [intros j Hj; apply lookup_delete_ne; congruence|].
      split; [apply drop_app_length|].
      repeat split; reflexivity.
    + exists w. split; [reflexivity|]. split; [exact Hp|].
      split; [reflexivity|].
      split; [unfold events_since; cbn [final]; apply drop_all|].
      repeat split; reflexivity.
Qed.

End InterfaceAddDel.

Section WalkMirrors.
Import Sync.

(** What one run leaves of the interfaces, for the runs that follow. *)
Lemma sync_state_step (w : world) (lip : lcp_itf_pair_t)
    (sw sup : vnet_sw_interface_t) :
  lcp_sync_on w = true →
  sw_interfaces w !! lip_phy_sw_if_index lip = Some sw →
  sw_interfaces w !! sup_sw_if_index sw = Some sup →
  ∃ w1, lcp_itf_pair_sync_state lip w = Ok () w1
    ∧ lcp_sync_on w1 = true
    ∧ (∀ i s, sw_interfaces w !! i = Some s →
         ∃ s1, sw_interfaces w1 !! i = Some s1
           ∧ sup_sw_if_index s1 = sup_sw_if_index s
           ∧ (i ≠ lip_host_sw_if_index lip → flags s1 = flags s)
           ∧ (i = lip_host_sw_if_index lip →
              admin_up s1 = state_by_spec sw sup))
    ∧ (∀ i, sw_interfaces w !! i = None → sw_interfaces w1 !! i = None).
Proof.
  intros Hs Hsw Hsup. exists (synced_world lip sw sup w).
  split; [apply sync_state_world; assumption|].
  split; [exact Hs|].
  unfold synced_world. wproj. split.
  - intros i s Hi.
    destruct (synced_lookup lip (pushed_state sw sup) (effective_mtu sw sup)
                _ _ _ Hi) as (s1 & Hs1 & Hsupidx & _ & Hf).
    exists s1. split; [exact Hs1|]. split; [exact Hsupidx|]. split.
    + intros Hne. rewrite Hf, decide_False by exact Hne. reflexivity.
    + intros He. rewrite decide_True in Hf by exact He.
      unfold admin_up at 1. rewrite Hf.
      change (Z.testbit (flags (set_admin ?x ?y)) 0)
        with (admin_up (set_admin x y)).
      rewrite admin_up_set_admin, pushed_state_by_spec.
      destruct (state_by_spec sw sup); reflexivity.
  - intros i Hi. apply synced_lookup_None. exact Hi.
Qed.

Lemma state_by_spec_flags (sw sup sw1 sup1 : vnet_sw_interface_t) :
  flags sw1 = flags sw → flags sup1 = flags sup →
  state_by_spec sw1 sup1 = state_by_spec sw sup.
Proof.
  intros H1 H2. unfold state_by_spec, admin_up. rewrite H1, H2. reflexivity.
Qed.

Lemma sync_each_mirrors (lips : list lcp_itf_pair_t) (w : world) :
  lcp_sync_on w = true → pairs_resolve lips w → mirrors_apart lips w →
  ∃ w', sync_each lips w = Ok () w'
    ∧ (∀ lip sw sup h, lip ∈ lips →
         sw_interfaces w !! lip_phy_sw_if_index lip = Some sw →
         sw_interfaces w !! sup_sw_if_index sw = Some sup →
         sw_interfaces w !! lip_host_sw_if_index lip = Some h →
         ∃ h', sw_interfaces w' !! lip_host_sw_if_index lip = Some h'
           ∧ admin_up h' = state_by_spec sw sup)
    ∧ (∀ i s, i ∉ lip_host_sw_if_index <$> lips →
         sw_interfaces w !! i = Some s →
         ∃ s', sw_interfaces w' !! i = Some s' ∧ flags s' = flags s).
Proof.
  revert w. induction lips as [|lip lips IH]; intros w Hs Hres Hapart.
  { exists w. split; [reflexivity|]. split.
    - intros lip sw sup h Hin. inversion Hin.
    - intros i s _ Hi. exists s. split; [exact Hi | reflexivity]. }
  destruct Hapart as [Hnd Hap]. cbn [fmap list_fmap] in Hnd.
  apply NoDup_cons in Hnd as [Hhead Hnd].
  destruct (Hres lip ltac:(left)) as (sw & sup & Hsw & Hsup).
  destruct (sync_state_step w lip sw sup Hs Hsw Hsup)
    as (w1 & Hr & Hs1 & Hkeep & Hnone).
  assert (Hres1 : pairs_resolve lips w1).
  { intros l Hl. destruct (Hres l ltac:(right; exact Hl))
      as (s & p & Hs0 & Hp0).
    destruct (Hkeep _ _ Hs0) as (s1 & Hs1' & Hidx & _).
    destruct (Hkeep _ _ Hp0) as (p1 & Hp1 & _).
    exists s1, p1. split; [exact Hs1'|]. rewrite Hidx. exact Hp1. }
  assert (Hap1 : mirrors_apart lips w1).
  { split; [exact Hnd|]. intros l l' s1 Hl Hl' Hs1'.
    destruct (Hres l ltac:(right; exact Hl)) as (s & p & Hs0 & _).
    destruct (Hkeep _ _ Hs0) as (s1' & Hs1'' & Hidx & _).
    rewrite Hs1' in Hs1''. injection Hs1'' as <-. rewrite Hidx.
    apply (Hap l l' s); [right; exact Hl | right; exact Hl' | exact Hs0]. }
  destruct (IH w1 Hs1 Hres1 Hap1) as (w' & Hrun & Hmir & Hframe).
  exists w'. split.
  { cbn [sync_each foldr]. rewrite (run_bind _ _ _ _ _ Hr). exact Hrun. }
  split.
  - intros l s p h Hl Hs0 Hp0 Hh.
    apply elem_of_cons in Hl as [->|Hl].
    + rewrite Hsw in Hs0. injection Hs0 as <-.
      rewrite Hsup in Hp0. injection Hp0 as <-.
      destruct (Hkeep _ _ Hh) as (h1 & Hh1 & _ & _ & Hadm).
      destruct (Hframe _ _ Hhead Hh1) as (h' & Hh' & Hfl).
      exists h'. split; [exact Hh'|].
      unfold admin_up at 1. rewrite Hfl. apply Hadm. reflexivity.
    + destruct (Hap l lip s ltac:(right; exact Hl) ltac:(left) Hs0)
        as [Hne1 Hne2].
      destruct (Hkeep _ _ Hs0) as (s1 & Hs1' & Hidx & Hfs & _).
      destruct (Hkeep _ _ Hp0) as (p1 & Hp1 & _ & Hfp & _).
      destruct (Hkeep _ _ Hh) as (h1 & Hh1 & _).
      rewrite <- Hidx in Hp1.
      destruct (Hmir l s1 p1 h1 Hl Hs1' Hp1 Hh1) as (h' & Hh' & Hadm).
      exists h'. split; [exact Hh'|]. rewrite Hadm.
      apply state_by_spec_flags; [apply Hfs | apply Hfp]; congruence.
  - intros i s Hi Hlook. cbn [fmap list_fmap] in Hi.
    apply not_elem_of_cons in Hi as [Hne Hi].
    destruct (Hkeep _ _ Hlook) as (s1 & Hs1' & _ & Hfs & _).
    destruct (Hframe _ _ Hi Hs1') as (s' & Hs' & Hfl).
    exists s'. split; [exact Hs'|]. rewrite Hfl. apply Hfs. exact Hne.
Qed.

(** X18. After the walk over the software interfaces of a hardware
    interface (run by the admin-state and MTU handlers for an interface
    that is not a sub-interface), the mirrors follow: when the pairs of
    the walk resolve and their mirrors are interfaces of their own, the
    walk returns, the mirror of every pair of the walk is admin-up
    exactly when the physical interface of the pair and its parent are,
    and the flags of every interface that is not one of these mirrors
    are as before. *)
Theorem hw_walk_mirrors_follow (w : world) (i : Z) (hi : vnet_hw_interface_t) :
  lcp_sync_on w = true →
  hw_interfaces w !! i = Some hi → hi_hw_if_index hi = i →
  let lips := omap (pair_of w) (hi_walk_sw hi) in
  pairs_resolve lips w → mirrors_apart lips w →
  ∃ w', lcp_itf_pair_sync_state_hw (Some i) w = Ok () w'
    ∧ (∀ lip sw sup h, lip ∈ lips →
         sw_interfaces w !! lip_phy_sw_if_index lip = Some sw →
         sw_interfaces w !! sup_sw_if_index sw = Some sup →
         sw_interfaces w !! lip_host_sw_if_index lip = Some h →
         ∃ h', sw_interfaces w' !! lip_host_sw_if_index lip = Some h'
           ∧ admin_up h' = state_by_spec sw sup)
    ∧ (∀ j s, j ∉ lip_host_sw_if_index <$> lips →
         sw_interfaces w !! j = Some s →
         ∃ s', sw_interfaces w' !! j = Some s' ∧ flags s' = flags s).
Proof.
  intros Hs Hhi Hidx lips Hres Hap.
  rewrite (sync_state_hw_run w i hi Hhi), Hidx, Hhi.
  apply sync_each_mirrors; assumption.
Qed.

End WalkMirrors.

(** ** The further properties at the concrete worlds *)

Section FurtherInstances.
Import Sync Netlink Examples.

(** X2 at a concrete input: the acknowledgement that follows another
    message in a reply of 52 bytes. *)
Lemma reply_walk_in_bounds_witness :
  (length dump ≤ sizeof_buf)%nat
  ∧ 16%nat ∈ nlmsg_offsets walk_fuel (recv_into (replicate 4096 xff) dump) 0
               (Z.of_nat (length dump))
  ∧ Z.of_nat 16 + nlmsg_len (recv_into (replicate 4096 xff) dump) 16
    ≤ Z.of_nat (length dump)
  ∧ data (reply_copy (recv_into (replicate 4096 xff) dump) 16)
    = take (Z.to_nat (nlmsg_len (recv_into (replicate 4096 xff) dump) 16))
        (drop 16 dump).
Proof.
  assert (H1 : (length dump ≤ sizeof_buf)%nat)
    by (apply Nat.leb_le; vm_compute; reflexivity).
  assert (H2 : 16%nat ∈ nlmsg_offsets walk_fuel
                          (recv_into (replicate 4096 xff) dump) 0
                          (Z.of_nat (length dump))).
  { vm_compute. apply list_elem_of_further, list_elem_of_here. }
  split; [exact H1|]. split; [exact H2|].
  destruct (reply_walk_in_bounds (replicate 4096 xff) dump 16 H1 H2)
    as (_ & _ & Hend & Hcopy).
  split; [exact Hend | exact Hcopy].
Defined.

(** X3 at a concrete input: a refusal with its error code, and a buffer
    that held zeros instead. *)
Lemma msg_send_ignores_stale_buffer_witness :
  sys_recv sys_nack = SysOk nack
  ∧ vnet_netlink_msg_send (with_stack (replicate 4096 x00) sys_nack)
      (del_ip4_addr_msg 101 addr4 32) None
    = vnet_netlink_msg_send sys_nack (del_ip4_addr_msg 101 addr4 32) None.
Proof.
  split; [reflexivity|].
  apply (msg_send_ignores_stale_buffer sys_nack _ None (replicate 4096 x00)
           nack eq_refl).
  intros nh Hin _. vm_compute in Hin.
  apply list_elem_of_singleton in Hin as ->. vm_compute. discriminate.
Defined.

(** X4 at a concrete input: the buffer held bytes 0xff, and the bare
    header is reported as the netlink error -1. *)
Lemma msg_send_truncated_error_witness :
  sys_socket sys_bare_error = SysOk 4 ∧ sys_bind sys_bare_error = SysOk ()
  ∧ sys_recv sys_bare_error = SysOk (nlmsghdr_bytes 16 NLMSG_ERROR 0 0 0)
  ∧ sr_err (vnet_netlink_msg_send sys_bare_error
              (del_ip4_addr_msg 101 addr4 32) None)
    = Some (ErrNetlink (-1)).
Proof.
  split; [reflexivity|]. split; [reflexivity|]. split; [reflexivity|].
  rewrite (msg_send_truncated_error sys_bare_error _ None 4 0 0 0
             eq_refl eq_refl eq_refl).
  vm_compute. reflexivity.
Defined.

Lemma attrs4_ok : Forall rtattr_arg_ok attrs4.
Proof.
  repeat constructor; cbn; try lia.
Qed.

(** X5 at a concrete input: the request of an IPv4 address delete,
    40 bytes. *)
Lemma built_message_walks_as_one_witness :
  0 ≤ 8 ∧ (Z.to_nat 8 ≤ length ifa4)%nat ∧ Forall rtattr_arg_ok attrs4
  ∧ NLMSG_LENGTH 8 + 3 + attrs_space attrs4 < 2 ^ 31
  ∧ let m := add_rtattrs (vnet_netlink_msg_init RTM_DELADDR NLM_F_REQUEST
                            ifa4 8) attrs4 in
    let wire := store (data m) off_nlmsg_len
                  (le_encode 4 (Z.of_nat (length (data m)))) in
    Z.of_nat (length wire) = 40
    ∧ nlmsg_offsets walk_fuel wire 0 (Z.of_nat (length wire)) = [0%nat].
Proof.
  assert (H1 : (Z.to_nat 8 ≤ length ifa4)%nat)
    by (apply Nat.leb_le; vm_compute; reflexivity).
  assert (H2 : NLMSG_LENGTH 8 + 3 + attrs_space attrs4 < 2 ^ 31)
    by (vm_compute; reflexivity).
  split; [lia|]. split; [exact H1|]. split; [exact attrs4_ok|].
  split; [exact H2|].
  destruct (built_message_walks_as_one RTM_DELADDR NLM_F_REQUEST ifa4 8
              attrs4 ltac:(lia) H1 attrs4_ok H2) as (Hl & _ & _ & _ & Hw).
  cbv zeta. split; [rewrite Hl; vm_compute; reflexivity | exact Hw].
Defined.

(** X6 at a concrete input: the two attributes of that request. *)
Lemma rtattr_round_trip_witness :
  0 ≤ 8 ∧ (Z.to_nat 8 ≤ length ifa4)%nat ∧ Forall rtattr_arg_ok attrs4
  ∧ NLMSG_LENGTH 8 + 3 + attrs_space attrs4 < 2 ^ 31
  ∧ let m := add_rtattrs (vnet_netlink_msg_init RTM_DELADDR NLM_F_REQUEST
                            ifa4 8) attrs4 in
    rta_walk 3 (drop (Z.to_nat (NLMSG_SPACE 8)) (data m))
      (Z.of_nat (length (data m)) - NLMSG_SPACE 8)
    = [(IFA_LOCAL, addr4); (IFA_ADDRESS, addr4)].
Proof.
  assert (H1 : (Z.to_nat 8 ≤ length ifa4)%nat)
    by (apply Nat.leb_le; vm_compute; reflexivity).
  assert (H2 : NLMSG_LENGTH 8 + 3 + attrs_space attrs4 < 2 ^ 31)
    by (vm_compute; reflexivity).
  split; [lia|]. split; [exact H1|]. split; [exact attrs4_ok|].
  split; [exact H2|].
  exact (rtattr_round_trip RTM_DELADDR NLM_F_REQUEST ifa4 8 attrs4
           ltac:(lia) H1 attrs4_ok H2).
Defined.

Lemma sync_state_world0 :
  lcp_itf_pair_sync_state lip2 world0 = Ok () (synced_world lip2 sw2 sw1 world0).
Proof. apply sync_state_world; reflexivity. Qed.

(** X8 at a concrete input: the sub-interface's pair, twice. *)
Lemma sync_state_idempotent_witness :
  ∃ w1 w2,
    lcp_itf_pair_sync_state lip2 world0 = Ok () w1
    ∧ lcp_itf_pair_sync_state lip2 w1 = Ok () w2
    ∧ sw_interfaces w2 = sw_interfaces w1
    ∧ kernel_links w2 = kernel_links w1
    ∧ kl_mtu <$> kernel_links w1 !! (5, 101) = Some 1400.
Proof.
  exists (synced_world lip2 sw2 sw1 world0).
  destruct (sync_state_idempotent world0 _ lip2 sync_state_world0)
    as (w2 & Hr & Hi & Hk & _).
  exists w2. split; [exact sync_state_world0|]. split; [exact Hr|].
  split; [exact Hi|]. split; [exact Hk|]. vm_compute. reflexivity.
Defined.

(** X9 at a concrete input: the descriptor table is empty before and
    after a run that switched namespaces. *)
Lemma guarded_functions_close_descriptors_witness :
  ∃ w', lcp_itf_pair_sync_state lip2 world0 = Ok () w'
    ∧ fds_fresh (os world0)
    ∧ ns_fds (os w') = ns_fds (os world0).
Proof.
  exists (synced_world lip2 sw2 sw1 world0).
  assert (Hf : fds_fresh (os world0)) by (intros n _; apply lookup_empty).
  split; [exact sync_state_world0|]. split; [exact Hf|].
  destruct (guarded_functions_close_descriptors world0 _ lip2 0 [] 0 0
              (or_introl sync_state_world0)) as [_ Hfresh].
  exact (Hfresh Hf).
Defined.

(** X10 at a concrete input: the query of a run on the sub-interface's
    pair is made in namespace 5. *)
Lemma guarded_transactions_in_pair_namespace_witness :
  event_ns (EvNetlinkGetLinkMtu 5 101) = Some 5
  ∧ EvNetlinkGetLinkMtu 5 101
    ∈ events_since world0 (lcp_itf_pair_sync_state lip2 world0)
  ∧ 5 = body_ns lip2 (os world0).
Proof.
  assert (Hin : EvNetlinkGetLinkMtu 5 101
                ∈ events_since world0 (lcp_itf_pair_sync_state lip2 world0)).
  { rewrite sync_state_world0. vm_compute.
    do 3 apply list_elem_of_further. apply list_elem_of_here. }
  split; [reflexivity|]. split; [exact Hin|].
  destruct (guarded_transactions_in_pair_namespace world0 lip2 0 [] 0 0
              (EvNetlinkGetLinkMtu 5 101) 5 eq_refl) as (Hsync & _).
  exact (Hsync Hin).
Defined.

(** X11 at a concrete input: the delete of 203.0.113.5/32 on the
    sub-interface. *)
Lemma addr_change_transaction_witness :
  lcp_sync_on world0 = true
  ∧ pair_of world0 2 = Some lip2
  ∧ events_since world0
      (lcp_itf_ip4_add_del_interface_addr 2 addr4 32 1 world0)
    = [EvNetlinkSend 5 (del_addr_wire AF_INET 101 32 addr4)].
Proof.
  split; [reflexivity|]. split; [reflexivity|].
  destruct (addr_change_transaction world0 false 2 addr4 32 1 eq_refl)
    as (_ & Hpair).
  destruct (Hpair lip2 eq_refl) as (w' & _ & _ & Hdel & _).
  destruct (Hdel ltac:(lia)) as (Hsent & _).
  exact (Hsent 4 eq_refl eq_refl eq_refl).
Defined.

(** X12 at a concrete input: the device has no pair, its sub-interface
    has one, and an MTU change on the device re-syncs the
    sub-interface. *)
Lemma mtu_change_dispatch_witness :
  lcp_sync_on world_unpaired_parent = true
  ∧ pair_of world_unpaired_parent 1 = None
  ∧ lcp_itf_mtu_change 1 0 world_unpaired_parent
    = sync_each [lip2] world_unpaired_parent.
Proof.
  split; [reflexivity|]. split; [reflexivity|].
  destruct (mtu_change_dispatch world_unpaired_parent 1 0 eq_refl)
    as (_ & _ & Hhw & _).
  exact (Hhw sw1 hw1 eq_refl eq_refl eq_refl eq_refl).
Defined.

(** X14 at a concrete input: the registry walk reaches the pair of the
    sub-interface first. *)
Lemma sync_state_all_each_pair_witness :
  lip_pool world0 !! INDEX_INVALID = None
  ∧ lcp_itf_pair_sync_state_all world0 = sync_each [lip2; lip1] world0.
Proof.
  split; [reflexivity|].
  rewrite (sync_state_all_each_pair world0 eq_refl). reflexivity.
Defined.

(** X16 at a concrete input: the creation of sub-interface 3, sub-id 9,
    of the device. *)
Lemma interface_add_del_dispatch_witness :
  lcp_auto_subint_on world_sync_off = true
  ∧ lcp_itf_interface_add_del 3 1 world_sync_off
    = Ok () (set_trace
               [EvPairCreate 3 "host0.9" (Some "dataplane"%string)] world_sync_off).
Proof.
  split; [reflexivity|].
  destruct (interface_add_del_dispatch world_sync_off 3 1 eq_refl)
    as (_ & _ & Hcreate & _).
  rewrite (Hcreate sw3 eq_refl ltac:(discriminate) ltac:(discriminate)).
  reflexivity.
Defined.

(** X17 at a concrete input: table 10 is gone from the IPv6 family only,
    and its link is deleted. *)
Lemma ip_table_add_del_calls_witness :
  0 ≤ 10 < 2 ^ 32
  ∧ fib_only_ip4 FIB_PROTOCOL_IP4 10 ≠ INDEX_INVALID
  ∧ lcp_itf_ip_table_add_del fib_only_ip4 10 0
    = Some (CallDelLink "vpp-vrf10").
Proof.
  split; [lia|]. split; [discriminate|].
  destruct (ip_table_add_del_calls fib_only_ip4 10 0 ltac:(lia))
    as (Hname & _ & _ & Hdel & _).
  rewrite (Hdel eq_refl (or_intror eq_refl)), Hname. reflexivity.
Defined.

Lemma world0_walk_pairs :
  omap (pair_of world0) (hi_walk_sw hw1) = [lip1; lip2].
Proof. reflexivity. Qed.

Lemma world0_pairs_resolve : pairs_resolve [lip1; lip2] world0.
Proof.
  intros lip Hin.
  apply elem_of_cons in Hin as [->|Hin];
    [|apply list_elem_of_singleton in Hin as ->].
  - exists sw1, sw1. split; reflexivity.
  - exists sw2, sw1. split; reflexivity.
Qed.

Lemma world0_mirrors_apart : mirrors_apart [lip1; lip2] world0.
Proof.
  split.
  - apply (bool_decide_unpack _). vm_compute. exact I.
  - intros lip lip' sw Hin Hin' Hsw.
    apply elem_of_cons in Hin as [->|Hin];
      [|apply list_elem_of_singleton in Hin as ->];
      (apply elem_of_cons in Hin' as [->|Hin'];
       [|apply list_elem_of_singleton in Hin' as ->]);
      vm_compute in Hsw; injection Hsw as <-; split; discriminate.
Qed.

(** X18 at a concrete input: the device is down, and after the walk the
    mirror of its sub-interface, which is up, is down. *)
Lemma hw_walk_mirrors_follow_witness :
  lcp_sync_on world0 = true
  ∧ hw_interfaces world0 !! 1 = Some hw1
  ∧ pairs_resolve (omap (pair_of world0) (hi_walk_sw hw1)) world0
  ∧ mirrors_apart (omap (pair_of world0) (hi_walk_sw hw1)) world0
  ∧ ∃ w', lcp_itf_pair_sync_state_hw (Some 1) world0 = Ok () w'
      ∧ admin_up sw2 = true
      ∧ admin_up <$> sw_interfaces w' !! 11 = Some false.
Proof.
  split; [reflexivity|]. split; [reflexivity|].
  rewrite world0_walk_pairs.
  split; [exact world0_pairs_resolve|]. split; [exact world0_mirrors_apart|].
  destruct (hw_walk_mirrors_follow world0 1 hw1 eq_refl eq_refl eq_refl
              world0_pairs_resolve world0_mirrors_apart)
    as (w' & Hr & Hmir & _).
  exists w'. split; [exact Hr|]. split; [reflexivity|].
  destruct (Hmir lip2 sw2 sw1 (tap 11)
              ltac:(apply list_elem_of_further, list_elem_of_here)
              eq_refl eq_refl eq_refl) as (h' & Hh' & Hadm).
  change (lip_host_sw_if_index lip2) with 11 in Hh'.
  rewrite Hh'. cbn [fmap option_fmap option_map]. rewrite Hadm. reflexivity.
Defined.

End FurtherInstances.
